(** * Geodesic shortest paths in simple polygons: geometric kernel

    A shallow embedding of the Python package [geometry] (points, turns,
    line segments, rays, lines, circles, funnels, trapezoids, polygons) and
    of the entry parts of the shortest-path engines in [gsp].

    Numbers.  The Python code computes on [int] and [float] values.  Here a
    coordinate is an exact rational ([Q]): Python integers are exact, every
    finite float is a rational, and the operations used ([+], [-], [*], [/],
    comparisons) are taken with their exact meaning.  Rounding of
    double-precision arithmetic is outside this model.  Python's [==], [<],
    [<=] on numbers are [Qeq_bool], [Qltb], [Qle_bool]. *)

From Stdlib Require Import ZArith QArith Qfield Lqa Lia List Bool.
Import ListNotations.

Open Scope Q_scope.

(** ** Python values shared by the modules *)

(** The exception classes of [geometry/exceptions.py] and the built-in ones
    the modelled code can raise. *)
Inductive exn : Type :=
| GeometryException
| DegeneratedCaseException
| NotInGeneralPositionException
| ThreePointsAreCollinearException
| BoundedFunnelMustNotBeConcaveException
| TooFewPointsException
| ValueError
| AssertionError
| AttributeError
| TypeError
| NotImplementedError.

(** Outcome of a call: it returns a value or raises.  [OutOfFuel] is the
    third outcome of the functions below that model a [while] loop with a
    bound on the number of iterations: the bound was reached. *)
Inductive result (A : Type) : Type :=
| Ok (v : A)
| Raise (e : exn)
| OutOfFuel.

Arguments Ok {A} v.
Arguments Raise {A} e.
Arguments OutOfFuel {A}.

Definition bind {A B : Type} (r : result A) (k : A -> result B) : result B :=
  match r with
  | Ok v => k v
  | Raise e => Raise e
  | OutOfFuel => OutOfFuel
  end.

Notation "x <- r ;; k" := (bind r (fun x => k))
  (at level 61, r at next level, right associativity).
Notation "' pat <- r ;; k" := (bind r (fun pat => k))
  (at level 61, pat pattern, r at next level, right associativity).

(** A loop over a list whose body can raise: the first exception ends it. *)
Fixpoint for_each {A S : Type} (body : S -> A -> result S) (l : list A)
  (s : S) : result S :=
  match l with
  | [] => Ok s
  | x :: l' =>
      match body s x with
      | Ok s' => for_each body l' s'
      | Raise e => Raise e
      | OutOfFuel => OutOfFuel
      end
  end.

(** Python's [enumerate]: the elements with their positions, from [start]. *)
Fixpoint enumerate_from {A : Type} (start : Z) (l : list A) : list (Z * A) :=
  match l with
  | [] => []
  | x :: l' => (start, x) :: enumerate_from (start + 1)%Z l'
  end.

Definition enumerate {A : Type} (l : list A) : list (Z * A) :=
  enumerate_from 0%Z l.

(** [a < b] on numbers. *)
Definition Qltb (a b : Q) : bool := negb (Qle_bool b a).

(** Python's [min] and [max] on two numbers: [min(a, b)] is [b] only when
    [b < a], [max(a, b)] is [b] only when [b > a]. *)
Definition py_min (a b : Q) : Q := if Qltb b a then b else a.
Definition py_max (a b : Q) : Q := if Qltb a b then b else a.

(** [geometry/functions.py]: [sign]. *)
Definition sign (a : Q) : Z :=
  if Qltb 0 a then 1%Z
  else if Qltb a 0 then (-1)%Z
  else 0%Z.

(** ** Points

    [Point] and its subclasses [PolygonPoint], [EdgePoint] (both in
    [polygon_helper.py]) and [IntersectionPoint] (a [PolygonPoint] with an
    [edge], [trapezoid.py]) as one tagged variant.  An absent index or edge
    ([None]) is [None]. *)
Inductive point : Type :=
| Point (x y : Q)
| PolygonPoint (x y : Q) (index : option Z)
| EdgePoint (x y : Q) (index : option Z)
| IntersectionPoint (x y : Q) (index : option Z) (edge : option Z).

Module Point.

Definition CCW_TURN : Z := 1.
Definition NO_TURN : Z := 0.
Definition CW_TURN : Z := -1.

Definition x (p : point) : Q :=
  match p with
  | Point x _ | PolygonPoint x _ _ | EdgePoint x _ _
  | IntersectionPoint x _ _ _ => x
  end.

Definition y (p : point) : Q :=
  match p with
  | Point _ y | PolygonPoint _ y _ | EdgePoint _ y _
  | IntersectionPoint _ y _ _ => y
  end.

(** The attribute [index] of the subclasses; a plain [Point] has none. *)
Definition index (p : point) : option Z :=
  match p with
  | Point _ _ => None
  | PolygonPoint _ _ i | EdgePoint _ _ i | IntersectionPoint _ _ i _ => i
  end.

Definition epsilon : Q := 1 # 1000000.

(** [Point.__eq__]: both coordinate differences within [epsilon]. *)
Definition __eq__ (self other : point) : bool :=
  Qle_bool (- epsilon) (x self - x other) &&
  Qle_bool (x self - x other) epsilon &&
  Qle_bool (- epsilon) (y self - y other) &&
  Qle_bool (y self - y other) epsilon.

Definition __add__ (self other : point) : point :=
  Point (x self + x other) (y self + y other).

Definition __sub__ (self other : point) : point :=
  Point (x self - x other) (y self - y other).

Definition squared_distance_to (self p : point) : Q :=
  (x self - x p) ^ 2 + (y self - y p) ^ 2.

Definition is_right_of (self obj : point) : bool := Qltb (x obj) (x self).
Definition left_of (self obj : point) : bool := Qltb (x self) (x obj).
Definition above (self obj : point) : bool := Qltb (y obj) (y self).
Definition below (self obj : point) : bool := Qltb (y self) (y obj).

(** [Point.turn]: the sign of the cross product (p2 - p1) x (p3 - p1). *)
Definition turn (p1 p2 p3 : point) : Z :=
  sign ((x p2 - x p1) * (y p3 - y p1) - (x p3 - x p1) * (y p2 - y p1)).

(** [tuple()] compared with [==]: both coordinates equal as numbers. *)
Definition tuple_eq (p q : point) : bool :=
  Qeq_bool (x p) (x q) && Qeq_bool (y p) (y q).

(** [tuple()] compared with [<]: lexicographic order on (x, y). *)
Definition tuple_lt (p q : point) : bool :=
  Qltb (x p) (x q) || (Qeq_bool (x p) (x q) && Qltb (y p) (y q)).

End Point.

(** Equality of two optional integers ([self.index == other.index]). *)
Definition opt_Z_eqb (i j : option Z) : bool :=
  match i, j with
  | Some a, Some b => Z.eqb a b
  | None, None => true
  | _, _ => false
  end.

Definition is_polygon_point (p : point) : bool :=
  match p with
  | PolygonPoint _ _ _ | IntersectionPoint _ _ _ _ => true
  | _ => false
  end.

Definition is_edge_point (p : point) : bool :=
  match p with
  | EdgePoint _ _ _ => true
  | _ => false
  end.

(** [PolygonPoint.__eq__] (inherited by [IntersectionPoint]). *)
Definition PolygonPoint__eq__ (self other : point) : bool :=
  if is_polygon_point other then
    Point.__eq__ self other && opt_Z_eqb (Point.index self) (Point.index other)
  else
    match Point.index self with
    | None => Point.__eq__ self other
    | Some _ => false
    end.

(** [EdgePoint.__eq__]. *)
Definition EdgePoint__eq__ (self other : point) : bool :=
  if is_edge_point other then
    Point.__eq__ self other && opt_Z_eqb (Point.index self) (Point.index other)
  else
    match Point.index self with
    | None => Point.__eq__ self other
    | Some _ => false
    end.

(** The expression [a == b] on two points.  Python calls the [__eq__] of the
    class of [a], except that a right operand of a proper subclass which
    overrides [__eq__] is asked first. *)
Definition py_eq (a b : point) : bool :=
  match a with
  | Point _ _ =>
      match b with
      | Point _ _ => Point.__eq__ a b
      | PolygonPoint _ _ _ | IntersectionPoint _ _ _ _ => PolygonPoint__eq__ b a
      | EdgePoint _ _ _ => EdgePoint__eq__ b a
      end
  | PolygonPoint _ _ _ | IntersectionPoint _ _ _ _ => PolygonPoint__eq__ a b
  | EdgePoint _ _ _ => EdgePoint__eq__ a b
  end.

(** The attribute [edge] of an [IntersectionPoint]; the other classes have
    no such attribute. *)
Definition IntersectionPoint_edge (p : point) : option Z :=
  match p with
  | IntersectionPoint _ _ _ edge => edge
  | _ => None
  end.

(** Whether a point is an [IntersectionPoint]. *)
Definition is_intersection_point (p : point) : bool :=
  match p with
  | IntersectionPoint _ _ _ _ => true
  | _ => false
  end.

(** ** Line segments ([line_segment.py]) and edges ([polygon_helper.py]) *)

(** What [_intersection] can return: a boolean, [None] or a point. *)
Inductive pyval : Type :=
| PyBool (b : bool)
| PyNone
| PyPoint (p : point).

Module LineSegment.

Record t : Type := mk { a : point; b : point }.

Definition reverse (self : t) : t := mk (b self) (a self).

Definition intersects (self other : t) : bool :=
  negb (Z.eqb (Point.turn (a self) (b self) (a other))
              (Point.turn (a self) (b self) (b other))) &&
  negb (Z.eqb (Point.turn (a other) (b other) (a self))
              (Point.turn (a other) (b other) (b self))).

Definition properly_intersects (self other : t) : bool :=
  let turn_other_a := Point.turn (a self) (b self) (a other) in
  let turn_other_b := Point.turn (a self) (b self) (b other) in
  let turn_self_a := Point.turn (a other) (b other) (a self) in
  let turn_self_b := Point.turn (a other) (b other) (b self) in
  negb (Z.eqb turn_other_a turn_other_b) &&
  negb (Z.eqb turn_other_a Point.NO_TURN) &&
  negb (Z.eqb turn_other_b Point.NO_TURN) &&
  negb (Z.eqb turn_self_a turn_self_b) &&
  negb (Z.eqb turn_self_a Point.NO_TURN) &&
  negb (Z.eqb turn_self_b Point.NO_TURN).

Definition _intersection (self segm : t) (return_point : bool) : pyval :=
  let a1 := Point.x (b self) - Point.x (a self) in
  let b1 := Point.x (a segm) - Point.x (b segm) in
  let c1 := Point.x (a segm) - Point.x (a self) in
  let a2 := Point.y (b self) - Point.y (a self) in
  let b2 := Point.y (a segm) - Point.y (b segm) in
  let c2 := Point.y (a segm) - Point.y (a self) in
  if Qeq_bool (a1 * b2 - a2 * b1) 0 then PyBool false
  else
    let s := (c1 * b2 - c2 * b1) / (a1 * b2 - a2 * b1) in
    let t := (a1 * c2 - a2 * c1) / (a1 * b2 - a2 * b1) in
    if Qle_bool 0 s && Qle_bool s 1 && Qle_bool 0 t && Qle_bool t 1 then
      if negb return_point then PyBool true
      else if Qeq_bool s 0 then PyPoint (a self)
      else if Qeq_bool s 1 then PyPoint (b self)
      else if Qeq_bool t 0 then PyPoint (a segm)
      else if Qeq_bool t 1 then PyPoint (b segm)
      else PyPoint (Point (Point.x (a self) + s * a1)
                          (Point.y (a self) + s * a2))
    else if return_point then PyNone
    else PyBool false.

Definition intersection (self other : t) : pyval :=
  _intersection self other true.

(** [LineSegment.__eq__]. *)
Definition __eq__ (self other : t) : bool :=
  py_eq (a self) (a other) && py_eq (b self) (b other).

End LineSegment.

(** [Edge] is a [LineSegment] whose equality ignores the direction. *)
Module Edge.

Definition __eq__ (self other : LineSegment.t) : bool :=
  (py_eq (LineSegment.a self) (LineSegment.a other) &&
   py_eq (LineSegment.b self) (LineSegment.b other)) ||
  (py_eq (LineSegment.a self) (LineSegment.b other) &&
   py_eq (LineSegment.b self) (LineSegment.a other)).

End Edge.

(** ** Lines ([line.py]) *)

Module Line.

Record t : Type := mk { a : point; b : point }.

(** [Line.__init__]. *)
Definition __init__ (a b : point) : result t :=
  if py_eq a b then Raise DegeneratedCaseException
  else Ok (mk a b).

Definition x_value (a b : point) (y : Q) : result Q :=
  if Qeq_bool (Point.y a) (Point.y b) then Raise ValueError
  else Ok ((Point.x a - Point.x b) * (y - Point.y b) /
           (Point.y a - Point.y b) + Point.x b).

Definition y_value (a b : point) (x : Q) : result Q :=
  if Qeq_bool (Point.x a) (Point.x b) then Raise ValueError
  else Ok ((Point.y a - Point.y b) * (x - Point.x b) /
           (Point.x a - Point.x b) + Point.y b).

Definition x (self : t) (y : Q) : result Q := x_value (a self) (b self) y.
Definition y (self : t) (x : Q) : result Q := y_value (a self) (b self) x.

Definition point_side (self : t) (p : point) : Z :=
  Point.turn (a self) (b self) p.

End Line.


(** ** Rays ([ray.py]) *)

Module Ray.

Record t : Type := mk { a : point; b : point }.

Definition intersects (self : t) (other : LineSegment.t) : bool :=
  let turn_other_a := Point.turn (a self) (b self) (LineSegment.a other) in
  let turn_other_b := Point.turn (a self) (b self) (LineSegment.b other) in
  if Z.eqb turn_other_a turn_other_b && negb (Z.eqb turn_other_a Point.NO_TURN)
  then false
  else
    let turn_self_a :=
      Point.turn (LineSegment.a other) (LineSegment.b other) (a self) in
    let turn_self_b :=
      Point.turn (LineSegment.a other) (LineSegment.b other) (b self) in
    if negb (Z.eqb turn_self_a turn_self_b) then true
    else
      let check_point :=
        Point.__add__ (LineSegment.b other) (Point.__sub__ (b self) (a self)) in
      let check_point_turn :=
        Point.turn (LineSegment.a other) (LineSegment.b other) check_point in
      negb (Z.eqb check_point_turn turn_self_a).

Definition properly_intersects (self : t) (other : LineSegment.t) : bool :=
  let turn_other_a := Point.turn (a self) (b self) (LineSegment.a other) in
  let turn_other_b := Point.turn (a self) (b self) (LineSegment.b other) in
  if Z.eqb turn_other_a Point.NO_TURN || Z.eqb turn_other_b Point.NO_TURN
  then false
  else intersects self other.

(** The argument of [intersection_point]: a line segment or a line. *)
Inductive target : Type :=
| Segment (segm : LineSegment.t)
| Infinite (line : Line.t).

Definition target_a (segm : target) : point :=
  match segm with
  | Segment s => LineSegment.a s
  | Infinite l => Line.a l
  end.

Definition target_b (segm : target) : point :=
  match segm with
  | Segment s => LineSegment.b s
  | Infinite l => Line.b l
  end.

Definition is_segment (segm : target) : bool :=
  match segm with
  | Segment _ => true
  | Infinite _ => false
  end.

(** [intersection_point]: [None] for no point. *)
Definition intersection_point (self : t) (segm : target) : option point :=
  if py_eq (b self) (target_b segm) || py_eq (b self) (target_a segm)
  then Some (b self)
  else if py_eq (a self) (target_b segm) || py_eq (a self) (target_a segm)
  then Some (a self)
  else
    let a1 := Point.x (b self) - Point.x (a self) in
    let b1 := Point.x (target_a segm) - Point.x (target_b segm) in
    let c1 := Point.x (target_a segm) - Point.x (a self) in
    let a2 := Point.y (b self) - Point.y (a self) in
    let b2 := Point.y (target_a segm) - Point.y (target_b segm) in
    let c2 := Point.y (target_a segm) - Point.y (a self) in
    if Qeq_bool (a1 * b2 - a2 * b1) 0 then None
    else
      let s := (c1 * b2 - c2 * b1) / (a1 * b2 - a2 * b1) in
      let t := (a1 * c2 - a2 * c1) / (a1 * b2 - a2 * b1) in
      if Qeq_bool s 0 then Some (a self)
      else if Qeq_bool s 1 then Some (b self)
      else if Qeq_bool t 0 then Some (target_a segm)
      else if Qeq_bool t 1 then Some (target_b segm)
      else if Qltb s 0 then None
      else if is_segment segm && (Qltb t 0 || Qltb 1 t) then None
      else Some (Point (Point.x (a self) + s * a1)
                       (Point.y (a self) + s * a2)).

End Ray.

(** ** Circles ([circle.py]) *)

Module Circle.

(** A circle stores its centre and the radius or the squared radius,
    whichever it was given; the other one is computed on demand. *)
Record t : Type := mk {
  center : point;
  _radius2 : option Q;
  _radius : option Q
}.

(** [Circle(a, b, c)]: the circle through three points.  A perpendicular
    bisector is a triple (u, v, w) standing for the line u*x + v*y = w. *)
Definition __init__ (a b c : point) : result t :=
  let bisector1 : Q * Q * Q :=
    if Qeq_bool (Point.y a) (Point.y b)
    then (1, 0, (Point.x a + Point.x b) / 2)
    else (2 * (Point.x a - Point.x b),
          2 * (Point.y a - Point.y b),
          Point.x a ^ 2 - Point.x b ^ 2 + Point.y a ^ 2 - Point.y b ^ 2) in
  let bisector2 : Q * Q * Q :=
    if Qeq_bool (Point.y a) (Point.y c)
    then (1, 0, (Point.x a + Point.x c) / 2)
    else (2 * (Point.x a - Point.x c),
          2 * (Point.y a - Point.y c),
          Point.x a ^ 2 - Point.x c ^ 2 + Point.y a ^ 2 - Point.y c ^ 2) in
  let '(u1, v1, w1) := bisector1 in
  let '(u2, v2, w2) := bisector2 in
  if Qeq_bool (v1 * u2) (u1 * v2) then Raise ThreePointsAreCollinearException
  else
    let center :=
      Point ((w1 * v2 - w2 * v1) / (u1 * v2 - u2 * v1))
            ((u1 * w2 - u2 * w1) / (u1 * v2 - u2 * v1)) in
    Ok (mk center (Some (Point.squared_distance_to center a)) None).

(** [Circle(center, radius, squared=...)]. *)
Definition from_radius (center : point) (radius : Q) (squared : bool) : t :=
  if squared then mk center (Some radius) None
  else mk center None (Some radius).

(** The property [radius2].  (The getter also stores the value it computes;
    the stored value is the returned one.)  Every constructor sets one of the
    two fields. *)
Definition radius2 (self : t) : Q :=
  match _radius2 self with
  | Some r2 => r2
  | None =>
      match _radius self with
      | Some r => r * r
      | None => 0
      end
  end.

Definition contains (self : t) (p : point) : bool :=
  Qle_bool (Point.squared_distance_to (center self) p) (radius2 self).

End Circle.

(** ** Funnels ([funnel.py]) *)

Module Funnel.

Definition INSIDE : Z := 0.
Definition LEFT_OF : Z := 1.
Definition RIGHT_OF : Z := -1.
Definition OPPOSITE : Z := 2.

Definition _CONVEX : Z := 1.
Definition _NEITHER : Z := 0.
Definition _CONCAVE : Z := -1.

(** The attributes of a funnel object.  The two rays are caches: [None]
    until the ray is asked for. *)
Record t : Type := mk {
  _cusp : point;
  _first : point;
  _second : point;
  _first_ray : option Ray.t;
  _second_ray : option Ray.t;
  _type : Z
}.

Definition __init__ (cusp first second : point) : t :=
  mk cusp first second None None (Point.turn cusp first second).

(** The read-only views of the three points. *)
Definition first (self : t) : point := _first self.
Definition cusp (self : t) : point := _cusp self.
Definition second (self : t) : point := _second self.

(** [first.setter]: three assignments in the order of the source. *)
Definition set_first (self : t) (value : point) : t :=
  let self1 := mk (_cusp self) value (_second self)
                  (_first_ray self) (_second_ray self) (_type self) in
  let self2 := mk (_cusp self1) (_first self1) (_second self1)
                  None (_second_ray self1) (_type self1) in
  mk (_cusp self2) (_first self2) (_second self2)
     (_first_ray self2) (_second_ray self2)
     (Point.turn (cusp self2) (first self2) (second self2)).

(** [cusp.setter]. *)
Definition set_cusp (self : t) (value : point) : t :=
  let self1 := mk value (_first self) (_second self)
                  (_first_ray self) (_second_ray self) (_type self) in
  let self2 := mk (_cusp self1) (_first self1) (_second self1)
                  (_first_ray self1) (_second_ray self1)
                  (Point.turn (cusp self1) (first self1) (second self1)) in
  mk (_cusp self2) (_first self2) (_second self2) None None (_type self2).

(** [second.setter]. *)
Definition set_second (self : t) (value : point) : t :=
  let self1 := mk (_cusp self) (_first self) value
                  (_first_ray self) (_second_ray self) (_type self) in
  let self2 := mk (_cusp self1) (_first self1) (_second self1)
                  (_first_ray self1) None (_type self1) in
  mk (_cusp self2) (_first self2) (_second self2)
     (_first_ray self2) (_second_ray self2)
     (Point.turn (cusp self2) (first self2) (second self2)).

(** The property [first_ray]: returns the ray and the funnel with its cache
    filled. *)
Definition first_ray (self : t) : Ray.t * t :=
  match _first_ray self with
  | Some r => (r, self)
  | None =>
      let r := Ray.mk (cusp self) (_first self) in
      (r, mk (_cusp self) (_first self) (_second self)
             (Some r) (_second_ray self) (_type self))
  end.

(** The property [second_ray]. *)
Definition second_ray (self : t) : Ray.t * t :=
  match _second_ray self with
  | Some r => (r, self)
  | None =>
      let r := Ray.mk (cusp self) (_second self) in
      (r, mk (_cusp self) (_first self) (_second self)
             (_first_ray self) (Some r) (_type self))
  end.

(** [contains] for a point. *)
Definition contains (self : t) (other : point) : bool :=
  if Z.eqb (_type self) _CONCAVE then
    negb (Z.eqb (Point.turn (cusp self) (_first self) other) Point.CW_TURN &&
          Z.eqb (Point.turn (cusp self) (_second self) other) Point.CCW_TURN)
  else
    negb (Z.eqb (Point.turn (cusp self) (_first self) other) Point.CW_TURN) &&
    negb (Z.eqb (Point.turn (cusp self) (_second self) other) Point.CCW_TURN).

(** [properly_contains] for a point. *)
Definition properly_contains (self : t) (other : point) : bool :=
  if Z.eqb (_type self) _CONCAVE then
    negb (negb (Z.eqb (Point.turn (cusp self) (_first self) other)
                      Point.CCW_TURN) &&
          negb (Z.eqb (Point.turn (cusp self) (_second self) other)
                      Point.CW_TURN))
  else
    Z.eqb (Point.turn (cusp self) (_first self) other) Point.CCW_TURN &&
    Z.eqb (Point.turn (cusp self) (_second self) other) Point.CW_TURN.

Definition position_of (self : t) (p : point) : Z :=
  if Z.eqb (_type self) _CONCAVE then
    if contains self p then INSIDE else OPPOSITE
  else
    let first_turn := Point.turn (cusp self) (_first self) p in
    let second_turn := Point.turn (cusp self) (_second self) p in
    if negb (Z.eqb first_turn Point.CW_TURN) &&
       negb (Z.eqb second_turn Point.CCW_TURN) then INSIDE
    else if negb (Z.eqb first_turn Point.CCW_TURN) &&
            negb (Z.eqb second_turn Point.CW_TURN) then OPPOSITE
    else first_turn.

(** One use of a funnel object from outside: an assignment to one of the
    three points or a read of one of the two ray properties. *)
Inductive op : Type :=
| SetCusp (value : point)
| SetFirst (value : point)
| SetSecond (value : point)
| GetFirstRay
| GetSecondRay.

Definition step (self : t) (o : op) : t :=
  match o with
  | SetCusp v => set_cusp self v
  | SetFirst v => set_first self v
  | SetSecond v => set_second self v
  | GetFirstRay => snd (first_ray self)
  | GetSecondRay => snd (second_ray self)
  end.

(** The funnel after a sequence of uses. *)
Definition run (self : t) (ops : list op) : t := fold_left step ops self.

(** The methods that take a line segment.  They read the two ray
    properties; the cache that these fill is not part of the result. *)
Definition contains_segment (self : t) (other : LineSegment.t) : bool :=
  if Z.eqb (_type self) _CONCAVE then
    contains self (LineSegment.a other) &&
    contains self (LineSegment.b other) &&
    negb (Ray.properly_intersects (fst (first_ray self)) other)
  else
    contains self (LineSegment.a other) && contains self (LineSegment.b other).

Definition properly_contains_segment (self : t) (other : LineSegment.t)
  : bool :=
  properly_contains self (LineSegment.a other) &&
  properly_contains self (LineSegment.b other) &&
  negb (Ray.intersects (fst (first_ray self)) other) &&
  negb (Ray.intersects (fst (second_ray self)) other).

Definition intersects (self : t) (other : LineSegment.t) : bool :=
  Ray.intersects (fst (first_ray self)) other ||
  Ray.intersects (fst (second_ray self)) other.

Definition properly_intersects (self : t) (other : LineSegment.t) : bool :=
  Ray.properly_intersects (fst (first_ray self)) other ||
  Ray.properly_intersects (fst (second_ray self)) other.

Definition is_divided_by (self : t) (other : LineSegment.t) : bool :=
  Ray.intersects (fst (first_ray self)) other &&
  Ray.intersects (fst (second_ray self)) other.

Definition is_properly_divided_by (self : t) (other : LineSegment.t) : bool :=
  Ray.properly_intersects (fst (first_ray self)) other &&
  Ray.properly_intersects (fst (second_ray self)) other.

Definition is_half_properly_divided_by (self : t) (other : LineSegment.t)
  : bool :=
  (Ray.properly_intersects (fst (first_ray self)) other &&
   Ray.intersects (fst (second_ray self)) other) ||
  (Ray.intersects (fst (first_ray self)) other &&
   Ray.properly_intersects (fst (second_ray self)) other).

End Funnel.

(** ** Bounded funnels ([bounded_funnel.py]) *)

Module BoundedFunnel.

Definition BEHIND : Z := 3.

(** A bounded funnel is a funnel (the inherited attributes) with a boundary.
    [_vertex_a] and [_vertex_b] cache the intersections of the rays with the
    boundary line: [None] is an empty cache. *)
Record t : Type := mk {
  funnel : Funnel.t;
  boundary_a : point;
  boundary_b : point;
  boundary : Line.t;
  _vertex_a : option (option point);
  _vertex_b : option (option point)
}.

Definition __init__ (cusp first second boundary_a boundary_b : point)
  : result t :=
  let super := Funnel.__init__ cusp first second in
  if Z.eqb (Funnel._type super) Funnel._CONCAVE
  then Raise BoundedFunnelMustNotBeConcaveException
  else
    boundary <- Line.__init__ boundary_a boundary_b ;;
    if Z.eqb (Point.turn boundary_a boundary_b cusp) Point.CW_TURN
    then Raise ValueError
    else Ok (mk super boundary_a boundary_b boundary None None).

(** The overriding setters: the inherited setter, then the cache reset. *)
Definition set_first (self : t) (value : point) : t :=
  mk (Funnel.set_first (funnel self) value) (boundary_a self)
     (boundary_b self) (boundary self) None (_vertex_b self).

Definition set_second (self : t) (value : point) : t :=
  mk (Funnel.set_second (funnel self) value) (boundary_a self)
     (boundary_b self) (boundary self) (_vertex_a self) None.

(** [cusp.setter] is inherited unchanged. *)
Definition set_cusp (self : t) (value : point) : t :=
  mk (Funnel.set_cusp (funnel self) value) (boundary_a self)
     (boundary_b self) (boundary self) (_vertex_a self) (_vertex_b self).

Definition contains (self : t) (other : point) : bool :=
  Funnel.contains (funnel self) other &&
  negb (Z.eqb (Point.turn (boundary_a self) (boundary_b self) other)
              Point.CW_TURN).

Definition properly_contains (self : t) (other : point) : bool :=
  Funnel.properly_contains (funnel self) other &&
  Z.eqb (Point.turn (boundary_a self) (boundary_b self) other)
        Point.CCW_TURN.

(** [contains] and [properly_contains] for a line segment: both ends. *)
Definition contains_segment (self : t) (other : LineSegment.t) : bool :=
  contains self (LineSegment.a other) && contains self (LineSegment.b other).

Definition properly_contains_segment (self : t) (other : LineSegment.t)
  : bool :=
  properly_contains self (LineSegment.a other) &&
  properly_contains self (LineSegment.b other).

Definition intersects (self : t) (other : LineSegment.t) : bool :=
  (contains self (LineSegment.a other) &&
   negb (contains self (LineSegment.b other))) ||
  (contains self (LineSegment.b other) &&
   negb (contains self (LineSegment.a other))).

Definition properly_intersects (self : t) (other : LineSegment.t) : bool :=
  (properly_contains self (LineSegment.a other) &&
   negb (contains self (LineSegment.b other))) ||
  (properly_contains self (LineSegment.b other) &&
   negb (contains self (LineSegment.a other))).

Definition position_of (self : t) (p : point) : Z :=
  let first_turn :=
    Point.turn (Funnel.cusp (funnel self)) (Funnel._first (funnel self)) p in
  let second_turn :=
    Point.turn (Funnel.cusp (funnel self)) (Funnel._second (funnel self)) p in
  let boundary_turn := Point.turn (boundary_a self) (boundary_b self) p in
  if negb (Z.eqb first_turn Point.CW_TURN) &&
     negb (Z.eqb second_turn Point.CCW_TURN)
  then
    if negb (Z.eqb boundary_turn Point.CW_TURN) then Funnel.INSIDE
    else BEHIND
  else if negb (Z.eqb first_turn Point.CCW_TURN) &&
          negb (Z.eqb second_turn Point.CW_TURN)
  then Funnel.OPPOSITE
  else first_turn.

End BoundedFunnel.


(** ** Trapezoids ([trapezoid.py]) *)

Module Trapezoid.

Record t : Type := mk {
  x_left : Q;
  x_right : Q;
  y_left1 : Q;
  y_right1 : Q;
  y_left2 : Q;
  y_right2 : Q;
  top_edge_ix : Z;
  bot_edge_ix : Z;
  top_left_ix : option Z;
  bot_left_ix : option Z;
  top_right_ix : option Z;
  bot_right_ix : option Z
}.

(** [Trapezoid.__eq__]: the six coordinates agree. *)
Definition __eq__ (self t : t) : bool :=
  Qeq_bool (x_left self) (x_left t) && Qeq_bool (x_right self) (x_right t) &&
  Qeq_bool (y_left1 self) (y_left1 t) && Qeq_bool (y_left2 self) (y_left2 t) &&
  Qeq_bool (y_right1 self) (y_right1 t) &&
  Qeq_bool (y_right2 self) (y_right2 t).

(** [a == b] where each side is a trapezoid or [None]: two [None] are equal,
    [None] and a trapezoid are not. *)
Definition py_eq (a b : option t) : bool :=
  match a, b with
  | Some ta, Some tb => __eq__ ta tb
  | None, None => true
  | _, _ => false
  end.

Definition is_triangle (self : t) : bool :=
  Qeq_bool (y_left1 self) (y_left2 self) ||
  Qeq_bool (y_right1 self) (y_right2 self).

(** [is_right_of] and [is_left_of] compare the indices of the top and
    bottom edges. *)
Definition is_right_of (self t : t) : bool :=
  if (bot_edge_ix t <? top_edge_ix t)%Z then
    (top_edge_ix self <=? top_edge_ix t)%Z &&
    (bot_edge_ix t <=? top_edge_ix self)%Z &&
    (bot_edge_ix self <=? top_edge_ix t)%Z &&
    (bot_edge_ix t <=? bot_edge_ix self)%Z
  else
    negb (((top_edge_ix t <? top_edge_ix self)%Z &&
           (top_edge_ix self <? bot_edge_ix t)%Z) ||
          ((top_edge_ix t <? bot_edge_ix self)%Z &&
           (bot_edge_ix self <? bot_edge_ix t)%Z)).

Definition is_left_of (self t : t) : bool :=
  if (top_edge_ix t <? bot_edge_ix t)%Z then
    (top_edge_ix t <=? top_edge_ix self)%Z &&
    (top_edge_ix self <=? bot_edge_ix t)%Z &&
    (top_edge_ix t <=? bot_edge_ix self)%Z &&
    (bot_edge_ix self <=? bot_edge_ix t)%Z
  else
    negb (((top_edge_ix self <? top_edge_ix t)%Z &&
           (bot_edge_ix t <? top_edge_ix self)%Z) ||
          ((bot_edge_ix self <? top_edge_ix t)%Z &&
           (bot_edge_ix t <? bot_edge_ix self)%Z)).

(** The corner of the common vertical side that is taken from [near] when
    [use_near] holds and from [far] otherwise: its vertex index or, without
    one, the index of the edge it lies on. *)
Definition corner (use_near : bool) (near_ix : option Z) (near_edge : Z)
  (far_ix : option Z) (far_edge : Z) : option Z * option Z :=
  if use_near then
    match near_ix with
    | None => (None, Some near_edge)
    | Some _ => (near_ix, None)
    end
  else
    match far_ix with
    | None => (None, Some far_edge)
    | Some _ => (far_ix, None)
    end.

(** [intersection]: the common vertical side of two trapezoids as an edge
    of two [IntersectionPoint]s, [None] if they have none. *)
Definition intersection (self trapezoid : t) : option LineSegment.t :=
  if Qeq_bool (x_right self) (x_left trapezoid) then
    let '(first_index, first_edge) :=
      corner (Qltb (y_left1 trapezoid) (y_right1 self))
             (top_left_ix trapezoid) (top_edge_ix trapezoid)
             (top_right_ix self) (top_edge_ix self) in
    let '(second_index, second_edge) :=
      corner (Qltb (y_right2 self) (y_left2 trapezoid))
             (bot_left_ix trapezoid) (bot_edge_ix trapezoid)
             (bot_right_ix self) (bot_edge_ix self) in
    Some (LineSegment.mk
            (IntersectionPoint (x_right self)
               (py_min (y_right1 self) (y_left1 trapezoid))
               first_index first_edge)
            (IntersectionPoint (x_right self)
               (py_max (y_right2 self) (y_left2 trapezoid))
               second_index second_edge))
  else if Qeq_bool (x_left self) (x_right trapezoid) then
    let '(first_index, first_edge) :=
      corner (Qltb (y_right1 trapezoid) (y_left1 self))
             (top_right_ix trapezoid) (top_edge_ix trapezoid)
             (top_left_ix self) (top_edge_ix self) in
    let '(second_index, second_edge) :=
      corner (Qltb (y_left2 self) (y_right2 trapezoid))
             (bot_right_ix trapezoid) (bot_edge_ix trapezoid)
             (bot_left_ix self) (bot_edge_ix self) in
    Some (LineSegment.mk
            (IntersectionPoint (x_left self)
               (py_min (y_left1 self) (y_right1 trapezoid))
               first_index first_edge)
            (IntersectionPoint (x_left self)
               (py_max (y_left2 self) (y_right2 trapezoid))
               second_index second_edge))
  else None.

End Trapezoid.

(** ** Triangles ([delaunay_triangle.py]) *)

Module DelaunayTriangle.

(** The three corners, counter-clockwise, the lexicographically smallest
    first.  [neighbour_indices] is the attribute that the subclass
    [TriangulatedPolygonTriangle] adds; it is empty for a plain triangle. *)
Record t : Type := mk {
  a : point;
  b : point;
  c : point;
  neighbour_indices : list Z
}.

Definition __init__ (a b c : point) : result t :=
  if Z.eqb (Point.turn a b c) Point.NO_TURN
  then Raise ThreePointsAreCollinearException
  else
    let '(a1, b1, c1) :=
      if Z.eqb (Point.turn a b c) Point.CCW_TURN then (a, b, c)
      else (a, c, b) in
    let '(a2, b2, c2) :=
      if Point.tuple_lt b1 a1 && Point.tuple_lt b1 c1 then (b1, c1, a1)
      else if Point.tuple_lt c1 a1 && Point.tuple_lt c1 b1 then (c1, a1, b1)
      else (a1, b1, c1) in
    if Point.tuple_lt a2 b2 && Point.tuple_lt a2 c2
    then Ok (mk a2 b2 c2 [])
    else Raise AssertionError.

Definition edges (self : t) : list LineSegment.t :=
  [LineSegment.mk (a self) (b self);
   LineSegment.mk (b self) (c self);
   LineSegment.mk (c self) (a self)].

Definition points (self : t) : list point := [a self; b self; c self].

Definition contains (self : t) (p : point) : bool :=
  Z.eqb (Point.turn (a self) (b self) p) Point.CCW_TURN &&
  Z.eqb (Point.turn (b self) (c self) p) Point.CCW_TURN &&
  Z.eqb (Point.turn (c self) (a self) p) Point.CCW_TURN.

(** [__eq__]: the tuples of corners are equal, corner by corner. *)
Definition __eq__ (self other : t) : bool :=
  py_eq (a other) (a self) && py_eq (b other) (b self) &&
  py_eq (c other) (c self).

(** [a == b] where each side is a triangle or [None]. *)
Definition py_eq (a b : option t) : bool :=
  match a, b with
  | Some ta, Some tb => __eq__ ta tb
  | None, None => true
  | _, _ => false
  end.

(** [edge in edges] for edges: some element equals it, the direction
    ignored. *)
Definition edge_in (edge : LineSegment.t) (l : list LineSegment.t) : bool :=
  existsb (fun e => Edge.__eq__ e edge) l.

(** [edges_from]: the three edges, starting at the first one equal to
    [edge]. *)
Definition edges_from (self : t) (edge : LineSegment.t)
  : result (list LineSegment.t) :=
  if negb (edge_in edge (edges self)) then Raise AssertionError
  else
    let e0 := LineSegment.mk (a self) (b self) in
    let e1 := LineSegment.mk (b self) (c self) in
    let e2 := LineSegment.mk (c self) (a self) in
    if Edge.__eq__ e0 edge then Ok [e0; e1; e2]
    else if Edge.__eq__ e1 edge then Ok [e1; e2; e0]
    else Ok [e2; e0; e1].

(** [edges_until]: the same rotation, [edge] last. *)
Definition edges_until (self : t) (edge : LineSegment.t)
  : result (list LineSegment.t) :=
  edges <- edges_from self edge ;;
  match edges with
  | [e0; e1; e2] => Ok [e1; e2; e0]
  | _ => Raise AssertionError
  end.

Definition common_edge (self other : t) : option LineSegment.t :=
  if __eq__ self other then None
  else find (fun edge => edge_in edge (edges other)) (edges self).

(** [abs(p.index - q.index) == 1]; an absent index raises. *)
Definition index_distance_one (p q : point) : result bool :=
  match Point.index p, Point.index q with
  | Some i, Some j => Ok (Z.eqb (Z.abs (i - j)) 1)
  | _, _ => Raise TypeError
  end.

(** [is_at_border]: [or] evaluates its operands from the left and stops at
    the first true one. *)
Definition is_at_border (self : t) : result bool :=
  ab <- index_distance_one (a self) (b self) ;;
  if ab then Ok true
  else
    ac <- index_distance_one (a self) (c self) ;;
    if ac then Ok true
    else index_distance_one (b self) (c self).

End DelaunayTriangle.

(** ** Polygons ([polygon.py]) *)

Module Polygon.

(** The type of points, under a second name: the method [point] below takes
    over the short one. *)
Local Abbreviation point_t := point.

(** The attributes [points] (a tuple of [PolygonPoint]s) and [len]. *)
Record t : Type := mk {
  points : list point;
  len : Z
}.

(** [Polygon(points)]: every point becomes a [PolygonPoint] carrying its
    position as index. *)
Definition __init__ (pts : list point) : result t :=
  if (Z.of_nat (length pts) <? 3)%Z then Raise TooFewPointsException
  else
    let points :=
      map (fun '(ix, p) => PolygonPoint (Point.x p) (Point.y p) (Some ix))
          (enumerate pts) in
    Ok (mk points (Z.of_nat (length points))).

(** [self.points[i]] for an index in range. *)
Definition item (self : t) (i : Z) : point :=
  nth (Z.to_nat i) (points self) (Point 0 0).

Definition prev (self : t) (index : Z) : Z := ((index - 1) mod len self)%Z.
Definition next (self : t) (index : Z) : Z := ((index + 1) mod len self)%Z.

Definition point (self : t) (index : Z) : point :=
  item self (index mod len self)%Z.

(** [pred] and [succ] of a polygon point; a point without index raises. *)
Definition pred (self : t) (p : point_t) : result point_t :=
  match Point.index p with
  | Some i => Ok (if is_edge_point p then point self i
                  else point self (i - 1)%Z)
  | None => Raise TypeError
  end.

Definition succ (self : t) (p : point_t) : result point_t :=
  match Point.index p with
  | Some i => Ok (point self (i + 1)%Z)
  | None => Raise TypeError
  end.

Definition edge (self : t) (index : Z) : LineSegment.t :=
  LineSegment.mk (point self index) (point self (index + 1)%Z).

(** [indices()] with its default arguments: 0, 1, ..., len - 1. *)
Definition indices (self : t) : list Z :=
  map Z.of_nat (seq 0 (Z.to_nat (len self))).

(** The local variables of the loop of [_find_edges_above_and_below]. *)
Record scan : Type := mk_scan {
  distance_below : option Q;
  distance_above : option Q;
  top_edge_index : option Z;
  bottom_edge_index : option Z;
  top_node : option point_t;
  bottom_node : option point_t
}.

Definition scan_init : scan := mk_scan None None None None None None.

(** [node is None or curr.y > node.y]. *)
Definition none_or_above (node : option point_t) (curr : point_t) : bool :=
  match node with
  | None => true
  | Some n => Qltb (Point.y n) (Point.y curr)
  end.

(** [distance is None or d < distance]. *)
Definition none_or_closer (distance : option Q) (d : Q) : bool :=
  match distance with
  | None => true
  | Some d0 => Qltb d d0
  end.

(** The three parts of an iteration of the loop.  First: a vertex on the
    vertical line through [p] becomes the bottom or the top node. *)
Definition update_nodes (p : point_t) (st : scan) (curr : point_t) : scan :=
  if Qeq_bool (Point.x p) (Point.x curr) then
    if Qltb (Point.y curr) (Point.y p) &&
       none_or_above (bottom_node st) curr
    then mk_scan (distance_below st) (distance_above st)
                 (top_edge_index st) (bottom_edge_index st)
                 (top_node st) (Some curr)
    else if Qltb (Point.y p) (Point.y curr) &&
            none_or_above (top_node st) curr
    then mk_scan (distance_below st) (distance_above st)
                 (top_edge_index st) (bottom_edge_index st)
                 (Some curr) (bottom_node st)
    else st
  else st.

(** Second: an edge below [p] and closer than the ones before becomes the
    bottom edge if it goes from left to right and resets it otherwise. *)
Definition update_bottom (p : point_t) (st : scan) (curr_index : Z)
  (curr next_ : point_t) (y_on_edge : Q) : scan :=
  if Qltb y_on_edge (Point.y p) &&
     none_or_closer (distance_below st) (Point.y p - y_on_edge)
  then
    if Qltb (Point.x curr) (Point.x next_)
    then mk_scan (Some (Point.y p - y_on_edge)) (distance_above st)
                 (top_edge_index st) (Some curr_index)
                 (top_node st) (bottom_node st)
    else mk_scan (distance_below st) (distance_above st)
                 (top_edge_index st) None
                 (top_node st) (bottom_node st)
  else st.

(** Third: the same for an edge above [p], which has to go from right to
    left. *)
Definition update_top (p : point_t) (st : scan) (curr_index : Z)
  (curr next_ : point_t) (y_on_edge : Q) : scan :=
  if Qltb (Point.y p) y_on_edge &&
     none_or_closer (distance_above st) (y_on_edge - Point.y p)
  then
    if Qltb (Point.x next_) (Point.x curr)
    then mk_scan (distance_below st) (Some (y_on_edge - Point.y p))
                 (Some curr_index) (bottom_edge_index st)
                 (top_node st) (bottom_node st)
    else mk_scan (distance_below st) (distance_above st)
                 None (bottom_edge_index st)
                 (top_node st) (bottom_node st)
  else st.

(** One iteration of the loop over [enumerate(self.points)]. *)
Definition scan_body (self : t) (p : point_t) (st : scan)
  (entry : Z * point_t) : result scan :=
  let '(curr_index, curr) := entry in
  let next_ := point self (curr_index + 1)%Z in
  if Qltb (Point.x p) (py_min (Point.x curr) (Point.x next_)) ||
     Qltb (py_max (Point.x curr) (Point.x next_)) (Point.x p)
  then Ok st
  else
    let st1 := update_nodes p st curr in
    y_on_edge <- Line.y_value curr next_ (Point.x p) ;;
    let st2 := update_bottom p st1 curr_index curr next_ y_on_edge in
    let st3 := update_top p st2 curr_index curr next_ y_on_edge in
    Ok st3.

(** The statements after the loop. *)
Definition scan_finish (self : t) (p : point_t) (st : scan)
  : result (option Z * option Z) :=
  match top_node st, bottom_node st with
  | Some _, Some _ => Raise NotInGeneralPositionException
  | _, _ =>
      top_edge_index <-
        match top_edge_index st, top_node st with
        | None, Some top_node =>
            s <- succ self top_node ;;
            match Point.index top_node with
            | Some i =>
                if negb (Z.eqb (Point.turn top_node s p) Point.CW_TURN)
                then Ok (Some i)
                else Ok (Some (prev self i))
            | None => Raise TypeError
            end
        | other, _ => Ok other
        end ;;
      bottom_edge_index <-
        match bottom_edge_index st, bottom_node st with
        | None, Some bottom_node =>
            q <- pred self bottom_node ;;
            match Point.index bottom_node with
            | Some i =>
                if negb (Z.eqb (Point.turn q bottom_node p) Point.CW_TURN)
                then Ok (Some (prev self i))
                else Ok (Some i)
            | None => Raise TypeError
            end
        | other, _ => Ok other
        end ;;
      match top_edge_index, bottom_edge_index with
      | Some top, Some bottom =>
          if negb (Qltb (Point.x (point self (top + 1)%Z))
                        (Point.x (point self top)))
          then Raise AssertionError
          else if negb (Qltb (Point.x (point self bottom))
                             (Point.x (point self (bottom + 1)%Z)))
          then Raise AssertionError
          else Ok (Some top, Some bottom)
      | _, _ => Ok (None, None)
      end
  end.

Definition _find_edges_above_and_below (self : t) (p : point_t)
  : result (option Z * option Z) :=
  st <- for_each (scan_body self p) (enumerate (points self)) scan_init ;;
  scan_finish self p st.

(** The local variables of the loop of [trapezoid] that walks the vertices
    and narrows the vertical boundaries. *)
Record walls : Type := mk_walls {
  left : point_t;
  right : point_t;
  v_top_left_ix : option Z;
  v_bot_left_ix : option Z;
  v_top_right_ix : option Z;
  v_bot_right_ix : option Z
}.

(** [bot_line.y(curr.x) <= curr.y <= top_line.y(curr.x)]: the right
    comparison is evaluated only when the left one holds. *)
Definition between_lines (bot_line top_line : Line.t) (curr : point_t)
  : result bool :=
  yb <- Line.y bot_line (Point.x curr) ;;
  if Qle_bool yb (Point.y curr) then
    yt <- Line.y top_line (Point.x curr) ;;
    Ok (Qle_bool (Point.y curr) yt)
  else Ok false.

(** One iteration of the loop of [trapezoid] over [enumerate(self.points)]. *)
Definition walls_body (self : t) (p : point_t) (bot_line top_line : Line.t)
  (w : walls) (entry : Z * point_t) : result walls :=
  let '(curr_index, curr) := entry in
  w1 <-
    (if Point.is_right_of curr (left w) && Point.left_of curr p &&
        negb (Point.is_right_of (item self (prev self curr_index)) curr) &&
        negb (Point.is_right_of (item self (next self curr_index)) curr)
     then
       inside <- between_lines bot_line top_line curr ;;
       if inside
       then Ok (mk_walls curr (right w) None None
                         (v_top_right_ix w) (v_bot_right_ix w))
       else Ok w
     else Ok w) ;;
  if Point.left_of curr (right w1) && Point.is_right_of curr p &&
     negb (Point.left_of (item self (prev self curr_index)) curr) &&
     negb (Point.left_of (item self (next self curr_index)) curr)
  then
    inside <- between_lines bot_line top_line curr ;;
    if inside
    then Ok (mk_walls (left w1) curr (v_top_left_ix w1) (v_bot_left_ix w1)
                      None None)
    else Ok w1
  else Ok w1.

(** [v.y if x == v.x else line.y(x)]. *)
Definition y_at (v : point_t) (line : Line.t) (x : Q) : result Q :=
  if Qeq_bool x (Point.x v) then Ok (Point.y v) else Line.y line x.

Definition trapezoid (self : t) (p : point_t) : result (option Trapezoid.t) :=
  ' (top_edge_ix, bot_edge_ix) <- _find_edges_above_and_below self p ;;
  match top_edge_ix, bot_edge_ix with
  | Some top_edge_ix, Some bot_edge_ix =>
      let v_top_left := point self (top_edge_ix + 1)%Z in
      let v_top_right := point self top_edge_ix in
      if negb (Point.is_right_of v_top_right v_top_left)
      then Raise AssertionError
      else
      let v_bot_left := point self bot_edge_ix in
      let v_bot_right := point self (bot_edge_ix + 1)%Z in
      if negb (Point.is_right_of v_bot_right v_bot_left)
      then Raise AssertionError
      else
      let '(left, v_top_left_ix, v_bot_left_ix) :=
        if Point.is_right_of v_top_left v_bot_left
        then (v_top_left, Point.index v_top_left, None)
        else if Point.is_right_of v_bot_left v_top_left
        then (v_bot_left, None, Point.index v_bot_left)
        else (v_bot_left, Point.index v_top_left, Point.index v_bot_left) in
      let '(right, v_top_right_ix, v_bot_right_ix) :=
        if Point.left_of v_top_right v_bot_right
        then (v_top_right, Point.index v_top_right, None)
        else if Point.left_of v_bot_right v_top_right
        then (v_bot_right, None, Point.index v_bot_right)
        else (v_bot_right, Point.index v_top_right,
              Point.index v_bot_right) in
      top_line <- Line.__init__ v_top_left v_top_right ;;
      bot_line <- Line.__init__ v_bot_left v_bot_right ;;
      w <- for_each (walls_body self p bot_line top_line)
             (enumerate (points self))
             (mk_walls left right v_top_left_ix v_bot_left_ix
                       v_top_right_ix v_bot_right_ix) ;;
      let x_left := Point.x (Polygon.left w) in
      let x_right := Point.x (Polygon.right w) in
      y_left1 <- y_at v_top_left top_line x_left ;;
      y_right1 <- y_at v_top_right top_line x_right ;;
      y_left2 <- y_at v_bot_left bot_line x_left ;;
      y_right2 <- y_at v_bot_right bot_line x_right ;;
      Ok (Some (Trapezoid.mk x_left x_right y_left1 y_right1 y_left2 y_right2
                  top_edge_ix bot_edge_ix
                  (Polygon.v_top_left_ix w) (Polygon.v_bot_left_ix w)
                  (Polygon.v_top_right_ix w) (Polygon.v_bot_right_ix w)))
  | _, _ => Ok None
  end.

(** The two entries of the lists [best] and [best_circle] of
    [complete_delaunay_edge]: entry [which] of both lists is assigned in one
    step, so a side is either empty or holds a point with its circle. *)
Record candidates : Type := mk_candidates {
  best0 : option (point_t * Circle.t);
  best1 : option (point_t * Circle.t)
}.

(** [best[which] is None or best_circle[which].contains(curr)]. *)
Definition none_or_in_circle (best : option (point_t * Circle.t))
  (curr : point_t) : bool :=
  match best with
  | None => true
  | Some (_, circle) => Circle.contains circle curr
  end.

(** One iteration of the loop of [complete_delaunay_edge]. *)
Definition candidates_body (self : t) (a b : point_t)
  (a_funnel b_funnel : Funnel.t) (st : candidates) (entry : Z * point_t)
  : result candidates :=
  let '(curr_index, curr) := entry in
  if py_eq curr a || py_eq curr b then Ok st
  else if negb (Funnel.contains a_funnel curr) then Ok st
  else if negb (Funnel.contains b_funnel curr) then Ok st
  else
    let position := Point.turn a b curr in
    if Z.eqb position Point.NO_TURN
    then Raise ThreePointsAreCollinearException
    else
      let which0 := Z.eqb position Point.CCW_TURN in
      if none_or_in_circle (if which0 then best0 st else best1 st) curr then
        let a_edge := LineSegment.mk a curr in
        let b_edge := LineSegment.mk b curr in
        let better :=
          negb (existsb
                  (fun ix =>
                     let border := edge self ix in
                     LineSegment.properly_intersects border a_edge ||
                     LineSegment.properly_intersects border b_edge)
                  (indices self)) in
        if better then
          match Circle.__init__ a b curr with
          | Ok circle =>
              if which0
              then Ok (mk_candidates (Some (curr, circle)) (best1 st))
              else Ok (mk_candidates (best0 st) (Some (curr, circle)))
          | Raise ThreePointsAreCollinearException => Ok st
          | Raise e => Raise e
          | OutOfFuel => OutOfFuel
          end
        else Ok st
      else Ok st.

(** [complete_delaunay_edge] for an edge between two polygon points: the
    third corner on the left and on the right of the edge, where there is
    one. *)
Definition complete_delaunay_edge (self : t) (edge : LineSegment.t)
  : result (option point_t * option point_t) :=
  let a := LineSegment.a edge in
  let b := LineSegment.b edge in
  match Point.index a, Point.index b with
  | Some a_index, Some b_index =>
      let a_prev := point self (a_index - 1)%Z in
      let a_next := point self (a_index + 1)%Z in
      let b_prev := point self (b_index - 1)%Z in
      let b_next := point self (b_index + 1)%Z in
      let a_funnel := Funnel.__init__ a a_next a_prev in
      let b_funnel := Funnel.__init__ b b_next b_prev in
      st <- for_each (candidates_body self a b a_funnel b_funnel)
              (enumerate (points self)) (mk_candidates None None) ;;
      Ok (option_map fst (best0 st), option_map fst (best1 st))
  | _, _ => Raise TypeError
  end.

(** [x in points] for points: some element equals [x]. *)
Definition point_in (x : point_t) (l : list point_t) : bool :=
  existsb (fun e => py_eq e x) l.

Definition _complete_other_delaunay_triangle_of_edge (self : t)
  (edge : LineSegment.t) (triangle : DelaunayTriangle.t)
  : result (option DelaunayTriangle.t) :=
  if negb (existsb (fun e => Edge.__eq__ e edge)
                   (DelaunayTriangle.edges triangle))
  then Raise AssertionError
  else
    points <- complete_delaunay_edge self edge ;;
    match points with
    | (Some p0, Some p1) =>
        if point_in p0 (DelaunayTriangle.points triangle) then
          tr <- DelaunayTriangle.__init__ p1 (LineSegment.a edge)
                  (LineSegment.b edge) ;;
          Ok (Some tr)
        else if point_in p1 (DelaunayTriangle.points triangle) then
          tr <- DelaunayTriangle.__init__ p0 (LineSegment.a edge)
                  (LineSegment.b edge) ;;
          Ok (Some tr)
        else Raise AssertionError
    | _ => Ok None
    end.

(** [edge.a.x <= p.x <= edge.b.x or edge.b.x <= p.x <= edge.a.x]. *)
Definition covers_x (edge : LineSegment.t) (p : point_t) : bool :=
  (Qle_bool (Point.x (LineSegment.a edge)) (Point.x p) &&
   Qle_bool (Point.x p) (Point.x (LineSegment.b edge))) ||
  (Qle_bool (Point.x (LineSegment.b edge)) (Point.x p) &&
   Qle_bool (Point.x p) (Point.x (LineSegment.a edge))).

(** The [while] loop of [locate_point_in_triangle], at most [fuel]
    iterations. *)
Fixpoint locate_walk (fuel : nat) (self : t) (p : point_t)
  (start_edge : LineSegment.t) (triangle : DelaunayTriangle.t)
  : result DelaunayTriangle.t :=
  if DelaunayTriangle.contains triangle p then Ok triangle
  else
    match fuel with
    | O => OutOfFuel
    | S fuel' =>
        match find (fun edge => negb (Edge.__eq__ edge start_edge) &&
                                covers_x edge p)
                   (DelaunayTriangle.edges triangle) with
        | None => Raise AssertionError
        | Some next_edge =>
            next <- _complete_other_delaunay_triangle_of_edge
                      self next_edge triangle ;;
            match next with
            | None => Raise AssertionError
            | Some triangle' => locate_walk fuel' self p next_edge triangle'
            end
        end
    end.

Definition locate_point_in_triangle (fuel : nat) (self : t) (p : point_t)
  : result (option DelaunayTriangle.t) :=
  edges <- _find_edges_above_and_below self p ;;
  match edges with
  | (Some top, Some _) =>
      let start_edge := edge self top in
      points <- complete_delaunay_edge self start_edge ;;
      match points with
      | (_, Some _) => Raise AssertionError
      | (None, None) => Raise AssertionError
      | (Some third, None) =>
          triangle <- DelaunayTriangle.__init__ (point self top)
                        (point self (top + 1)%Z) third ;;
          tr <- locate_walk fuel self p start_edge triangle ;;
          Ok (Some tr)
      end
  | _ => Ok None
  end.


(** [indices(start, stop, step)]: the loop of the generator, at most [fuel]
    steps. *)
Fixpoint indices_loop (fuel : nat) (len start stop step : Z)
  : result (list Z) :=
  if Z.eqb start stop then Ok [start]
  else
    match fuel with
    | O => OutOfFuel
    | S fuel' =>
        rest <- indices_loop fuel' len ((start + step) mod len)%Z stop step ;;
        Ok (start :: rest)
    end.

Definition indices_from (fuel : nat) (self : t) (start stop step : Z)
  : result (list Z) :=
  indices_loop fuel (len self) (start mod len self)%Z (stop mod len self)%Z
               step.

(** [clockwise_indices(start, stop)]. *)
Definition clockwise_indices (fuel : nat) (self : t) (start stop : Z)
  : result (list Z) :=
  indices_from fuel self start stop (-1).

(** [point_turn] for a polygon point and for an index. *)
Definition point_turn (self : t) (p : point_t) : result Z :=
  if is_polygon_point p then
    before <- pred self p ;;
    after <- succ self p ;;
    Ok (Point.turn before p after)
  else Raise TypeError.

Definition point_turn_at (self : t) (p : Z) : result Z :=
  point_turn self (point self p).

Definition is_concave_point (self : t) (p : point_t) : result bool :=
  turn <- point_turn self p ;;
  Ok (Z.eqb turn Point.CW_TURN).

Definition is_convex_point (self : t) (p : point_t) : result bool :=
  turn <- point_turn self p ;;
  Ok (Z.eqb turn Point.CCW_TURN).

(** [edges()]. *)
Definition edges (self : t) : list LineSegment.t :=
  map (edge self) (indices self).

(** [range(first, len(self))]. *)
Definition range_from (self : t) (first : Z) : list Z :=
  map (fun k => (first + Z.of_nat k)%Z)
      (seq 0 (Z.to_nat (len self - first))).

(** [_is_in_general_position]: no three vertices with increasing indices
    are collinear. *)
Definition _is_in_general_position (self : t) : bool :=
  forallb
    (fun a_ix =>
       forallb
         (fun b_ix =>
            forallb
              (fun c_ix =>
                 negb (Z.eqb (Point.turn (point self a_ix) (point self b_ix)
                                         (point self c_ix))
                             Point.NO_TURN))
              (range_from self (b_ix + 1)))
         (range_from self (a_ix + 1)))
    (range_from self 0).

(** [try: ... except ValueError: raise NotInGeneralPositionException()]. *)
Definition value_error_as_general_position {A : Type} (r : result A)
  : result A :=
  match r with
  | Raise ValueError => Raise NotInGeneralPositionException
  | other => other
  end.

(** The trapezoid next to a corner: the point [dist] away from the side at
    [x], [offset] above the line through the points [i] and [j]. *)
Definition beside_corner (self : t) (i j : Z) (x offset : Q)
  : result (option Trapezoid.t) :=
  line <- Line.__init__ (point self i) (point self j) ;;
  y <- Line.y line x ;;
  trapezoid self (Point x (y + offset)).

(** [which & mask] is not zero. *)
Definition has_bit (which mask : Z) : bool :=
  negb (Z.eqb (Z.land which mask) 0).

Definition neighbour_trapezoids (self : t) (t : Trapezoid.t) (which : Z)
  : result (list Trapezoid.t) :=
  let dist : Q := 1 # 1000000 in
  found <-
    value_error_as_general_position
      (' (top_left, bot_left) <-
         (if has_bit which 2 then
            top_left <-
              match Trapezoid.top_left_ix t with
              | None =>
                  beside_corner self (Trapezoid.top_edge_ix t)
                    (Trapezoid.top_edge_ix t + 1)
                    (Trapezoid.x_left t - dist) (- dist)
              | Some ix =>
                  beside_corner self ix (ix + 1)
                    (Trapezoid.x_left t - dist) (- dist)
              end ;;
            bot_left <-
              match Trapezoid.bot_left_ix t with
              | None =>
                  beside_corner self (Trapezoid.bot_edge_ix t)
                    (Trapezoid.bot_edge_ix t + 1)
                    (Trapezoid.x_left t - dist) dist
              | Some ix =>
                  beside_corner self (ix - 1) ix
                    (Trapezoid.x_left t - dist) dist
              end ;;
            Ok (top_left, bot_left)
          else Ok (None, None)) ;;
       ' (top_right, bot_right) <-
         (if has_bit which 1 then
            top_right <-
              match Trapezoid.top_right_ix t with
              | None =>
                  beside_corner self (Trapezoid.top_edge_ix t)
                    (Trapezoid.top_edge_ix t + 1)
                    (Trapezoid.x_right t + dist) (- dist)
              | Some ix =>
                  beside_corner self (ix - 1) ix
                    (Trapezoid.x_right t + dist) (- dist)
              end ;;
            bot_right <-
              match Trapezoid.bot_right_ix t with
              | None =>
                  beside_corner self (Trapezoid.bot_edge_ix t)
                    (Trapezoid.bot_edge_ix t + 1)
                    (Trapezoid.x_right t + dist) dist
              | Some ix =>
                  beside_corner self ix (ix + 1)
                    (Trapezoid.x_right t + dist) dist
              end ;;
            Ok (top_right, bot_right)
          else Ok (None, None)) ;;
       Ok (top_left, bot_left, top_right, bot_right)) ;;
  let '(top_left, bot_left, top_right, bot_right) := found in
  let res1 :=
    match top_left with
    | Some tr => if has_bit which 2 then [tr] else []
    | None => []
    end in
  let res2 :=
    match bot_left with
    | Some tr =>
        if has_bit which 2 && negb (Trapezoid.py_eq top_left bot_left)
        then res1 ++ [tr] else res1
    | None => res1
    end in
  let res3 :=
    match bot_right with
    | Some tr => if has_bit which 1 then res2 ++ [tr] else res2
    | None => res2
    end in
  let res4 :=
    match top_right with
    | Some tr =>
        if has_bit which 1 && negb (Trapezoid.py_eq top_right bot_right)
        then res3 ++ [tr] else res3
    | None => res3
    end in
  Ok res4.

(** [delaunay_neighbour_number]: the edges of the triangle whose ends are
    not neighbours by index. *)
Definition delaunay_neighbour_number (self : t)
  (triangle : DelaunayTriangle.t) : result Z :=
  for_each
    (fun neighbours edge =>
       match Point.index (LineSegment.a edge),
             Point.index (LineSegment.b edge) with
       | Some i, Some j =>
           if Z.eqb (i - j) (-1) || Z.eqb (i - j) 1 then Ok neighbours
           else Ok (neighbours + 1)%Z
       | _, _ => Raise TypeError
       end)
    (DelaunayTriangle.edges triangle) 0%Z.

(** The loop of [delaunay_first_neighbour] and of
    [delaunay_next_neighbour]: the first edge with a triangle on its other
    side. *)
Fixpoint first_completed (self : t) (triangle : DelaunayTriangle.t)
  (edges : list LineSegment.t) : result (option DelaunayTriangle.t) :=
  match edges with
  | [] => Ok None
  | edge :: edges' =>
      neighbour <- _complete_other_delaunay_triangle_of_edge
                     self edge triangle ;;
      match neighbour with
      | Some tr => Ok (Some tr)
      | None => first_completed self triangle edges'
      end
  end.

Definition delaunay_first_neighbour (self : t)
  (triangle : DelaunayTriangle.t) : result (option DelaunayTriangle.t) :=
  first_completed self triangle (DelaunayTriangle.edges triangle).

Definition delaunay_next_neighbour (self : t)
  (triangle neighbour : DelaunayTriangle.t)
  : result (option DelaunayTriangle.t) :=
  match DelaunayTriangle.common_edge triangle neighbour with
  | None => Raise AssertionError
  | Some common_edge =>
      edges <- DelaunayTriangle.edges_until triangle common_edge ;;
      first_completed self triangle edges
  end.

End Polygon.

(** ** Triangulated polygons ([triangulated_polygon.py])

    The triangles come from the external routine [triangulate]; here they
    are part of the object as it is after construction. *)

Module TriangulatedPolygon.

Record t : Type := mk {
  polygon : Polygon.t;
  triangles : list DelaunayTriangle.t
}.

Definition locate_point_in_triangle (self : t) (p : point)
  : result DelaunayTriangle.t :=
  match find (fun triangle => DelaunayTriangle.contains triangle p)
             (triangles self) with
  | Some triangle => Ok triangle
  | None => Raise ValueError
  end.

End TriangulatedPolygon.

(** ** The shortest-path engines ([gsp])

    A call of [shortest_path] gives a generator.  Its model is what a
    consumer that exhausts the generator observes: the points emitted, in
    order, and how the generator ended ([Ok tt] for a normal end). *)

Record path : Type := mk_path {
  emitted : list point;
  ending : result unit
}.

Definition emits (pts : list point) : path := mk_path pts (Ok tt).
Definition raises (e : exn) : path := mk_path [] (Raise e).

(** [gsp/delaunay.py].  The code after the trivial cases (the walk over the
    triangles) is the parameter [walk]; it gets the values of the local
    variables at that place. *)
Module delaunay.
Section Engine.

Variable fuel : nat.
Variable walk :
  Polygon.t -> point -> point -> DelaunayTriangle.t -> DelaunayTriangle.t ->
  path.

Definition shortest_path (polygon : Polygon.t) (s t : point) : path :=
  if py_eq s t then emits [s]
  else
    match Polygon.locate_point_in_triangle fuel polygon s with
    | Raise e => raises e
    | OutOfFuel => mk_path [] OutOfFuel
    | Ok s_triangle =>
        match Polygon.locate_point_in_triangle fuel polygon t with
        | Raise e => raises e
        | OutOfFuel => mk_path [] OutOfFuel
        | Ok t_triangle =>
            match s_triangle, t_triangle with
            | Some s_triangle, Some t_triangle =>
                if DelaunayTriangle.__eq__ s_triangle t_triangle
                then emits [s; t]
                else walk polygon s t s_triangle t_triangle
            | _, _ => emits []
            end
        end
    end.

End Engine.
End delaunay.

(** [gsp/lee_preparata.py].  The location in a triangulated polygon returns
    a triangle or raises, so the test [s_triangle is None or t_triangle is
    None] of the source has no case here. *)
Module lee_preparata.
Section Engine.

Variable walk :
  TriangulatedPolygon.t -> point -> point -> DelaunayTriangle.t ->
  DelaunayTriangle.t -> path.

Definition shortest_path (polygon : TriangulatedPolygon.t) (s t : point)
  : path :=
  if py_eq s t then emits [s]
  else
    match TriangulatedPolygon.locate_point_in_triangle polygon s with
    | Raise e => raises e
    | OutOfFuel => mk_path [] OutOfFuel
    | Ok s_triangle =>
        match TriangulatedPolygon.locate_point_in_triangle polygon t with
        | Raise e => raises e
        | OutOfFuel => mk_path [] OutOfFuel
        | Ok t_triangle =>
            if DelaunayTriangle.__eq__ s_triangle t_triangle
            then emits [s; t]
            else walk polygon s t s_triangle t_triangle
        end
    end.

End Engine.
End lee_preparata.

(** The block that [gsp/trapezoid.py] and [gsp/makestep.py] each contain
    twice, once for [s] and once for [t]: a point on a vertical side of its
    trapezoid is moved inwards and located again.  Reading [x_left] of [None]
    raises [AttributeError]. *)
Definition shift_off_boundary (polygon : Polygon.t) (s : point)
  (s_trapezoid : option Trapezoid.t) : result (point * option Trapezoid.t) :=
  match s_trapezoid with
  | None => Raise AttributeError
  | Some tr =>
      if Qeq_bool (Point.x s) (Trapezoid.x_left tr) ||
         Qeq_bool (Point.x s) (Trapezoid.x_right tr)
      then
        let shift :=
          py_min (Trapezoid.x_right tr - Trapezoid.x_left tr) (2 # 100000)
          / 2 in
        let s' :=
          if Qeq_bool (Point.x s) (Trapezoid.x_left tr)
          then Point (Point.x s + shift) (Point.y s)
          else Point (Point.x s - shift) (Point.y s) in
        s_trapezoid' <- Polygon.trapezoid polygon s' ;;
        Ok (s', s_trapezoid')
      else Ok (s, Some tr)
  end.

(** The part that the two trapezoid engines share: the trivial case
    [s == t], the location of [s] and [t] and the case of one trapezoid.
    [walk] is the code after it; it gets the original and the shifted
    points and the two trapezoids. *)
Definition trapezoid_entry
  (walk : Polygon.t -> point -> point -> point -> point ->
          option Trapezoid.t -> option Trapezoid.t -> path)
  (polygon : Polygon.t) (s t : point) : path :=
  if py_eq s t then emits [s]
  else
    let original_s := s in
    let original_t := t in
    let located :=
      s_trapezoid <- Polygon.trapezoid polygon s ;;
      t_trapezoid <- Polygon.trapezoid polygon t ;;
      ' (s, s_trapezoid) <- shift_off_boundary polygon s s_trapezoid ;;
      ' (t, t_trapezoid) <- shift_off_boundary polygon t t_trapezoid ;;
      Ok (s, s_trapezoid, t, t_trapezoid) in
    match located with
    | Raise e => raises e
    | OutOfFuel => mk_path [] OutOfFuel
    | Ok (s, s_trapezoid, t, t_trapezoid) =>
        if Trapezoid.py_eq s_trapezoid t_trapezoid
        then emits [original_s; original_t]
        else walk polygon original_s original_t s t s_trapezoid t_trapezoid
    end.

(** [gsp/trapezoid.py]. *)
Module trapezoid.
Section Engine.

Variable walk :
  Polygon.t -> point -> point -> point -> point ->
  option Trapezoid.t -> option Trapezoid.t -> path.

Definition shortest_path (polygon : Polygon.t) (s t : point) : path :=
  trapezoid_entry walk polygon s t.

End Engine.
End trapezoid.

(** [gsp/makestep.py]. *)
Module makestep.

(** [MakeStepResult]. *)
Record MakeStepResult : Type := mk_result {
  old_cusp : option point;
  cusp : point;
  right : point;
  left : point
}.

(** The tuple [forbidden_indices] of [hit_polygon_boundary], without an
    absent index (no edge index equals [None]): the index of [p] and, for a
    polygon point, the one before it. *)
Definition forbidden_indices (polygon : Polygon.t) (p : point) : list Z :=
  match Point.index p with
  | Some i => if is_polygon_point p then [i; Polygon.prev polygon i] else [i]
  | None => []
  end.

(** One iteration of the loop of [hit_polygon_boundary]; the state is the
    pair of [hit_point] and [distance]. *)
Definition hit_body (polygon : Polygon.t) (p : point) (ray : Ray.t)
  (forbidden : list Z) (st : option point * option Q) (ix : Z)
  : result (option point * option Q) :=
  let edge := Polygon.edge polygon ix in
  if negb (existsb (Z.eqb ix) forbidden) && Ray.properly_intersects ray edge
  then
    match Ray.intersection_point ray (Ray.Segment edge) with
    | None => Raise AssertionError
    | Some tmp_hit =>
        let tmp_distance := Point.squared_distance_to p tmp_hit in
        if Polygon.none_or_closer (snd st) tmp_distance
        then Ok (Some (EdgePoint (Point.x tmp_hit) (Point.y tmp_hit)
                                 (Point.index (LineSegment.a edge))),
                 Some tmp_distance)
        else Ok st
    end
  else Ok st.

Definition hit_polygon_boundary (p q : point) (polygon : Polygon.t)
  : result point :=
  if negb (is_polygon_point p || is_edge_point p) then Raise AssertionError
  else
    let forbidden := forbidden_indices polygon p in
    let ray := Ray.mk p q in
    st <- for_each (hit_body polygon p ray forbidden)
            (Polygon.indices polygon) (None, None) ;;
    match fst st with
    | None => Ok q
    | Some hit_point => Ok hit_point
    end.

Definition trapezoid_subpolygon_position (polygon : Polygon.t) (ix1 ix2 : Z)
  (trapezoid : Trapezoid.t) : result Z :=
  let bot := Trapezoid.bot_edge_ix trapezoid in
  let top := Trapezoid.top_edge_ix trapezoid in
  if negb ((0 <=? ix1)%Z && (ix1 <? Polygon.len polygon)%Z)
  then Raise AssertionError
  else if negb ((0 <=? ix2)%Z && (ix2 <? Polygon.len polygon)%Z)
  then Raise AssertionError
  else if (ix1 <? ix2)%Z then
    if (ix1 <=? bot)%Z && (bot <? ix2)%Z && (ix1 <=? top)%Z && (top <? ix2)%Z
    then Ok 1%Z
    else if ((bot <? ix1)%Z || (ix2 <=? bot)%Z) &&
            ((top <? ix1)%Z || (ix2 <=? top)%Z)
    then Ok (-1)%Z
    else Ok 0%Z
  else if (ix2 <? ix1)%Z then
    if ((bot <? ix2)%Z || (ix1 <=? bot)%Z) &&
       ((top <? ix2)%Z || (ix1 <=? top)%Z)
    then Ok 1%Z
    else if (ix2 <=? bot)%Z && (bot <? ix1)%Z &&
            (ix2 <=? top)%Z && (top <? ix1)%Z
    then Ok (-1)%Z
    else Ok 0%Z
  else Raise AssertionError.

(** The last part of [in_subpolygon]: the decision by the x-coordinates and
    the edge indices of the trapezoid, then by the turn. *)
Definition in_subpolygon_by_side (q1 q2 t : point) (i1 i2 : Z)
  (t_trapezoid : Trapezoid.t) : bool :=
  let q1_on_bot :=
    is_edge_point q1 && Z.eqb i1 (Trapezoid.bot_edge_ix t_trapezoid) in
  let q1_on_top :=
    is_edge_point q1 && Z.eqb i1 (Trapezoid.top_edge_ix t_trapezoid) in
  let q2_on_bot :=
    is_edge_point q2 && Z.eqb i2 (Trapezoid.bot_edge_ix t_trapezoid) in
  let q2_on_top :=
    is_edge_point q2 && Z.eqb i2 (Trapezoid.top_edge_ix t_trapezoid) in
  let by_turn := negb (Z.eqb (Point.turn q1 q2 t) Point.CCW_TURN) in
  let by_left :=
    if Point.left_of t q1 && Point.left_of t q2 then
      if q1_on_top || q2_on_bot then true
      else if q1_on_bot || q2_on_top then false
      else by_turn
    else by_turn in
  if Point.is_right_of t q1 && Point.is_right_of t q2 then
    if q1_on_bot || q2_on_top then true
    else if q1_on_top || q2_on_bot then false
    else by_left
  else by_left.

(** [in_subpolygon].  An absent index of [q1] or [q2] fails one of the
    assertions on the way. *)
Definition in_subpolygon (polygon : Polygon.t) (q1 q2 t : point)
  (t_trapezoid : Trapezoid.t) : result bool :=
  if negb (is_polygon_point q1 || is_edge_point q1) then Raise AssertionError
  else if negb (is_polygon_point q2 || is_edge_point q2)
  then Raise AssertionError
  else
    match Point.index q1, Point.index q2 with
    | Some i1, Some i2 =>
        let ix1 := if is_edge_point q1 then Polygon.next polygon i1 else i1 in
        let ix2 := i2 in
        if Z.eqb ix1 ix2 then
          if negb (is_edge_point q1) then Raise AssertionError
          else Ok (negb (Z.eqb (Point.turn q1 q2 t) Point.CCW_TURN))
        else
          small_polygon_position <-
            trapezoid_subpolygon_position polygon ix1 ix2 t_trapezoid ;;
          if Z.eqb small_polygon_position 1 then Ok true
          else
            let ix1 :=
              if is_edge_point q1 then Polygon.prev polygon ix1 else ix1 in
            let ix2 :=
              if is_edge_point q2 then Polygon.next polygon ix2 else ix2 in
            outside <-
              (if negb (Z.eqb ix1 ix2) then
                 big_polygon_position <-
                   trapezoid_subpolygon_position polygon ix1 ix2
                     t_trapezoid ;;
                 Ok (Z.eqb big_polygon_position small_polygon_position &&
                     Z.eqb small_polygon_position (-1))
               else Ok false) ;;
            if outside then Ok false
            else Ok (in_subpolygon_by_side q1 q2 t i1 i2 t_trapezoid)
    | _, _ => Raise AssertionError
    end.

(** [p_] of [make_step]: the cusp itself or, for a cusp without index, the
    point of the boundary hit from [q_prime] through the cusp. *)
Definition p_ (polygon : Polygon.t) (p q_prime : point) : result point :=
  match Point.index p with
  | None => hit_polygon_boundary q_prime p polygon
  | Some _ => Ok p
  end.

(** The boundary point seen from [p] in the direction of the vertex [v]:
    the hit point or, when that is not nearer than [v], [v] itself. *)
Definition nearer_of (p q_prime v : point) : point :=
  if Qle_bool (Point.squared_distance_to p v)
              (Point.squared_distance_to p q_prime)
  then v else q_prime.

(** The end of [make_step]: the step over the predecessor of [q2]. *)
Definition step_over_pred (p q1 q2 t : point) (polygon : Polygon.t)
  (t_trapezoid : Trapezoid.t) : result MakeStepResult :=
  pred_q2 <- Polygon.pred polygon q2 ;;
  q_prime <- hit_polygon_boundary p pred_q2 polygon ;;
  let q_prime := nearer_of p q_prime pred_q2 in
  p_ <- p_ polygon p q_prime ;;
  inside <- in_subpolygon polygon q_prime p_ t t_trapezoid ;;
  if inside then Ok (mk_result None p q_prime q2)
  else Ok (mk_result None p q1 q_prime).

Definition make_step (p q1 q2 t : point) (polygon : Polygon.t)
  (t_trapezoid : Trapezoid.t) : result MakeStepResult :=
  if negb (is_polygon_point p) then Raise AssertionError
  else if negb (is_polygon_point q1 || is_edge_point q1)
  then Raise AssertionError
  else if negb (is_polygon_point q2 || is_edge_point q2)
  then Raise AssertionError
  else
    q1_is_reflex <-
      (if is_polygon_point q1 then
         succ_q1 <- Polygon.succ polygon q1 ;;
         Ok (Z.eqb (Point.turn p q1 succ_q1) Point.CW_TURN)
       else Ok false) ;;
    if q1_is_reflex then
      q_prime <- hit_polygon_boundary p q1 polygon ;;
      inside <- in_subpolygon polygon q1 q_prime t t_trapezoid ;;
      if inside then
        succ_q1 <- Polygon.succ polygon q1 ;;
        Ok (mk_result (Some p) q1 succ_q1 q_prime)
      else Ok (mk_result None p q_prime q2)
    else
      q2_is_reflex <-
        (if is_polygon_point q2 then
           pred_q2 <- Polygon.pred polygon q2 ;;
           Ok (Z.eqb (Point.turn p q2 pred_q2) Point.CCW_TURN)
         else Ok false) ;;
      if q2_is_reflex then
        q_prime <- hit_polygon_boundary p q2 polygon ;;
        inside <- in_subpolygon polygon q_prime q2 t t_trapezoid ;;
        if inside then
          pred_q2 <- Polygon.pred polygon q2 ;;
          Ok (mk_result (Some p) q2 q_prime pred_q2)
        else Ok (mk_result None p q1 q_prime)
      else
        succ_q1 <- Polygon.succ polygon q1 ;;
        if negb (Z.eqb (Point.turn p q1 succ_q1) Point.CW_TURN) &&
           negb (Z.eqb (Point.turn p q2 succ_q1) Point.CCW_TURN)
        then
          q_prime <- hit_polygon_boundary p succ_q1 polygon ;;
          if negb (py_eq q_prime q2) then
            let q_prime := nearer_of p q_prime succ_q1 in
            p_ <- p_ polygon p q_prime ;;
            inside <- in_subpolygon polygon p_ q_prime t t_trapezoid ;;
            if inside then Ok (mk_result None p q1 q_prime)
            else Ok (mk_result None p q_prime q2)
          else step_over_pred p q1 q2 t polygon t_trapezoid
        else step_over_pred p q1 q2 t polygon t_trapezoid.

Section Engine.

Variable walk :
  Polygon.t -> point -> point -> point -> point ->
  option Trapezoid.t -> option Trapezoid.t -> path.

Definition shortest_path (polygon : Polygon.t) (s t : point) : path :=
  trapezoid_entry walk polygon s t.

End Engine.
End makestep.

(** ** Notions of the specification

    The definitions below are not translations of code: they state, in the
    words of the specification, what the properties below are about. *)

Module Spec.

(** The point [p] on the closed segment from [a] to [b]. *)
Definition on_segment (a b p : point) : bool :=
  Z.eqb (Point.turn a b p) 0 &&
  Qle_bool (py_min (Point.x a) (Point.x b)) (Point.x p) &&
  Qle_bool (Point.x p) (py_max (Point.x a) (Point.x b)) &&
  Qle_bool (py_min (Point.y a) (Point.y b)) (Point.y p) &&
  Qle_bool (Point.y p) (py_max (Point.y a) (Point.y b)).

(** What the edge from [a] to [b] adds to the winding number of the polygon
    around [p]: +1 for an upward crossing of the horizontal through [p] with
    [p] on its left, -1 for a downward crossing with [p] on its right. *)
Definition winding_of_edge (a b p : point) : Z :=
  if Qle_bool (Point.y a) (Point.y p) then
    if Qltb (Point.y p) (Point.y b) && Z.eqb (Point.turn a b p) 1
    then 1 else 0
  else
    if Qle_bool (Point.y b) (Point.y p) && Z.eqb (Point.turn a b p) (-1)
    then -1 else 0.

Definition winding_number (polygon : Polygon.t) (p : point) : Z :=
  fold_left
    (fun acc ix =>
       (acc + winding_of_edge (Polygon.point polygon ix)
                              (Polygon.point polygon (ix + 1)) p)%Z)
    (Polygon.indices polygon) 0%Z.

(** [p] lies in the closure of the polygon: on its boundary or in its
    interior. *)
Definition in_closure (polygon : Polygon.t) (p : point) : bool :=
  existsb (fun ix => on_segment (Polygon.point polygon ix)
                                (Polygon.point polygon (ix + 1)%Z) p)
          (Polygon.indices polygon) ||
  negb (Z.eqb (winding_number polygon p) 0).

Definition outside_closure (polygon : Polygon.t) (p : point) : bool :=
  negb (in_closure polygon p).

(** The edge that starts at [curr] reaches over the x-coordinate of [p]. *)
Definition spans (polygon : Polygon.t) (p : point) (entry : Z * point)
  : bool :=
  let next_ := Polygon.point polygon (fst entry + 1)%Z in
  Qle_bool (py_min (Point.x (snd entry)) (Point.x next_)) (Point.x p) &&
  Qle_bool (Point.x p) (py_max (Point.x (snd entry)) (Point.x next_)).

(** The edge that starts at [curr] is not a vertical edge over [p.x]. *)
Definition not_vertical (polygon : Polygon.t) (p : point)
  (entry : Z * point) : bool :=
  negb (spans polygon p entry) ||
  negb (Qeq_bool (Point.x (snd entry))
                 (Point.x (Polygon.point polygon (fst entry + 1)%Z))).



(** No edge of the polygon that reaches over [p.x] is vertical. *)
Definition no_vertical_edge_over (polygon : Polygon.t) (p : point) : bool :=
  forallb (not_vertical polygon p) (enumerate (Polygon.points polygon)).










(** The cross product of the direction vectors of two segments,
    (b - a) x (d - c); it is zero exactly for parallel directions. *)
Definition direction_cross (u v : LineSegment.t) : Q :=
  (Point.x (LineSegment.b u) - Point.x (LineSegment.a u)) *
  (Point.y (LineSegment.b v) - Point.y (LineSegment.a v)) -
  (Point.y (LineSegment.b u) - Point.y (LineSegment.a u)) *
  (Point.x (LineSegment.b v) - Point.x (LineSegment.a v)).

(** Both coordinate differences of two points are within [epsilon]. *)
Definition epsilon_equal (a b : point) : Prop :=
  - Point.epsilon <= Point.x a - Point.x b <= Point.epsilon /\
  - Point.epsilon <= Point.y a - Point.y b <= Point.epsilon.

(** The cached attributes of a funnel agree with its three points: the
    stored type is their turn and a filled ray cache holds the ray through
    the current points. *)
Definition funnel_consistent (f : Funnel.t) : Prop :=
  Funnel._type f =
    Point.turn (Funnel.cusp f) (Funnel.first f) (Funnel.second f) /\
  (forall r, Funnel._first_ray f = Some r ->
             r = Ray.mk (Funnel.cusp f) (Funnel.first f)) /\
  (forall r, Funnel._second_ray f = Some r ->
             r = Ray.mk (Funnel.cusp f) (Funnel.second f)).



(** Two points of which one is a polygon point and the other an edge
    point: the only pairs on which [==] depends on the order of its
    operands. *)
Definition mixed_classes (a b : point) : bool :=
  (is_polygon_point a && is_edge_point b) ||
  (is_edge_point a && is_polygon_point b).

(** Two points have the same coordinates. *)
Definition same_place (a b : point) : Prop :=
  Point.x a == Point.x b /\ Point.y a == Point.y b.



(** The index [e] lies in the cyclic range that starts at [lo] and ends
    before [hi], going up through the indices of a polygon with [len]
    vertices and wrapping around at the highest one. *)
Definition cyclic_between (len lo hi e : Z) : bool :=
  ((e - lo) mod len <? (hi - lo) mod len)%Z.

(** The test of the loop of [hit_polygon_boundary]: the edge that starts at
    the vertex [ix] is not skipped and the ray from [p] through [q]
    properly intersects it. *)
Definition hits (polygon : Polygon.t) (p q : point) (ix : Z) : bool :=
  negb (existsb (Z.eqb ix) (makestep.forbidden_indices polygon p)) &&
  Ray.properly_intersects (Ray.mk p q) (Polygon.edge polygon ix).

(** A point is a polygon point or an edge point, as [make_step] and its
    helpers assert of the points on the boundary. *)
Definition on_boundary_class (p : point) : bool :=
  is_polygon_point p || is_edge_point p.

(** A result of [make_step] that keeps the cusp [p]: no point is reported
    and one of [q1], [q2] stays in its place. *)
Definition keeps_cusp (p q1 q2 : point) (r : makestep.MakeStepResult)
  : Prop :=
  makestep.old_cusp r = None /\ makestep.cusp r = p /\
  (makestep.right r = q1 \/ makestep.left r = q2).

(** A result of [make_step] that moves the cusp from [p] to the polygon
    point [q1] or [q2]: [p] is reported, and the successor of [q1] becomes
    the right point or the predecessor of [q2] the left one. *)
Definition advances_cusp (polygon : Polygon.t) (p q1 q2 : point)
  (r : makestep.MakeStepResult) : Prop :=
  makestep.old_cusp r = Some p /\
  ((makestep.cusp r = q1 /\ is_polygon_point q1 = true /\
    Polygon.succ polygon q1 = Ok (makestep.right r)) \/
   (makestep.cusp r = q2 /\ is_polygon_point q2 = true /\
    Polygon.pred polygon q2 = Ok (makestep.left r))).

End Spec.

(** ** Inputs of the end-to-end scenarios *)

Module Scenario.

(** How the trapezoid engines locate a query point: [Polygon.trapezoid],
    then the shift off a vertical trapezoid side. *)
Definition locate_in_trapezoid (polygon : Polygon.t) (s : point)
  : result (point * option Trapezoid.t) :=
  s_trapezoid <- Polygon.trapezoid polygon s ;;
  shift_off_boundary polygon s s_trapezoid.

(** S1: the triangle (0,0), (10,0), (0,10), as given and as a polygon
    object. *)
Definition triangle : list point := [Point 0 0; Point 10 0; Point 0 10].

Definition triangle_polygon : Polygon.t :=
  Polygon.mk [PolygonPoint 0 0 (Some 0%Z); PolygonPoint 10 0 (Some 1%Z);
              PolygonPoint 0 10 (Some 2%Z)] 3.

(** Its only triangulation. *)
Definition triangle_triangulated : TriangulatedPolygon.t :=
  TriangulatedPolygon.mk triangle_polygon
    [DelaunayTriangle.mk (PolygonPoint 0 0 (Some 0%Z))
                         (PolygonPoint 10 0 (Some 1%Z))
                         (PolygonPoint 0 10 (Some 2%Z)) []].

(** A polygon with two spikes to the right; the vertices (2,2) and (2,6)
    lie on one vertical line. *)
Definition spikes : list point :=
  [Point 0 0; Point 6 0; Point 2 2; Point 6 4; Point 2 6; Point 0 6].

Definition spikes_polygon : Polygon.t :=
  Polygon.mk [PolygonPoint 0 0 (Some 0%Z); PolygonPoint 6 0 (Some 1%Z);
              PolygonPoint 2 2 (Some 2%Z); PolygonPoint 6 4 (Some 3%Z);
              PolygonPoint 2 6 (Some 4%Z); PolygonPoint 0 6 (Some 5%Z)] 6.

(** A polygon in the shape of a C that opens to the right, no two vertices
    on one vertical line; the list starts at the upper right corner of the
    lower arm. *)
Definition notch : list point :=
  [Point 10 2; Point 2 3; Point 3 7; Point 11 8; Point 12 10; Point 0 11;
   Point 1 0; Point 9 (-1)].

Definition notch_polygon : Polygon.t :=
  Polygon.mk [PolygonPoint 10 2 (Some 0%Z); PolygonPoint 2 3 (Some 1%Z);
              PolygonPoint 3 7 (Some 2%Z); PolygonPoint 11 8 (Some 3%Z);
              PolygonPoint 12 10 (Some 4%Z); PolygonPoint 0 11 (Some 5%Z);
              PolygonPoint 1 0 (Some 6%Z); PolygonPoint 9 (-1) (Some 7%Z)] 8.

(** Walks that are never reached in the trivial cases. *)
Definition no_triangle_walk (_ : Polygon.t) (_ _ : point)
  (_ _ : DelaunayTriangle.t) : path := raises NotImplementedError.

Definition no_triangulated_walk (_ : TriangulatedPolygon.t) (_ _ : point)
  (_ _ : DelaunayTriangle.t) : path := raises NotImplementedError.

Definition no_trapezoid_walk (_ : Polygon.t) (_ _ _ _ : point)
  (_ _ : option Trapezoid.t) : path := raises NotImplementedError.

End Scenario.

(** ** Well-formed polygons and simple sufficient conditions *)

Module Shape.

(** Twice the signed area of the polygon (the shoelace sum); it is positive
    for vertices in counter-clockwise order. *)
Definition double_area (polygon : Polygon.t) : Q :=
  fold_left
    (fun acc ix =>
       let v := Polygon.point polygon ix in
       let w := Polygon.point polygon (ix + 1)%Z in
       acc + (Point.x v * Point.y w - Point.x w * Point.y v))
    (Polygon.indices polygon) 0.

Definition counter_clockwise (polygon : Polygon.t) : bool :=
  Qltb 0 (double_area polygon).

(** Two edge indices name the same edge or edges that share a vertex. *)
Definition adjacent (polygon : Polygon.t) (i j : Z) : bool :=
  Z.eqb i j || Z.eqb (Polygon.next polygon i) j ||
  Z.eqb (Polygon.next polygon j) i.

(** No two edges meet, apart from neighbours at their common vertex. *)
Definition simple (polygon : Polygon.t) : bool :=
  forallb
    (fun i =>
       forallb
         (fun j =>
            adjacent polygon i j ||
            negb (LineSegment.intersects (Polygon.edge polygon i)
                                         (Polygon.edge polygon j)))
         (Polygon.indices polygon))
    (Polygon.indices polygon).

(** No two vertices share an x-coordinate. *)
Fixpoint distinct_x (l : list point) : bool :=
  match l with
  | [] => true
  | v :: l' =>
      forallb (fun w => negb (Qeq_bool (Point.x v) (Point.x w))) l' &&
      distinct_x l'
  end.






End Shape.

(** ** The parameters of an intersection

    The local variables of [LineSegment._intersection] and of
    [Ray.intersection_point] for the pairs (a, b) and (c, d): the
    determinant and the parameters [s] along (a, b) and [t] along (c, d) of
    the point in which the two lines meet. *)

Module Param.

Definition det (a b c d : point) : Q :=
  (Point.x b - Point.x a) * (Point.y c - Point.y d) -
  (Point.y b - Point.y a) * (Point.x c - Point.x d).

Definition s (a b c d : point) : Q :=
  ((Point.x c - Point.x a) * (Point.y c - Point.y d) -
   (Point.y c - Point.y a) * (Point.x c - Point.x d)) / det a b c d.

Definition t (a b c d : point) : Q :=
  ((Point.x b - Point.x a) * (Point.y c - Point.y a) -
   (Point.y b - Point.y a) * (Point.x c - Point.x a)) / det a b c d.

(** The two lines are not parallel and meet within both segments. *)
Definition within_both (a b c d : point) : Prop :=
  ~ det a b c d == 0 /\
  0 <= s a b c d <= 1 /\ 0 <= t a b c d <= 1.

(** The two lines are not parallel and meet on the ray from [a] through
    [b], within the segment (c, d). *)
Definition on_ray (a b c d : point) : Prop :=
  ~ det a b c d == 0 /\
  0 <= s a b c d /\ 0 <= t a b c d <= 1.

(** The same, strictly inside the segment (c, d). *)
Definition properly_on_ray (a b c d : point) : Prop :=
  ~ det a b c d == 0 /\
  0 <= s a b c d /\ 0 < t a b c d < 1.

(** The two lines are not parallel and meet strictly inside both
    segments. *)
Definition properly_within_both (a b c d : point) : Prop :=
  ~ det a b c d == 0 /\
  0 < s a b c d < 1 /\ 0 < t a b c d < 1.


End Param.

(** * Properties *)

(** ** Comparisons and signs *)

Lemma Qltb_lt (a b : Q) : Qltb a b = true <-> a < b.
Proof.
  unfold Qltb. rewrite negb_true_iff.
  split; intro H.
  - apply Qnot_le_lt. intro Hle. apply Qle_bool_iff in Hle. congruence.
  - destruct (Qle_bool b a) eqn:E; [|reflexivity].
    apply Qle_bool_iff in E. exfalso. apply (Qlt_not_le _ _ H E).
Qed.

Lemma Qltb_ge (a b : Q) : Qltb a b = false <-> b <= a.
Proof.
  unfold Qltb. rewrite negb_false_iff. apply Qle_bool_iff.
Qed.

Lemma Qle_bool_gt (a b : Q) : Qle_bool a b = false <-> b < a.
Proof.
  rewrite <- Qltb_lt. unfold Qltb. rewrite negb_true_iff. tauto.
Qed.

Lemma Qeq_bool_false_iff (a b : Q) : Qeq_bool a b = false <-> ~ a == b.
Proof.
  split.
  - apply Qeq_bool_neq.
  - intro H. destruct (Qeq_bool a b) eqn:E; [|reflexivity].
    apply Qeq_bool_iff in E. contradiction.
Qed.

(** Turns every boolean comparison of the context and of the goal into the
    order relation it decides. *)
Ltac reflect_Q :=
  repeat match goal with
  | H : Qltb _ _ = true |- _ => apply Qltb_lt in H
  | H : Qltb _ _ = false |- _ => apply Qltb_ge in H
  | H : Qle_bool _ _ = true |- _ => apply Qle_bool_iff in H
  | H : Qle_bool _ _ = false |- _ => apply Qle_bool_gt in H
  | H : Qeq_bool _ _ = true |- _ => apply Qeq_bool_iff in H
  | H : Qeq_bool _ _ = false |- _ => apply Qeq_bool_false_iff in H
  | |- Qltb _ _ = true => apply Qltb_lt
  | |- Qltb _ _ = false => apply Qltb_ge
  | |- Qle_bool _ _ = true => apply Qle_bool_iff
  | |- Qle_bool _ _ = false => apply Qle_bool_gt
  | |- Qeq_bool _ _ = true => apply Qeq_bool_iff
  | |- Qeq_bool _ _ = false => apply Qeq_bool_false_iff
  end.

Lemma sign_pos (a : Q) : 0 < a -> sign a = 1%Z.
Proof.
  intro H. unfold sign. apply Qltb_lt in H. now rewrite H.
Qed.

Lemma sign_neg (a : Q) : a < 0 -> sign a = (-1)%Z.
Proof.
  intro H. unfold sign.
  destruct (Qltb 0 a) eqn:E.
  - reflect_Q. lra.
  - apply Qltb_lt in H. now rewrite H.
Qed.

Lemma sign_zero (a : Q) : a == 0 -> sign a = 0%Z.
Proof.
  intro H. unfold sign.
  destruct (Qltb 0 a) eqn:E1; [reflect_Q; lra|].
  destruct (Qltb a 0) eqn:E2; [reflect_Q; lra|reflexivity].
Qed.

(** The three cases of a sign, as one case analysis. *)
Lemma sign_cases (a : Q) :
  (0 < a /\ sign a = 1%Z) \/ (a < 0 /\ sign a = (-1)%Z) \/
  (a == 0 /\ sign a = 0%Z).
Proof.
  destruct (Q_dec a 0) as [[Hlt | Hgt] | Heq].
  - right; left. split; [assumption | now apply sign_neg].
  - left. split; [assumption | now apply sign_pos].
  - right; right. split; [assumption | now apply sign_zero].
Qed.

Lemma sign_morph (a b : Q) : a == b -> sign a = sign b.
Proof.
  intro H.
  destruct (sign_cases a) as [[Ha ->] | [[Ha ->] | [Ha ->]]]; symmetry.
  - apply sign_pos. lra.
  - apply sign_neg. lra.
  - apply sign_zero. lra.
Qed.

Lemma sign_opp (a : Q) : sign (- a) = (- sign a)%Z.
Proof.
  destruct (sign_cases a) as [[Ha ->] | [[Ha ->] | [Ha ->]]].
  - apply sign_neg. lra.
  - apply sign_pos. lra.
  - apply sign_zero. lra.
Qed.

Lemma sign_eq_0 (a : Q) : sign a = 0%Z <-> a == 0.
Proof.
  split; [|apply sign_zero].
  destruct (sign_cases a) as [[Ha ->] | [[Ha ->] | [Ha ->]]];
    intro H; try discriminate; assumption.
Qed.

(** ** C6: the turn predicate is antisymmetric *)


(** ** C8: segment intersection is symmetric *)

(** C8.  For all line segments u and v, [u.intersects(v)] holds exactly when
    [v.intersects(u)] holds, and [u.properly_intersects(v)] holds exactly
    when [v.properly_intersects(u)] holds. *)
Theorem intersects_symmetric (u v : LineSegment.t) :
  (LineSegment.intersects u v = true <->
   LineSegment.intersects v u = true) /\
  (LineSegment.properly_intersects u v = true <->
   LineSegment.properly_intersects v u = true).
Proof.
  assert (Hi : LineSegment.intersects u v = LineSegment.intersects v u).
  { unfold LineSegment.intersects. apply andb_comm. }
  assert (Hp : LineSegment.properly_intersects u v =
               LineSegment.properly_intersects v u).
  { unfold LineSegment.properly_intersects. cbv zeta.
    repeat rewrite <- andb_assoc.
    set (x1 := negb (_ =? _)%Z). set (x2 := negb (_ =? _)%Z).
    set (x3 := negb (_ =? _)%Z). set (x4 := negb (_ =? _)%Z).
    set (x5 := negb (_ =? _)%Z). set (x6 := negb (_ =? _)%Z).
    destruct x1, x2, x3, x4, x5, x6; reflexivity. }
  rewrite Hi, Hp. split; reflexivity.
Qed.

(** ** C5: parallel segments *)

Lemma intersection_parallel (u v : LineSegment.t) (return_point : bool) :
  Spec.direction_cross u v == 0 ->
  LineSegment._intersection u v return_point = PyBool false.
Proof.
  intro H. unfold LineSegment._intersection. cbv zeta.
  match goal with
  | |- (if Qeq_bool ?d 0 then _ else _) = _ =>
      assert (Hd : Qeq_bool d 0 = true)
  end.
  { reflect_Q. unfold Spec.direction_cross in H.
    match goal with |- ?d == 0 => setoid_replace d with
      (- ((Point.x (LineSegment.b u) - Point.x (LineSegment.a u)) *
          (Point.y (LineSegment.b v) - Point.y (LineSegment.a v)) -
          (Point.y (LineSegment.b u) - Point.y (LineSegment.a u)) *
          (Point.x (LineSegment.b v) - Point.x (LineSegment.a v)))) by ring
    end.
    rewrite H. reflexivity. }
  now rewrite Hd.
Qed.

(** C5.  What the code does for two segments with parallel direction
    vectors (cross product (b - a) x (d - c) zero, collinear overlapping
    segments included): [LineSegment.intersection] returns the boolean
    [False].  It reports no point, as the claim says, but the value is not
    the [None] that the claim names and that the method returns for
    segments that are not parallel and do not meet. *)
Theorem intersection_of_parallel_segments (u v : LineSegment.t) :
  Spec.direction_cross u v == 0 ->
  LineSegment.intersection u v = PyBool false /\
  LineSegment.intersection u v <> PyNone /\
  (forall p, LineSegment.intersection u v <> PyPoint p).
Proof.
  intro H. unfold LineSegment.intersection.
  rewrite (intersection_parallel u v true H).
  repeat split; intros; discriminate.
Qed.

(** The failing input of C5: two collinear segments on the x-axis that
    share the stretch from 1 to 2. *)
Lemma intersection_of_parallel_segments_witness :
  let u := LineSegment.mk (Point 0 0) (Point 2 0) in
  let v := LineSegment.mk (Point 1 0) (Point 3 0) in
  Spec.direction_cross u v == 0 /\
  LineSegment.intersection u v = PyBool false /\
  LineSegment.intersection u v <> PyNone /\
  (forall p, LineSegment.intersection u v <> PyPoint p).
Proof.
  intros u v. split.
  - reflexivity.
  - apply (intersection_of_parallel_segments u v). reflexivity.
Defined.

(** For comparison, the sibling path: two segments that are not parallel and
    do not meet give [None]. *)
Lemma intersection_of_disjoint_segments :
  LineSegment.intersection (LineSegment.mk (Point 0 0) (Point 1 0))
                           (LineSegment.mk (Point 3 1) (Point 3 2)) = PyNone.
Proof. reflexivity. Qed.

(** ** C10: degenerate lines *)

Lemma point_eq_epsilon (a b : point) :
  Point.__eq__ a b = true <-> Spec.epsilon_equal a b.
Proof.
  unfold Point.__eq__, Spec.epsilon_equal.
  rewrite !andb_true_iff, !Qle_bool_iff. tauto.
Qed.

Lemma opt_Z_eqb_eq (i j : option Z) : opt_Z_eqb i j = true <-> i = j.
Proof.
  destruct i as [i|], j as [j|]; simpl; try (split; congruence).
  rewrite Z.eqb_eq. split; congruence.
Qed.

(** C10 as the code has it.  [Line(a, b)] raises the degenerated-case error
    exactly when [a == b], and returns the line otherwise.  For two plain
    points [a == b] is epsilon-equality of both coordinates, so there are
    distinct plain points for which the construction fails.  For two polygon
    points with an index, [a == b] asks for equal indices as well:
    epsilon-equal coordinates alone do not make the construction fail. *)
Theorem line_init_degenerated :
  (forall a b, Line.__init__ a b = Raise DegeneratedCaseException <->
               py_eq a b = true) /\
  (forall a b, py_eq a b = false -> Line.__init__ a b = Ok (Line.mk a b)) /\
  (forall ax ay bx by_,
     py_eq (Point ax ay) (Point bx by_) = true <->
     Spec.epsilon_equal (Point ax ay) (Point bx by_)) /\
  (exists a b,
     ~ (Point.x a == Point.x b /\ Point.y a == Point.y b) /\
     Line.__init__ a b = Raise DegeneratedCaseException) /\
  (forall ax ay i bx by_ j,
     py_eq (PolygonPoint ax ay i) (PolygonPoint bx by_ j) = true <->
     Spec.epsilon_equal (PolygonPoint ax ay i) (PolygonPoint bx by_ j) /\
     i = j).
Proof.
  split; [|split; [|split; [|split]]].
  - intros a b. unfold Line.__init__.
    destruct (py_eq a b); split; intro H; congruence.
  - intros a b. unfold Line.__init__. now intros ->.
  - intros. simpl. apply point_eq_epsilon.
  - exists (Point 0 0), (Point (1 # 2000000) 0). split.
    + simpl. intros [H _]. revert H. unfold Qeq. simpl. discriminate.
    + reflexivity.
  - intros. unfold py_eq, PolygonPoint__eq__. simpl.
    rewrite andb_true_iff, point_eq_epsilon, opt_Z_eqb_eq. tauto.
Qed.

(** Where C10 as stated fails: two polygon vertices with the same
    coordinates and different indices are epsilon-equal, and the line through
    them is constructed. *)
Lemma line_init_degenerated_counterexample :
  let a := PolygonPoint 0 0 (Some 0%Z) in
  let b := PolygonPoint 0 0 (Some 1%Z) in
  Spec.epsilon_equal a b /\
  Line.__init__ a b = Ok (Line.mk a b) /\
  Line.__init__ a b <> Raise DegeneratedCaseException.
Proof.
  intros a b. split; [|split].
  - apply point_eq_epsilon. reflexivity.
  - reflexivity.
  - discriminate.
Qed.

(** ** C7: a bounded funnel is not concave *)

(** C7.  For all points with Turn(cusp, first, second) = CW_TURN, the
    construction of a bounded funnel raises
    [BoundedFunnelMustNotBeConcaveException]; no bounded funnel is
    returned. *)
Theorem bounded_funnel_not_concave
  (cusp first second boundary_a boundary_b : point) :
  Point.turn cusp first second = Point.CW_TURN ->
  BoundedFunnel.__init__ cusp first second boundary_a boundary_b =
    Raise BoundedFunnelMustNotBeConcaveException /\
  (forall f, BoundedFunnel.__init__ cusp first second boundary_a boundary_b
             <> Ok f).
Proof.
  intro H. unfold BoundedFunnel.__init__. simpl. rewrite H.
  split; [reflexivity | intros f Hf; discriminate].
Qed.

Lemma bounded_funnel_not_concave_witness :
  Point.turn (Point 0 0) (Point 0 1) (Point 1 0) = Point.CW_TURN /\
  BoundedFunnel.__init__ (Point 0 0) (Point 0 1) (Point 1 0)
                         (Point 2 2) (Point (-2) 2) =
    Raise BoundedFunnelMustNotBeConcaveException.
Proof.
  split.
  - reflexivity.
  - apply (bounded_funnel_not_concave (Point 0 0) (Point 0 1) (Point 1 0)
             (Point 2 2) (Point (-2) 2)). reflexivity.
Defined.

(** ** C9: the cached type and rays of a funnel *)

Lemma funnel_consistent_init (cusp first second : point) :
  Spec.funnel_consistent (Funnel.__init__ cusp first second).
Proof.
  unfold Spec.funnel_consistent, Funnel.__init__. simpl.
  repeat split; intros r H; discriminate.
Qed.

Lemma funnel_consistent_step (f : Funnel.t) (o : Funnel.op) :
  Spec.funnel_consistent f -> Spec.funnel_consistent (Funnel.step f o).
Proof.
  intros Hf. pose proof Hf as (Ht & H1 & H2).
  destruct o as [v | v | v | | ]; simpl.
  - (* cusp.setter: both caches are emptied *)
    split; [reflexivity | split; intros r H; discriminate].
  - (* first.setter: the first cache is emptied, the second one kept *)
    split; [reflexivity | split; [intros r H; discriminate | exact H2]].
  - split; [reflexivity | split; [exact H1 | intros r H; discriminate]].
  - unfold Funnel.first_ray.
    destruct (Funnel._first_ray f) as [r0|] eqn:E; simpl.
    + exact Hf.
    + split; [exact Ht | split; [|exact H2]].
      intros r H. now inversion H.
  - unfold Funnel.second_ray.
    destruct (Funnel._second_ray f) as [r0|] eqn:E; simpl.
    + exact Hf.
    + split; [exact Ht | split; [exact H1|]].
      intros r H. now inversion H.
Qed.

Lemma funnel_consistent_run (ops : list Funnel.op) (f : Funnel.t) :
  Spec.funnel_consistent f -> Spec.funnel_consistent (Funnel.run f ops).
Proof.
  revert f. induction ops as [|o ops IH]; intros f Hf; simpl.
  - exact Hf.
  - apply IH. now apply funnel_consistent_step.
Qed.

Lemma funnel_consistent_rays (f : Funnel.t) :
  Spec.funnel_consistent f ->
  fst (Funnel.first_ray f) = Ray.mk (Funnel.cusp f) (Funnel.first f) /\
  fst (Funnel.second_ray f) = Ray.mk (Funnel.cusp f) (Funnel.second f).
Proof.
  intros (_ & H1 & H2). unfold Funnel.first_ray, Funnel.second_ray. split.
  - destruct (Funnel._first_ray f) as [r|]; simpl; [now apply H1 | reflexivity].
  - destruct (Funnel._second_ray f) as [r|]; simpl; [now apply H2 | reflexivity].
Qed.

(** C9.  After the construction of a funnel and after any sequence of
    assignments to its cusp, first or second point (and of reads of the two
    ray properties, which fill the caches), the stored classification is
    Turn(cusp, first, second) for the current points -- convex for a
    counter-clockwise turn, concave for a clockwise one, degenerate for
    collinear points -- and the properties [first_ray] and [second_ray] are
    Ray(cusp, first) and Ray(cusp, second) for the current points. *)
Theorem funnel_cache_consistent (cusp first second : point)
  (ops : list Funnel.op) :
  let f := Funnel.run (Funnel.__init__ cusp first second) ops in
  let turn := Point.turn (Funnel.cusp f) (Funnel.first f) (Funnel.second f) in
  Funnel._type f = turn /\
  (Funnel._type f = Funnel._CONVEX <-> turn = Point.CCW_TURN) /\
  (Funnel._type f = Funnel._CONCAVE <-> turn = Point.CW_TURN) /\
  (Funnel._type f = Funnel._NEITHER <-> turn = Point.NO_TURN) /\
  fst (Funnel.first_ray f) = Ray.mk (Funnel.cusp f) (Funnel.first f) /\
  fst (Funnel.second_ray f) = Ray.mk (Funnel.cusp f) (Funnel.second f).
Proof.
  intros f turn.
  assert (Hf : Spec.funnel_consistent f).
  { apply funnel_consistent_run, funnel_consistent_init. }
  assert (Ht : Funnel._type f = turn) by apply Hf.
  destruct (funnel_consistent_rays f Hf) as [H1 H2].
  rewrite Ht.
  split; [reflexivity|].
  split; [reflexivity|].
  split; [reflexivity|].
  split; [reflexivity|].
  split; assumption.
Qed.

(** The same for the setters that [BoundedFunnel] overrides: they run the
    inherited setter, so the funnel inside stays consistent. *)
Lemma bounded_funnel_setters_consistent (b : BoundedFunnel.t) (v : point) :
  Spec.funnel_consistent (BoundedFunnel.funnel b) ->
  Spec.funnel_consistent (BoundedFunnel.funnel (BoundedFunnel.set_first b v)) /\
  Spec.funnel_consistent (BoundedFunnel.funnel (BoundedFunnel.set_second b v)) /\
  Spec.funnel_consistent (BoundedFunnel.funnel (BoundedFunnel.set_cusp b v)).
Proof.
  intro H. simpl. split; [|split].
  - exact (funnel_consistent_step _ (Funnel.SetFirst v) H).
  - exact (funnel_consistent_step _ (Funnel.SetSecond v) H).
  - exact (funnel_consistent_step _ (Funnel.SetCusp v) H).
Qed.

(** ** C4: the circle through three points *)












(** ** C3: the trivial cases of the engines *)

Lemma scenario_polygons :
  Polygon.__init__ Scenario.triangle = Ok Scenario.triangle_polygon /\
  Polygon.__init__ Scenario.spikes = Ok Scenario.spikes_polygon /\
  Polygon.__init__ Scenario.notch = Ok Scenario.notch_polygon.
Proof. repeat split. Qed.

(** The three polygons are simple and counter-clockwise, and no two
    vertices of the C-shaped one share an x-coordinate. *)
Lemma scenario_polygons_well_formed :
  (Shape.simple Scenario.triangle_polygon = true /\
   Shape.counter_clockwise Scenario.triangle_polygon = true) /\
  (Shape.simple Scenario.spikes_polygon = true /\
   Shape.counter_clockwise Scenario.spikes_polygon = true) /\
  (Shape.simple Scenario.notch_polygon = true /\
   Shape.counter_clockwise Scenario.notch_polygon = true /\
   Shape.distinct_x (Polygon.points Scenario.notch_polygon) = true).
Proof. repeat split; vm_compute; reflexivity. Qed.

Lemma trapezoid_entry_same_point walk polygon (s t : point) :
  py_eq s t = true -> trapezoid_entry walk polygon s t = emits [s].
Proof.
  intro H. unfold trapezoid_entry. now rewrite H.
Qed.

Lemma trapezoid_entry_same_cell walk polygon (s t s' t' : point)
  (T1 T2 : Trapezoid.t) :
  py_eq s t = false ->
  Scenario.locate_in_trapezoid polygon s = Ok (s', Some T1) ->
  Scenario.locate_in_trapezoid polygon t = Ok (t', Some T2) ->
  Trapezoid.__eq__ T1 T2 = true ->
  trapezoid_entry walk polygon s t = emits [s; t].
Proof.
  intros Hne Hs Ht Heq. unfold trapezoid_entry. rewrite Hne.
  unfold Scenario.locate_in_trapezoid in Hs, Ht.
  destruct (Polygon.trapezoid polygon s) as [s_trapezoid | e | ];
    simpl in Hs; try discriminate.
  destruct (Polygon.trapezoid polygon t) as [t_trapezoid | e | ];
    simpl in Ht; try discriminate.
  simpl. rewrite Hs. simpl. rewrite Ht. simpl. now rewrite Heq.
Qed.

(** C3.  For every polygon and all points s, t.  If [s == t], every engine
    emits the single point s and ends.  If [s != t] and both points are
    located in the same cell -- the same triangle for DT-SP (walk of the
    Delaunay triangles) and LP-SP (search in the given triangulation), the
    same trapezoid for TR-SP and MS-SP (after the shift off a vertical
    trapezoid side) -- the engine emits s, then t, and ends.  For plain
    points [s == t] says that both coordinates agree within epsilon. *)
Theorem trivial_cases (fuel : nat) dt_walk lp_walk tr_walk ms_walk
  (polygon : Polygon.t) (triangulated : TriangulatedPolygon.t)
  (s t : point) :
  (py_eq s t = true ->
   delaunay.shortest_path fuel dt_walk polygon s t = emits [s] /\
   lee_preparata.shortest_path lp_walk triangulated s t = emits [s] /\
   trapezoid.shortest_path tr_walk polygon s t = emits [s] /\
   makestep.shortest_path ms_walk polygon s t = emits [s]) /\
  (py_eq s t = false ->
   (forall T1 T2,
      Polygon.locate_point_in_triangle fuel polygon s = Ok (Some T1) ->
      Polygon.locate_point_in_triangle fuel polygon t = Ok (Some T2) ->
      DelaunayTriangle.__eq__ T1 T2 = true ->
      delaunay.shortest_path fuel dt_walk polygon s t = emits [s; t]) /\
   (forall T1 T2,
      TriangulatedPolygon.locate_point_in_triangle triangulated s = Ok T1 ->
      TriangulatedPolygon.locate_point_in_triangle triangulated t = Ok T2 ->
      DelaunayTriangle.__eq__ T1 T2 = true ->
      lee_preparata.shortest_path lp_walk triangulated s t = emits [s; t]) /\
   (forall s' t' T1 T2,
      Scenario.locate_in_trapezoid polygon s = Ok (s', Some T1) ->
      Scenario.locate_in_trapezoid polygon t = Ok (t', Some T2) ->
      Trapezoid.__eq__ T1 T2 = true ->
      trapezoid.shortest_path tr_walk polygon s t = emits [s; t] /\
      makestep.shortest_path ms_walk polygon s t = emits [s; t])) /\
  (forall sx sy tx ty,
     s = Point sx sy -> t = Point tx ty ->
     (py_eq s t = true <-> Spec.epsilon_equal s t)).
Proof.
  split; [|split].
  - intro H.
    unfold delaunay.shortest_path, lee_preparata.shortest_path,
      trapezoid.shortest_path, makestep.shortest_path.
    rewrite H, !trapezoid_entry_same_point by exact H. repeat split.
  - intro H. split; [|split].
    + intros T1 T2 Hs Ht Heq. unfold delaunay.shortest_path.
      now rewrite H, Hs, Ht, Heq.
    + intros T1 T2 Hs Ht Heq. unfold lee_preparata.shortest_path.
      now rewrite H, Hs, Ht, Heq.
    + intros s' t' T1 T2 Hs Ht Heq.
      unfold trapezoid.shortest_path, makestep.shortest_path.
      split; apply (trapezoid_entry_same_cell _ _ _ _ s' t' T1 T2);
        assumption.
  - intros sx sy tx ty -> ->. simpl. apply point_eq_epsilon.
Qed.

(** The scenarios S1 and S5: in the triangle (0,0), (10,0), (0,10) the query
    from (1,1) to (1,1) gives [(1,1)] and the query from (1,1) to (2,3)
    gives [(1,1), (2,3)], for the four engines. *)
Lemma trivial_cases_witness :
  let P := Scenario.triangle_polygon in
  let TP := Scenario.triangle_triangulated in
  let s := Point 1 1 in
  let t := Point 2 3 in
  (delaunay.shortest_path 8 Scenario.no_triangle_walk P s s = emits [s] /\
   lee_preparata.shortest_path Scenario.no_triangulated_walk TP s s
     = emits [s] /\
   trapezoid.shortest_path Scenario.no_trapezoid_walk P s s = emits [s] /\
   makestep.shortest_path Scenario.no_trapezoid_walk P s s = emits [s]) /\
  delaunay.shortest_path 8 Scenario.no_triangle_walk P s t = emits [s; t] /\
  lee_preparata.shortest_path Scenario.no_triangulated_walk TP s t
    = emits [s; t] /\
  trapezoid.shortest_path Scenario.no_trapezoid_walk P s t = emits [s; t] /\
  makestep.shortest_path Scenario.no_trapezoid_walk P s t = emits [s; t].
Proof.
  intros P TP s t.
  pose proof (trivial_cases 8 Scenario.no_triangle_walk
                Scenario.no_triangulated_walk Scenario.no_trapezoid_walk
                Scenario.no_trapezoid_walk P TP s s) as [Hsame _].
  pose proof (trivial_cases 8 Scenario.no_triangle_walk
                Scenario.no_triangulated_walk Scenario.no_trapezoid_walk
                Scenario.no_trapezoid_walk P TP s t) as [_ [Hcell _]].
  split; [apply Hsame; reflexivity|].
  destruct (Hcell eq_refl) as (Hdt & Hlp & Htr).
  split; [|split].
  - eapply Hdt; vm_compute; reflexivity.
  - eapply Hlp; vm_compute; reflexivity.
  - eapply Htr; vm_compute; reflexivity.
Defined.

(** ** The scan for the edges above and below a point *)

Lemma py_min_le (a b : Q) : py_min a b <= a /\ py_min a b <= b.
Proof.
  unfold py_min. destruct (Qltb b a) eqn:E; reflect_Q; lra.
Qed.

Lemma py_max_ge (a b : Q) : a <= py_max a b /\ b <= py_max a b.
Proof.
  unfold py_max. destruct (Qltb a b) eqn:E; reflect_Q; lra.
Qed.












(** Case analysis on a scrutinee of the goal that is not itself a case
    analysis. *)
Ltac break_match :=
  match goal with
  | |- context [match ?x with _ => _ end] =>
      lazymatch x with
      | context [match _ with _ => _ end] => fail
      | _ => destruct x eqn:?
      end
  end.













(** ** Points beside the polygon *)








(** ** C2: what [trapezoid] returns and raises *)




(** A vertical edge over [p.x]: the point (0,5) lies on the vertical edge of
    the triangle, between the vertices (0,0) and (0,10); the scan asks for
    the height of that edge over x = 0 and [Line.y_value] raises
    [ValueError]. *)
Lemma trapezoid_on_vertical_edge :
  Spec.no_vertical_edge_over Scenario.triangle_polygon (Point 0 5) = false /\
  Polygon.trapezoid Scenario.triangle_polygon (Point 0 5) = Raise ValueError.
Proof. split; vm_compute; reflexivity. Qed.

(** The other half of C2 on an input that the scan handles wrongly: the
    point (5,5) lies in the opening of the C-shaped polygon, outside the
    polygon, with the lower arm below it and the upper arm above it.  The
    scan resets the bottom edge at the top side of the lower arm without
    recording its distance, takes the bottom side of the arm afterwards, and
    [trapezoid] returns a trapezoid. *)
Lemma trapezoid_of_point_in_opening :
  Polygon.__init__ Scenario.notch = Ok Scenario.notch_polygon /\
  Spec.outside_closure Scenario.notch_polygon (Point 5 5) = true /\
  Polygon.trapezoid Scenario.notch_polygon (Point 5 5) =
    Ok (Some (Trapezoid.mk 1 9 (131 # 12) (123 # 12) 0 (-1) 4 6
                           None (Some 6%Z) None (Some 7%Z))).
Proof.
  split; [reflexivity|]. split; vm_compute; reflexivity.
Qed.

(** ** C1: query points outside the polygon *)





(** Scenario S6 with the other engines: the trapezoid engines read an
    attribute of the [None] that [trapezoid] returned and end with
    [AttributeError]; the search in the triangulation raises [ValueError].
    None of them emits a point. *)
Lemma outside_points_other_engines :
  let P := Scenario.triangle_polygon in
  let s := Point (-1) (-1) in
  let t := Point 1 1 in
  Spec.outside_closure P s = true /\
  Spec.outside_closure P t = false /\
  trapezoid.shortest_path Scenario.no_trapezoid_walk P s t
    = raises AttributeError /\
  makestep.shortest_path Scenario.no_trapezoid_walk P s t
    = raises AttributeError /\
  lee_preparata.shortest_path Scenario.no_triangulated_walk
    Scenario.triangle_triangulated s t = raises ValueError.
Proof.
  intros P s t. repeat split; vm_compute; reflexivity.
Qed.


(** ** Orientation tests and intersection parameters *)



Lemma sign_range (a : Q) : sign a = 1%Z \/ sign a = (-1)%Z \/ sign a = 0%Z.
Proof.
  destruct (sign_cases a) as [[_ H] | [[_ H] | [_ H]]]; auto.
Qed.


Lemma sign_eq_m1 (a : Q) : sign a = (-1)%Z <-> a < 0.
Proof.
  split; [|apply sign_neg].
  destruct (sign_cases a) as [[Ha ->] | [[Ha ->] | [Ha ->]]];
    intro H; try discriminate; assumption.
Qed.

(** A quotient lies in [0, 1] exactly when the numerator lies between 0 and
    the denominator. *)
Lemma quotient_in_unit (n d : Q) :
  ~ d == 0 ->
  (0 <= n / d /\ n / d <= 1 <->
   (0 < d /\ 0 <= n /\ n <= d) \/ (d < 0 /\ d <= n /\ n <= 0)).
Proof.
  intro Hd.
  assert (Hq : (n / d) * d == n) by (field; exact Hd).
  set (q := n / d) in *.
  destruct (Q_dec d 0) as [[Hneg | Hpos] | Hz]; [| |contradiction].
  - split.
    + intros [H0 H1]. right. split; [assumption|]. split; nra.
    + intros [[H _] | [_ [H1 H2]]]; [lra|]. split; nra.
  - split.
    + intros [H0 H1]. left. split; [assumption|]. split; nra.
    + intros [[_ [H1 H2]] | [H _]]; [|lra]. split; nra.
Qed.

Lemma quotient_nonneg (n d : Q) :
  ~ d == 0 ->
  (0 <= n / d <-> (0 < d /\ 0 <= n) \/ (d < 0 /\ n <= 0)).
Proof.
  intro Hd.
  assert (Hq : (n / d) * d == n) by (field; exact Hd).
  set (q := n / d) in *.
  destruct (Q_dec d 0) as [[Hneg | Hpos] | Hz]; [| |contradiction].
  - split.
    + intros H0. right. split; [assumption|]. nra.
    + intros [[H _] | [_ H1]]; [lra|]. nra.
  - split.
    + intros H0. left. split; [assumption|]. nra.
    + intros [[_ H1] | [H _]]; [|lra]. nra.
Qed.

Lemma quotient_strictly_in_unit (n d : Q) :
  ~ d == 0 ->
  (0 < n / d /\ n / d < 1 <->
   (0 < d /\ 0 < n /\ n < d) \/ (d < 0 /\ d < n /\ n < 0)).
Proof.
  intro Hd.
  assert (Hq : (n / d) * d == n) by (field; exact Hd).
  set (q := n / d) in *.
  destruct (Q_dec d 0) as [[Hneg | Hpos] | Hz]; [| |contradiction].
  - split.
    + intros [H0 H1]. right. split; [assumption|]. split; nra.
    + intros [[H _] | [_ [H1 H2]]]; [lra|]. split; nra.
  - split.
    + intros [H0 H1]. left. split; [assumption|]. split; nra.
    + intros [[_ [H1 H2]] | [H _]]; [|lra]. split; nra.
Qed.

(** Two points lie on different sides of a line, or one of them on it,
    exactly when the signs of [n] and [n - d] differ. *)
Lemma signs_differ (n d : Q) :
  sign n <> sign (n - d) <->
  (0 < d /\ 0 <= n /\ n <= d) \/ (d < 0 /\ d <= n /\ n <= 0).
Proof.
  destruct (sign_cases n) as [[Hn ->] | [[Hn ->] | [Hn ->]]];
    destruct (sign_cases (n - d)) as [[Hm ->] | [[Hm ->] | [Hm ->]]];
    split; intro H; try (exfalso; apply H; reflexivity);
    try (intro; discriminate); try lra;
    try (destruct H as [H | H]; lra).
Qed.

(** The four turns of an intersection test, as signs of the numerators and
    of the determinant. *)
Lemma turns_as_signs (a b c d : point) :
  let D := Param.det a b c d in
  let Ns := (Point.x c - Point.x a) * (Point.y c - Point.y d) -
            (Point.y c - Point.y a) * (Point.x c - Point.x d) in
  let Nt := (Point.x b - Point.x a) * (Point.y c - Point.y a) -
            (Point.y b - Point.y a) * (Point.x c - Point.x a) in
  Point.turn a b c = sign Nt /\
  Point.turn a b d = sign (Nt - D) /\
  Point.turn c d a = (- sign Ns)%Z /\
  Point.turn c d b = (- sign (Ns - D))%Z.
Proof.
  intros D Ns Nt. unfold Point.turn, D, Ns, Nt, Param.det.
  repeat split; rewrite <- ?sign_opp; apply sign_morph; ring.
Qed.

Lemma neg_eqb_true (x y : Z) : negb (x =? y)%Z = true <-> x <> y.
Proof.
  rewrite negb_true_iff. apply Z.eqb_neq.
Qed.

Lemma opp_differ (x y : Z) : (- x)%Z <> (- y)%Z <-> x <> y.
Proof. lia. Qed.

Lemma segment_intersects_param (a b c d : point) :
  LineSegment.intersects (LineSegment.mk a b) (LineSegment.mk c d) = true <->
  Param.within_both a b c d.
Proof.
  unfold LineSegment.intersects, Param.within_both, Param.s, Param.t. simpl.
  destruct (turns_as_signs a b c d) as (T1 & T2 & T3 & T4).
  rewrite T1, T2, T3, T4. clear T1 T2 T3 T4.
  rewrite andb_true_iff, !neg_eqb_true, opp_differ, !signs_differ.
  set (D := Param.det a b c d).
  destruct (Qeq_dec D 0) as [Hz | Hnz].
  - split; [intros [H _]; lra | intros [H _]; contradiction].
  - rewrite <- !(quotient_in_unit _ D Hnz). tauto.
Qed.


Lemma segment_properly_intersects_param (a b c d : point) :
  LineSegment.properly_intersects (LineSegment.mk a b) (LineSegment.mk c d)
    = true <->
  Param.properly_within_both a b c d.
Proof.
  unfold LineSegment.properly_intersects, Param.properly_within_both,
    Param.s, Param.t, Point.NO_TURN. simpl.
  destruct (turns_as_signs a b c d) as (T1 & T2 & T3 & T4).
  rewrite T1, T2, T3, T4. clear T1 T2 T3 T4.
  set (D := Param.det a b c d).
  set (Ns := (Point.x c - Point.x a) * (Point.y c - Point.y d) -
             (Point.y c - Point.y a) * (Point.x c - Point.x d)).
  set (Nt := (Point.x b - Point.x a) * (Point.y c - Point.y a) -
             (Point.y b - Point.y a) * (Point.x c - Point.x a)).
  rewrite !andb_true_iff, !neg_eqb_true, opp_differ.
  assert (Hopp : forall z : Z, (- z)%Z <> 0%Z <-> z <> 0%Z) by (intro; lia).
  rewrite !Hopp, !sign_eq_0, !signs_differ.
  destruct (Qeq_dec D 0) as [Hz | Hnz].
  - split; [intros [[[[[H _] _] _] _] _]; lra | intros [H _]; contradiction].
  - rewrite !(quotient_strictly_in_unit _ D Hnz).
    split.
    + intros [[[[[H1 H2] H3] H4] H5] H6].
      split; [exact Hnz|]. split; lra.
    + intros (_ & H1 & H2).
      repeat split; try lra.
Qed.

(** The turn of the check point of [Ray.intersects] is the sign of the
    determinant. *)
Lemma check_point_turn (a b c d : point) :
  Point.turn c d (Point.__add__ d (Point.__sub__ b a)) =
  sign (Param.det a b c d).
Proof.
  unfold Point.turn, Param.det. simpl. apply sign_morph. ring.
Qed.

(** The decision of [Ray.intersects] on the signs, for lines that are not
    parallel. *)
Lemma ray_decision (Nt Ns D : Q) :
  ~ D == 0 ->
  ((if (sign Nt =? sign (Nt - D))%Z && negb (sign Nt =? 0)%Z then false
    else if negb (- sign Ns =? - sign (Ns - D))%Z then true
    else negb (sign D =? - sign Ns)%Z) = true <->
   ((0 < D /\ 0 <= Ns) \/ (D < 0 /\ Ns <= 0)) /\
   ((0 < D /\ 0 <= Nt /\ Nt <= D) \/ (D < 0 /\ D <= Nt /\ Nt <= 0))).
Proof.
  intro HD.
  destruct (sign_cases Nt) as [[H1 ->] | [[H1 ->] | [H1 ->]]];
  destruct (sign_cases (Nt - D)) as [[H2 ->] | [[H2 ->] | [H2 ->]]];
  destruct (sign_cases Ns) as [[H3 ->] | [[H3 ->] | [H3 ->]]];
  destruct (sign_cases (Ns - D)) as [[H4 ->] | [[H4 ->] | [H4 ->]]];
  destruct (sign_cases D) as [[H5 ->] | [[H5 ->] | [H5 ->]]];
  try contradiction; try (exfalso; lra);
  cbn; split; intro H; try reflexivity; try discriminate; try lra.
Qed.

(** Parallel lines: a ray through two different points meets no segment. *)
Lemma ray_parallel (a b c d : point) :
  ~ Spec.same_place a b ->
  Param.det a b c d == 0 ->
  Ray.intersects (Ray.mk a b) (LineSegment.mk c d) = false.
Proof.
  intros Hab HD. unfold Ray.intersects. cbn [Ray.a Ray.b LineSegment.a LineSegment.b].
  rewrite check_point_turn.
  destruct (turns_as_signs a b c d) as (T1 & T2 & T3 & T4).
  rewrite T1, T2, T3, T4. clear T1 T2 T3 T4.
  set (Ns := (Point.x c - Point.x a) * (Point.y c - Point.y d) -
             (Point.y c - Point.y a) * (Point.x c - Point.x d)).
  set (Nt := (Point.x b - Point.x a) * (Point.y c - Point.y a) -
             (Point.y b - Point.y a) * (Point.x c - Point.x a)).
  rewrite (sign_morph (Nt - Param.det a b c d) Nt) by (rewrite HD; ring).
  rewrite (sign_morph (Ns - Param.det a b c d) Ns) by (rewrite HD; ring).
  rewrite (sign_zero _ HD).
  rewrite !Z.eqb_refl. cbn [negb andb].
  unfold Point.NO_TURN.
  destruct (sign Nt =? 0)%Z eqn:E; [|reflexivity].
  cbn [negb].
  apply Z.eqb_eq in E. apply sign_eq_0 in E.
  assert (HNs : Ns == 0).
  { unfold Spec.same_place in Hab. unfold Param.det in HD.
    unfold Nt in E. unfold Ns.
    destruct (Qeq_dec (Point.x b - Point.x a) 0) as [Hx | Hx].
    - destruct (Qeq_dec (Point.y b - Point.y a) 0) as [Hy | Hy].
      + exfalso. apply Hab. split; lra.
      + apply (Qmult_integral_l (Point.y b - Point.y a)); [exact Hy|].
        transitivity
          ((Point.y c - Point.y d) *
           ((Point.y b - Point.y a) * (Point.x c - Point.x a) -
            (Point.x b - Point.x a) * (Point.y c - Point.y a)) +
           (Point.y c - Point.y a) *
           ((Point.x b - Point.x a) * (Point.y c - Point.y d) -
            (Point.y b - Point.y a) * (Point.x c - Point.x d)));
          [ring|].
        rewrite HD. setoid_replace
          ((Point.y b - Point.y a) * (Point.x c - Point.x a) -
            (Point.x b - Point.x a) * (Point.y c - Point.y a))
          with 0 by lra. ring.
    - apply (Qmult_integral_l (Point.x b - Point.x a)); [exact Hx|].
      transitivity
          ((Point.x c - Point.x d) *
           ((Point.y b - Point.y a) * (Point.x c - Point.x a) -
            (Point.x b - Point.x a) * (Point.y c - Point.y a)) +
           (Point.x c - Point.x a) *
           ((Point.x b - Point.x a) * (Point.y c - Point.y d) -
            (Point.y b - Point.y a) * (Point.x c - Point.x d)));
          [ring|].
        rewrite HD. setoid_replace
          ((Point.y b - Point.y a) * (Point.x c - Point.x a) -
            (Point.x b - Point.x a) * (Point.y c - Point.y a))
          with 0 by lra. ring. }
  rewrite (sign_zero _ HNs). reflexivity.
Qed.

Lemma ray_intersects_param (a b c d : point) :
  ~ Spec.same_place a b ->
  (Ray.intersects (Ray.mk a b) (LineSegment.mk c d) = true <->
   Param.on_ray a b c d).
Proof.
  intro Hab.
  destruct (Qeq_dec (Param.det a b c d) 0) as [Hz | Hnz].
  - rewrite (ray_parallel a b c d Hab Hz). unfold Param.on_ray.
    split; [discriminate | intros [H _]; contradiction].
  - unfold Ray.intersects, Param.on_ray, Param.s, Param.t, Point.NO_TURN.
    cbn [Ray.a Ray.b LineSegment.a LineSegment.b].
    rewrite check_point_turn.
    destruct (turns_as_signs a b c d) as (T1 & T2 & T3 & T4).
    rewrite T1, T2, T3, T4. clear T1 T2 T3 T4.
    rewrite (ray_decision _ _ _ Hnz).
    rewrite (quotient_nonneg _ _ Hnz), (quotient_in_unit _ _ Hnz).
    tauto.
Qed.

Lemma same_place_parallel (a b c d : point) :
  Spec.same_place a b -> Param.det a b c d == 0.
Proof.
  intros [Hx Hy]. unfold Param.det. rewrite Hx, Hy. ring.
Qed.

Lemma ray_properly_intersects_param (a b c d : point) :
  ~ Spec.same_place a b ->
  (Ray.properly_intersects (Ray.mk a b) (LineSegment.mk c d) = true <->
   Param.properly_on_ray a b c d).
Proof.
  intro Hab. unfold Ray.properly_intersects.
  cbn [Ray.a Ray.b LineSegment.a LineSegment.b].
  pose proof (ray_intersects_param a b c d Hab) as Hray.
  destruct (turns_as_signs a b c d) as (T1 & T2 & _ & _).
  rewrite T1, T2. clear T1 T2.
  unfold Param.on_ray in Hray. unfold Param.properly_on_ray, Point.NO_TURN.
  unfold Param.t in *.
  set (D := Param.det a b c d) in *.
  set (Nt := (Point.x b - Point.x a) * (Point.y c - Point.y a) -
             (Point.y b - Point.y a) * (Point.x c - Point.x a)) in *.
  destruct (Qeq_dec D 0) as [Hz | Hnz].
  - split.
    + intro H. destruct (_ || _); [discriminate|].
      apply Hray in H. destruct H as [H _]. contradiction.
    + intros [H _]. contradiction.
  - assert (Hq : (Nt / D) * D == Nt) by (field; exact Hnz).
    destruct ((sign Nt =? 0)%Z || (sign (Nt - D) =? 0)%Z) eqn:E.
    + split; [discriminate|]. intros (_ & _ & H0 & H1). exfalso.
      apply orb_true_iff in E. destruct E as [E | E];
        apply Z.eqb_eq in E; apply sign_eq_0 in E; nra.
    + apply orb_false_iff in E. destruct E as [E1 E2].
      apply Z.eqb_neq in E1, E2. rewrite sign_eq_0 in E1, E2.
      rewrite Hray. split.
      * intros (_ & Hs & H0 & H1). split; [exact Hnz|]. split; [exact Hs|].
        split.
        -- destruct (Qlt_le_dec 0 (Nt / D)) as [|Hle]; [assumption|].
           exfalso. apply E1. nra.
        -- destruct (Qlt_le_dec (Nt / D) 1) as [|Hle]; [assumption|].
           exfalso. apply E2. nra.
      * intros (_ & Hs & H0 & H1). split; [exact Hnz|]. split; [exact Hs|].
        split; lra.
Qed.

(** A ray whose two points coincide. *)
Lemma degenerate_ray (a b c d : point) :
  Spec.same_place a b ->
  Ray.intersects (Ray.mk a b) (LineSegment.mk c d) =
  negb (Point.turn c d a =? Point.NO_TURN)%Z.
Proof.
  intros Hab. pose proof (same_place_parallel a b c d Hab) as HD.
  destruct Hab as [Hx Hy].
  unfold Ray.intersects. cbn [Ray.a Ray.b LineSegment.a LineSegment.b].
  rewrite check_point_turn, (sign_zero _ HD).
  assert (Hc : Point.turn a b c = 0%Z).
  { unfold Point.turn. apply sign_zero. rewrite Hx, Hy. ring. }
  assert (Hd : Point.turn a b d = 0%Z).
  { unfold Point.turn. apply sign_zero. rewrite Hx, Hy. ring. }
  assert (Hb : Point.turn c d b = Point.turn c d a).
  { unfold Point.turn. apply sign_morph. rewrite Hx, Hy. ring. }
  rewrite Hc, Hd, Hb, !Z.eqb_refl. unfold Point.NO_TURN. cbn [andb negb].
  destruct (Point.turn c d a); reflexivity.
Qed.

Lemma within_both_on_ray (a b c d : point) :
  Param.within_both a b c d -> Param.on_ray a b c d.
Proof.
  unfold Param.within_both, Param.on_ray. tauto.
Qed.

Lemma not_parallel_not_same_place (a b c d : point) :
  ~ Param.det a b c d == 0 -> ~ Spec.same_place a b.
Proof.
  intros H Hab. apply H. now apply same_place_parallel.
Qed.


(** ** Segments: the turn tests and the parameters agree *)







(** ** Rays *)



(** X5.  A ray whose two points have the same coordinates is reported to
    intersect every segment whose line does not pass through that point,
    wherever the segment lies, and no segment on a line through it; it
    properly intersects no segment. *)
Theorem degenerate_ray_intersects (a b c d : point) :
  Spec.same_place a b ->
  Ray.intersects (Ray.mk a b) (LineSegment.mk c d) =
    negb (Point.turn c d a =? Point.NO_TURN)%Z /\
  Ray.properly_intersects (Ray.mk a b) (LineSegment.mk c d) = false.
Proof.
  intro Hab. split; [now apply degenerate_ray|].
  unfold Ray.properly_intersects. cbn [Ray.a Ray.b LineSegment.a].
  assert (Hc : Point.turn a b c = 0%Z).
  { destruct Hab as [Hx Hy]. unfold Point.turn. apply sign_zero.
    rewrite Hx, Hy. ring. }
  rewrite Hc. reflexivity.
Qed.

Lemma degenerate_ray_intersects_witness :
  Spec.same_place (Point 0 0) (Point 0 0) /\
  Ray.intersects (Ray.mk (Point 0 0) (Point 0 0))
    (LineSegment.mk (Point 5 (-1)) (Point 5 1)) =
    negb (Point.turn (Point 5 (-1)) (Point 5 1) (Point 0 0)
          =? Point.NO_TURN)%Z /\
  Ray.properly_intersects (Ray.mk (Point 0 0) (Point 0 0))
    (LineSegment.mk (Point 5 (-1)) (Point 5 1)) = false.
Proof.
  assert (H : Spec.same_place (Point 0 0) (Point 0 0)).
  { split; reflexivity. }
  split.
  - exact H.
  - exact (degenerate_ray_intersects (Point 0 0) (Point 0 0)
             (Point 5 (-1)) (Point 5 1) H).
Defined.

(** X6.  The ray from [a] through [b] contains the segment (a, b): a
    segment that (properly) intersects the segment (a, b) is (properly)
    intersected by the ray, and every proper intersection with a ray is an
    intersection. *)
Theorem segment_hit_is_ray_hit (a b : point) (v : LineSegment.t) :
  (LineSegment.intersects (LineSegment.mk a b) v = true ->
   Ray.intersects (Ray.mk a b) v = true) /\
  (LineSegment.properly_intersects (LineSegment.mk a b) v = true ->
   Ray.properly_intersects (Ray.mk a b) v = true) /\
  (Ray.properly_intersects (Ray.mk a b) v = true ->
   Ray.intersects (Ray.mk a b) v = true).
Proof.
  destruct v as [c d]. repeat split.
  - intro H. apply segment_intersects_param in H.
    pose proof H as [HD _].
    apply ray_intersects_param.
    + now apply (not_parallel_not_same_place a b c d).
    + now apply within_both_on_ray.
  - intro H. apply segment_properly_intersects_param in H.
    pose proof H as [HD _].
    apply ray_properly_intersects_param.
    + now apply (not_parallel_not_same_place a b c d).
    + unfold Param.properly_within_both in H. unfold Param.properly_on_ray.
      destruct H as (H0 & [H1 H2] & H3). split; [exact H0|].
      split; [lra | exact H3].
  - unfold Ray.properly_intersects. destruct (_ || _); [discriminate|].
    exact (fun H => H).
Qed.

Lemma segment_hit_is_ray_hit_witness :
  LineSegment.intersects (LineSegment.mk (Point 0 0) (Point 4 0))
    (LineSegment.mk (Point 2 (-1)) (Point 2 1)) = true /\
  Ray.intersects (Ray.mk (Point 0 0) (Point 4 0))
    (LineSegment.mk (Point 2 (-1)) (Point 2 1)) = true.
Proof.
  assert (H : LineSegment.intersects (LineSegment.mk (Point 0 0) (Point 4 0))
                (LineSegment.mk (Point 2 (-1)) (Point 2 1)) = true)
    by reflexivity.
  split.
  - exact H.
  - exact (proj1 (segment_hit_is_ray_hit (Point 0 0) (Point 4 0)
                    (LineSegment.mk (Point 2 (-1)) (Point 2 1))) H).
Defined.

Lemma ray_proper_not_degenerate (a b c d : point) :
  Ray.properly_intersects (Ray.mk a b) (LineSegment.mk c d) = true ->
  ~ Spec.same_place a b.
Proof.
  intros H [Hx Hy]. unfold Ray.properly_intersects in H.
  cbn [Ray.a Ray.b LineSegment.a] in H.
  assert (Hc : Point.turn a b c = 0%Z).
  { unfold Point.turn. apply sign_zero. rewrite Hx, Hy. ring. }
  rewrite Hc in H. discriminate.
Qed.

Lemma ray_proper_gives_point (r : Ray.t) (e : LineSegment.t) :
  Ray.properly_intersects r e = true ->
  exists p, Ray.intersection_point r (Ray.Segment e) = Some p.
Proof.
  destruct r as [a b], e as [c d]. intro H.
  pose proof (ray_proper_not_degenerate a b c d H) as Hab.
  apply (ray_properly_intersects_param a b c d Hab) in H.
  destruct H as (HD & Hs & Ht0 & Ht1).
  unfold Ray.intersection_point.
  cbn [Ray.a Ray.b Ray.target_a Ray.target_b Ray.is_segment andb
       LineSegment.a LineSegment.b].
  cbv zeta.
  fold (Param.det a b c d). fold (Param.s a b c d). fold (Param.t a b c d).
  apply Qeq_bool_false_iff in HD. rewrite HD.
  assert (E1 : Qltb (Param.s a b c d) 0 = false) by (reflect_Q; exact Hs).
  assert (E2 : Qltb (Param.t a b c d) 0 = false) by (reflect_Q; lra).
  assert (E3 : Qltb 1 (Param.t a b c d) = false) by (reflect_Q; lra).
  rewrite E1, E2, E3. cbn [orb].
  repeat break_match; eexists; reflexivity.
Qed.






(** ** Points: equality, turns and distances *)

Lemma bool_eq_iff (x y : bool) : (x = true <-> y = true) -> x = y.
Proof.
  destruct x, y; intros [H1 H2]; try reflexivity.
  - symmetry. now apply H1.
  - now apply H2.
Qed.

Lemma point_eq_sym (a b : point) : Point.__eq__ a b = Point.__eq__ b a.
Proof.
  apply bool_eq_iff. rewrite !point_eq_epsilon. unfold Spec.epsilon_equal.
  split; intros [[H1 H2] [H3 H4]]; repeat split; lra.
Qed.

Lemma point_eq_refl (a : point) : Point.__eq__ a a = true.
Proof.
  apply point_eq_epsilon. unfold Spec.epsilon_equal, Point.epsilon.
  repeat split; lra.
Qed.

Lemma opt_Z_eqb_sym (i j : option Z) : opt_Z_eqb i j = opt_Z_eqb j i.
Proof.
  destruct i, j; simpl; try reflexivity. apply Z.eqb_sym.
Qed.

Lemma opt_Z_eqb_refl (i : option Z) : opt_Z_eqb i i = true.
Proof.
  destruct i; simpl; [apply Z.eqb_refl | reflexivity].
Qed.

(** X9.  The equality [==] of points: every point equals itself; two
    points that are equal have both coordinates within epsilon of each
    other; and [a == b] gives the same answer as [b == a] unless one of the
    two is a polygon point and the other an edge point. *)
Theorem point_equality_laws (a b : point) :
  Spec.mixed_classes a b = false ->
  py_eq a a = true /\
  (py_eq a b = true -> Spec.epsilon_equal a b) /\
  py_eq a b = py_eq b a.
Proof.
  intro Hm. split; [|split].
  - destruct a; simpl; unfold PolygonPoint__eq__, EdgePoint__eq__; simpl;
      rewrite ?point_eq_refl, ?opt_Z_eqb_refl; reflexivity.
  - rewrite <- point_eq_epsilon.
    destruct a, b; simpl; unfold PolygonPoint__eq__, EdgePoint__eq__; simpl;
      rewrite ?andb_true_iff; try tauto;
      repeat break_match; try discriminate; try tauto;
      rewrite (point_eq_sym (Point _ _)); tauto.
  - destruct a, b; try discriminate Hm; simpl;
      unfold PolygonPoint__eq__, EdgePoint__eq__; simpl;
      try reflexivity;
      try (match goal with
           | |- context [Point.__eq__ ?p ?q] => rewrite (point_eq_sym p q)
           end);
      try (match goal with
           | |- context [opt_Z_eqb ?i ?j] => rewrite (opt_Z_eqb_sym i j)
           end);
      reflexivity.
Qed.

Lemma point_equality_laws_witness :
  Spec.mixed_classes (PolygonPoint 0 0 (Some 1%Z)) (Point 0 0) = false /\
  py_eq (PolygonPoint 0 0 (Some 1%Z)) (PolygonPoint 0 0 (Some 1%Z)) = true /\
  (py_eq (PolygonPoint 0 0 (Some 1%Z)) (Point 0 0) = true ->
   Spec.epsilon_equal (PolygonPoint 0 0 (Some 1%Z)) (Point 0 0)) /\
  py_eq (PolygonPoint 0 0 (Some 1%Z)) (Point 0 0) =
  py_eq (Point 0 0) (PolygonPoint 0 0 (Some 1%Z)).
Proof.
  assert (H : Spec.mixed_classes (PolygonPoint 0 0 (Some 1%Z)) (Point 0 0)
              = false) by reflexivity.
  split.
  - exact H.
  - exact (point_equality_laws _ _ H).
Defined.





(** ** Lines *)




(** ** Funnels *)

Lemma turn_range (a b c : point) :
  Point.turn a b c = 1%Z \/ Point.turn a b c = (-1)%Z \/
  Point.turn a b c = 0%Z.
Proof.
  unfold Point.turn. apply sign_range.
Qed.

(** X14.  [Funnel.position_of] classifies a point: the answer is [INSIDE]
    exactly when [contains] holds; it is [LEFT_OF] (or [RIGHT_OF]) exactly
    when the funnel is not concave and the point makes a counter-clockwise
    (or clockwise) turn with both rays; and it is always one of [INSIDE],
    [LEFT_OF], [RIGHT_OF], [OPPOSITE].  In particular a concave funnel only
    answers [INSIDE] or [OPPOSITE]. *)
Theorem funnel_position_of (f : Funnel.t) (p : point) :
  (Funnel.position_of f p = Funnel.INSIDE <-> Funnel.contains f p = true) /\
  (Funnel.position_of f p = Funnel.LEFT_OF <->
   Funnel._type f <> Funnel._CONCAVE /\
   Point.turn (Funnel.cusp f) (Funnel._first f) p = Point.CCW_TURN /\
   Point.turn (Funnel.cusp f) (Funnel._second f) p = Point.CCW_TURN) /\
  (Funnel.position_of f p = Funnel.RIGHT_OF <->
   Funnel._type f <> Funnel._CONCAVE /\
   Point.turn (Funnel.cusp f) (Funnel._first f) p = Point.CW_TURN /\
   Point.turn (Funnel.cusp f) (Funnel._second f) p = Point.CW_TURN) /\
  (Funnel.position_of f p = Funnel.INSIDE \/
   Funnel.position_of f p = Funnel.LEFT_OF \/
   Funnel.position_of f p = Funnel.RIGHT_OF \/
   Funnel.position_of f p = Funnel.OPPOSITE).
Proof.
  unfold Funnel.position_of, Funnel.contains, Funnel.INSIDE, Funnel.LEFT_OF,
    Funnel.RIGHT_OF, Funnel.OPPOSITE, Point.CW_TURN, Point.CCW_TURN.
  destruct (Funnel._type f =? Funnel._CONCAVE)%Z eqn:Et.
  - apply Z.eqb_eq in Et.
    destruct (negb _) eqn:E; repeat split; intros; try discriminate;
      try tauto; try (exfalso; tauto); auto.
    all: match goal with H : _ /\ _ |- _ => destruct H as [H _]; tauto end.
  - apply Z.eqb_neq in Et.
    destruct (turn_range (Funnel.cusp f) (Funnel._first f) p)
      as [-> | [-> | ->]];
    destruct (turn_range (Funnel.cusp f) (Funnel._second f) p)
      as [-> | [-> | ->]];
    cbn; repeat split; intros; try discriminate; try tauto; auto;
    repeat match goal with
           | H : _ /\ _ |- _ => destruct H
           end; try discriminate; try contradiction.
Qed.

Lemma ray_properly_weaker (r : Ray.t) (e : LineSegment.t) :
  Ray.properly_intersects r e = true -> Ray.intersects r e = true.
Proof.
  unfold Ray.properly_intersects. destruct (_ || _); [discriminate|].
  exact (fun H => H).
Qed.

Lemma funnel_properly_contains_weaker (f : Funnel.t) (p : point) :
  Funnel.properly_contains f p = true -> Funnel.contains f p = true.
Proof.
  unfold Funnel.properly_contains, Funnel.contains, Point.CW_TURN,
    Point.CCW_TURN.
  destruct (Funnel._type f =? Funnel._CONCAVE)%Z;
    destruct (turn_range (Funnel.cusp f) (Funnel._first f) p)
      as [-> | [-> | ->]];
    destruct (turn_range (Funnel.cusp f) (Funnel._second f) p)
      as [-> | [-> | ->]];
    cbn; intro H; try discriminate; reflexivity.
Qed.

(** X15.  The proper variants of the funnel predicates are the stronger
    ones: a point or segment that is properly contained is contained, a
    segment that properly intersects the funnel intersects it, and a segment
    that properly divides the funnel half-properly divides it, which in
    turn makes it divide the funnel, which makes it intersect the funnel. *)
Theorem funnel_proper_is_stronger (f : Funnel.t) (p : point)
  (e : LineSegment.t) :
  (Funnel.properly_contains f p = true -> Funnel.contains f p = true) /\
  (Funnel.properly_contains_segment f e = true ->
   Funnel.contains_segment f e = true) /\
  (Funnel.properly_intersects f e = true -> Funnel.intersects f e = true) /\
  (Funnel.is_properly_divided_by f e = true ->
   Funnel.is_half_properly_divided_by f e = true) /\
  (Funnel.is_half_properly_divided_by f e = true ->
   Funnel.is_divided_by f e = true) /\
  (Funnel.is_divided_by f e = true -> Funnel.intersects f e = true).
Proof.
  pose proof (ray_properly_weaker (fst (Funnel.first_ray f)) e) as H1.
  pose proof (ray_properly_weaker (fst (Funnel.second_ray f)) e) as H2.
  split; [apply funnel_properly_contains_weaker|].
  unfold Funnel.properly_contains_segment, Funnel.contains_segment,
    Funnel.properly_intersects, Funnel.intersects,
    Funnel.is_properly_divided_by, Funnel.is_half_properly_divided_by,
    Funnel.is_divided_by.
  repeat split.
  - rewrite !andb_true_iff, !negb_true_iff. intros [[[Ha Hb] Hc] Hd].
    apply funnel_properly_contains_weaker in Ha, Hb. rewrite Ha, Hb.
    destruct (Funnel._type f =? Funnel._CONCAVE)%Z; [|reflexivity].
    destruct (Ray.properly_intersects (fst (Funnel.first_ray f)) e);
      [|reflexivity].
    rewrite H1 in Hc by reflexivity. discriminate.
  - rewrite !orb_true_iff. intros [H | H]; [left; auto | right; auto].
  - rewrite orb_true_iff, !andb_true_iff. intros [Ha Hb]. left. auto.
  - rewrite orb_true_iff, !andb_true_iff. intros [[Ha Hb] | [Ha Hb]]; auto.
  - rewrite orb_true_iff, !andb_true_iff. intros [Ha Hb]. left. auto.
Qed.

Lemma funnel_proper_is_stronger_witness :
  Funnel.is_properly_divided_by
    (Funnel.__init__ (Point 0 0) (Point 1 (-1)) (Point 1 1))
    (LineSegment.mk (Point 2 (-5)) (Point 2 5)) = true /\
  Funnel.is_divided_by
    (Funnel.__init__ (Point 0 0) (Point 1 (-1)) (Point 1 1))
    (LineSegment.mk (Point 2 (-5)) (Point 2 5)) = true.
Proof.
  assert (H : Funnel.is_properly_divided_by
                (Funnel.__init__ (Point 0 0) (Point 1 (-1)) (Point 1 1))
                (LineSegment.mk (Point 2 (-5)) (Point 2 5)) = true)
    by reflexivity.
  split; [exact H|].
  destruct (funnel_proper_is_stronger
              (Funnel.__init__ (Point 0 0) (Point 1 (-1)) (Point 1 1))
              (Point 0 0) (LineSegment.mk (Point 2 (-5)) (Point 2 5)))
    as (_ & _ & _ & H1 & H2 & _).
  exact (H2 (H1 H)).
Defined.

(** X16.  For a bounded funnel as its constructor returns it:
    [position_of] answers [INSIDE] exactly when [contains] holds and
    [BEHIND] exactly when the point is in the unbounded funnel but on the
    clockwise side of the boundary; a properly contained point is
    contained; and a segment that properly intersects the bounded funnel
    intersects it. *)
Theorem bounded_funnel_position_of
  (cusp first second boundary_a boundary_b : point) (bf : BoundedFunnel.t)
  (p : point) (e : LineSegment.t) :
  BoundedFunnel.__init__ cusp first second boundary_a boundary_b = Ok bf ->
  (BoundedFunnel.position_of bf p = Funnel.INSIDE <->
   BoundedFunnel.contains bf p = true) /\
  (BoundedFunnel.position_of bf p = BoundedFunnel.BEHIND <->
   Funnel.contains (BoundedFunnel.funnel bf) p = true /\
   Point.turn boundary_a boundary_b p = Point.CW_TURN) /\
  (BoundedFunnel.properly_contains bf p = true ->
   BoundedFunnel.contains bf p = true) /\
  (BoundedFunnel.properly_intersects bf e = true ->
   BoundedFunnel.intersects bf e = true).
Proof.
  unfold BoundedFunnel.__init__.
  destruct (Funnel._type (Funnel.__init__ cusp first second)
            =? Funnel._CONCAVE)%Z eqn:Et; [discriminate|].
  destruct (Line.__init__ boundary_a boundary_b) as [line | |];
    [|discriminate|discriminate].
  cbn [bind].
  destruct (Point.turn boundary_a boundary_b cusp =? Point.CW_TURN)%Z;
    [discriminate|].
  intro H. inversion H; subst bf; clear H.
  assert (Hpc : forall q,
             BoundedFunnel.properly_contains
               (BoundedFunnel.mk (Funnel.__init__ cusp first second)
                  boundary_a boundary_b line None None) q = true ->
             BoundedFunnel.contains
               (BoundedFunnel.mk (Funnel.__init__ cusp first second)
                  boundary_a boundary_b line None None) q = true).
  { intro q. unfold BoundedFunnel.properly_contains, BoundedFunnel.contains.
    cbn [BoundedFunnel.funnel BoundedFunnel.boundary_a
         BoundedFunnel.boundary_b].
    rewrite !andb_true_iff. intros [Ha Hb].
    apply funnel_properly_contains_weaker in Ha. split; [exact Ha|].
    apply Z.eqb_eq in Hb. rewrite Hb. reflexivity. }
  split; [|split; [|split]].
  - unfold BoundedFunnel.position_of, BoundedFunnel.contains, Funnel.contains.
    cbn [BoundedFunnel.funnel BoundedFunnel.boundary_a
         BoundedFunnel.boundary_b].
    rewrite Et.
    unfold Funnel.INSIDE, BoundedFunnel.BEHIND, Funnel.OPPOSITE,
      Point.CW_TURN, Point.CCW_TURN.
    destruct (turn_range
                (Funnel.cusp (Funnel.__init__ cusp first second))
                (Funnel._first (Funnel.__init__ cusp first second)) p)
      as [-> | [-> | ->]];
    destruct (turn_range
                (Funnel.cusp (Funnel.__init__ cusp first second))
                (Funnel._second (Funnel.__init__ cusp first second)) p)
      as [-> | [-> | ->]];
    destruct (turn_range boundary_a boundary_b p) as [-> | [-> | ->]];
    cbn; split; intro; try discriminate; reflexivity.
  - unfold BoundedFunnel.position_of, Funnel.contains.
    cbn [BoundedFunnel.funnel BoundedFunnel.boundary_a
         BoundedFunnel.boundary_b].
    rewrite Et.
    unfold Funnel.INSIDE, BoundedFunnel.BEHIND, Funnel.OPPOSITE,
      Point.CW_TURN, Point.CCW_TURN.
    destruct (turn_range
                (Funnel.cusp (Funnel.__init__ cusp first second))
                (Funnel._first (Funnel.__init__ cusp first second)) p)
      as [-> | [-> | ->]];
    destruct (turn_range
                (Funnel.cusp (Funnel.__init__ cusp first second))
                (Funnel._second (Funnel.__init__ cusp first second)) p)
      as [-> | [-> | ->]];
    destruct (turn_range boundary_a boundary_b p) as [-> | [-> | ->]];
    cbn; split; intro H; try discriminate; try tauto;
    try (destruct H; discriminate).
  - apply Hpc.
  - unfold BoundedFunnel.properly_intersects, BoundedFunnel.intersects.
    rewrite !orb_true_iff, !andb_true_iff.
    intros [[Ha Hb] | [Ha Hb]]; [left | right];
      (split; [now apply Hpc | exact Hb]).
Qed.

Lemma bounded_funnel_position_of_witness :
  exists bf,
    BoundedFunnel.__init__ (Point 0 0) (Point 1 0) (Point 0 1)
                           (Point 3 0) (Point 0 3) = Ok bf /\
    (BoundedFunnel.position_of bf (Point 1 1) = Funnel.INSIDE <->
     BoundedFunnel.contains bf (Point 1 1) = true).
Proof.
  eexists. split.
  - reflexivity.
  - exact (proj1 (bounded_funnel_position_of
                    (Point 0 0) (Point 1 0) (Point 0 1)
                    (Point 3 0) (Point 0 3) _ (Point 1 1)
                    (LineSegment.mk (Point 0 0) (Point 1 1)) eq_refl)).
Defined.

(** ** Trapezoids *)

Lemma corner_one_of (use_near : bool) (near_ix : option Z) (near_edge : Z)
  (far_ix : option Z) (far_edge : Z) :
  let c := Trapezoid.corner use_near near_ix near_edge far_ix far_edge in
  (fst c = None <-> snd c <> None) /\
  (fst c = if use_near then near_ix else far_ix) /\
  (snd c = None \/ snd c = Some (if use_near then near_edge else far_edge)).
Proof.
  unfold Trapezoid.corner.
  destruct use_near; [destruct near_ix | destruct far_ix]; cbn;
    repeat split; intros; try discriminate; try congruence; auto.
Qed.

(** X17.  [Trapezoid.intersection] returns [None] exactly when neither
    [self.x_right == trapezoid.x_left] nor [self.x_left == trapezoid.x_right].
    Otherwise it returns a vertical edge of two intersection points on the
    common side, from the lower of the two tops down to the higher of the
    two bottoms; each of its two ends carries either the index of a
    polygon vertex or the index of the polygon edge it lies on, never both
    and never neither. *)
Theorem trapezoid_intersection_shape (self trapezoid : Trapezoid.t) :
  (Trapezoid.intersection self trapezoid = None <->
   ~ Trapezoid.x_right self == Trapezoid.x_left trapezoid /\
   ~ Trapezoid.x_left self == Trapezoid.x_right trapezoid) /\
  (forall e, Trapezoid.intersection self trapezoid = Some e ->
     let first := LineSegment.a e in
     let second := LineSegment.b e in
     is_intersection_point first = true /\
     is_intersection_point second = true /\
     Point.x first == Point.x second /\
     (Point.x first == Trapezoid.x_right self /\
      Point.x first == Trapezoid.x_left trapezoid /\
      Point.y first <= Trapezoid.y_right1 self /\
      Point.y first <= Trapezoid.y_left1 trapezoid /\
      Trapezoid.y_right2 self <= Point.y second /\
      Trapezoid.y_left2 trapezoid <= Point.y second
      \/
      Point.x first == Trapezoid.x_left self /\
      Point.x first == Trapezoid.x_right trapezoid /\
      Point.y first <= Trapezoid.y_left1 self /\
      Point.y first <= Trapezoid.y_right1 trapezoid /\
      Trapezoid.y_left2 self <= Point.y second /\
      Trapezoid.y_right2 trapezoid <= Point.y second) /\
     (Point.index first = None <-> IntersectionPoint_edge first <> None) /\
     (Point.index second = None <-> IntersectionPoint_edge second <> None)).
Proof.
  unfold Trapezoid.intersection. split.
  - destruct (Qeq_bool (Trapezoid.x_right self) (Trapezoid.x_left trapezoid))
      eqn:E1.
    + repeat break_match. reflect_Q.
      split; [discriminate | intros [H _]; contradiction].
    + destruct (Qeq_bool (Trapezoid.x_left self)
                  (Trapezoid.x_right trapezoid)) eqn:E2.
      * repeat break_match. reflect_Q.
        split; [discriminate | intros [_ H]; contradiction].
      * reflect_Q. tauto.
  - intros e.
    destruct (Qeq_bool (Trapezoid.x_right self) (Trapezoid.x_left trapezoid))
      eqn:E1.
    + match goal with
      | |- context [Trapezoid.corner ?u ?n ?ne ?f ?fe] =>
          pose proof (corner_one_of u n ne f fe) as (C1 & _);
          destruct (Trapezoid.corner u n ne f fe) as [first_index first_edge]
      end.
      match goal with
      | |- context [Trapezoid.corner ?u ?n ?ne ?f ?fe] =>
          pose proof (corner_one_of u n ne f fe) as (C2 & _);
          destruct (Trapezoid.corner u n ne f fe)
            as [second_index second_edge]
      end.
      intro H. inversion H; subst e; clear H.
      cbn [LineSegment.a LineSegment.b Point.x Point.y Point.index
           IntersectionPoint_edge is_intersection_point fst snd] in *.
      reflect_Q.
      pose proof (py_min_le (Trapezoid.y_right1 self)
                    (Trapezoid.y_left1 trapezoid)) as [M1 M2].
      pose proof (py_max_ge (Trapezoid.y_right2 self)
                    (Trapezoid.y_left2 trapezoid)) as [M3 M4].
      repeat split; try reflexivity; try tauto.
      left. repeat split; try reflexivity; assumption.
    + destruct (Qeq_bool (Trapezoid.x_left self)
                  (Trapezoid.x_right trapezoid)) eqn:E2; [|discriminate].
      match goal with
      | |- context [Trapezoid.corner ?u ?n ?ne ?f ?fe] =>
          pose proof (corner_one_of u n ne f fe) as (C1 & _);
          destruct (Trapezoid.corner u n ne f fe) as [first_index first_edge]
      end.
      match goal with
      | |- context [Trapezoid.corner ?u ?n ?ne ?f ?fe] =>
          pose proof (corner_one_of u n ne f fe) as (C2 & _);
          destruct (Trapezoid.corner u n ne f fe)
            as [second_index second_edge]
      end.
      intro H. inversion H; subst e; clear H.
      cbn [LineSegment.a LineSegment.b Point.x Point.y Point.index
           IntersectionPoint_edge is_intersection_point fst snd] in *.
      reflect_Q.
      pose proof (py_min_le (Trapezoid.y_left1 self)
                    (Trapezoid.y_right1 trapezoid)) as [M1 M2].
      pose proof (py_max_ge (Trapezoid.y_left2 self)
                    (Trapezoid.y_right2 trapezoid)) as [M3 M4].
      repeat split; try reflexivity; try tauto.
      right. repeat split; try reflexivity; assumption.
Qed.


(** ** Triangles *)








(** ** Polygons: construction and indices *)

Lemma length_enumerate_from {A : Type} (l : list A) (k : Z) :
  length (enumerate_from k l) = length l.
Proof.
  revert k. induction l as [|x l IH]; intro k; simpl; [reflexivity|].
  now rewrite IH.
Qed.

Lemma nth_error_enumerate_from {A : Type} (l : list A) (k : Z) (n : nat) :
  nth_error (enumerate_from k l) n =
  option_map (fun x => ((k + Z.of_nat n)%Z, x)) (nth_error l n).
Proof.
  revert k n. induction l as [|x l IH]; intros k n.
  - destruct n; reflexivity.
  - destruct n as [|n].
    + simpl. now rewrite Z.add_0_r.
    + cbn [enumerate_from nth_error]. rewrite IH.
      destruct (nth_error l n); simpl; [|reflexivity].
      do 2 f_equal. lia.
Qed.

(** The polygon that the constructor returns, vertex by vertex. *)
Lemma polygon_init_point (pts : list point) (polygon : Polygon.t) (i : Z) :
  Polygon.__init__ pts = Ok polygon ->
  Polygon.len polygon = Z.of_nat (length pts) /\
  (3 <= Polygon.len polygon)%Z /\
  exists q,
    nth_error pts (Z.to_nat (i mod Polygon.len polygon)) = Some q /\
    Polygon.point polygon i =
      PolygonPoint (Point.x q) (Point.y q) (Some (i mod Polygon.len polygon)%Z).
Proof.
  unfold Polygon.__init__.
  destruct (Z.of_nat (length pts) <? 3)%Z eqn:E; [discriminate|].
  apply Z.ltb_ge in E.
  intro H. inversion H; subst polygon; clear H.
  cbn [Polygon.len Polygon.points].
  rewrite length_map. unfold enumerate. rewrite length_enumerate_from.
  split; [reflexivity|]. split; [exact E|].
  unfold Polygon.point, Polygon.item. cbn [Polygon.len Polygon.points].
  set (n := Z.of_nat (length pts)) in *.
  pose proof (Z.mod_pos_bound i n ltac:(lia)) as Hb.
  set (k := Z.to_nat (i mod n)).
  assert (Hk : (k < length pts)%nat) by (unfold k, n in *; lia).
  destruct (nth_error pts k) as [q|] eqn:Hq;
    [|apply nth_error_None in Hq; lia].
  exists q. split; [reflexivity|].
  apply nth_error_nth.
  rewrite nth_error_map, nth_error_enumerate_from, Hq. cbn.
  do 3 f_equal. unfold k. lia.
Qed.

(** X20.  [Polygon(points)] raises the too-few-points error exactly for
    fewer than three points.  Otherwise the polygon has as many vertices
    as points were given, and [point(i)], for every integer [i], is a
    polygon point carrying the index [i mod len] and the coordinates of
    the given point at that position: indices wrap around in both
    directions. *)
Theorem polygon_init_round_trip (pts : list point) :
  (Polygon.__init__ pts = Raise TooFewPointsException <->
   (length pts < 3)%nat) /\
  (forall polygon i,
     Polygon.__init__ pts = Ok polygon ->
     Polygon.len polygon = Z.of_nat (length pts) /\
     Polygon.point polygon (i + Polygon.len polygon) =
       Polygon.point polygon i /\
     exists q,
       nth_error pts (Z.to_nat (i mod Z.of_nat (length pts))) = Some q /\
       Polygon.point polygon i =
         PolygonPoint (Point.x q) (Point.y q)
                      (Some (i mod Z.of_nat (length pts))%Z)).
Proof.
  split.
  - unfold Polygon.__init__.
    destruct (Z.of_nat (length pts) <? 3)%Z eqn:E.
    + apply Z.ltb_lt in E. split; [lia | reflexivity].
    + apply Z.ltb_ge in E. split; [discriminate | lia].
  - intros polygon i H.
    destruct (polygon_init_point pts polygon i H) as (Hlen & H3 & q & Hq & Hp).
    split; [exact Hlen|]. split.
    + unfold Polygon.point. f_equal.
      rewrite <- (Z.mul_1_l (Polygon.len polygon)) at 1.
      apply Z.mod_add. lia.
    + exists q. rewrite <- Hlen. split; assumption.
Qed.

Lemma polygon_init_round_trip_witness :
  Polygon.__init__ Scenario.triangle = Ok Scenario.triangle_polygon /\
  Polygon.len Scenario.triangle_polygon =
    Z.of_nat (length Scenario.triangle) /\
  Polygon.point Scenario.triangle_polygon
    (-1 + Polygon.len Scenario.triangle_polygon) =
    Polygon.point Scenario.triangle_polygon (-1) /\
  exists q,
    nth_error Scenario.triangle
      (Z.to_nat ((-1) mod Z.of_nat (length Scenario.triangle))) = Some q /\
    Polygon.point Scenario.triangle_polygon (-1) =
      PolygonPoint (Point.x q) (Point.y q)
        (Some ((-1) mod Z.of_nat (length Scenario.triangle))%Z).
Proof.
  assert (H : Polygon.__init__ Scenario.triangle =
              Ok Scenario.triangle_polygon) by reflexivity.
  split; [exact H|].
  exact (proj2 (polygon_init_round_trip Scenario.triangle)
           Scenario.triangle_polygon (-1)%Z H).
Defined.

(** X21.  In a polygon made by the constructor, [next] and [prev] are
    inverse to each other on the indices, and [succ] and [pred] are
    inverse to each other on the vertices: the successor of every vertex
    exists and its predecessor is the vertex, and the other way round. *)
Theorem polygon_succ_pred_round_trip (pts : list point)
  (polygon : Polygon.t) (i : Z) :
  Polygon.__init__ pts = Ok polygon ->
  Polygon.prev polygon (Polygon.next polygon i) = (i mod Polygon.len polygon)%Z
  /\
  Polygon.next polygon (Polygon.prev polygon i) = (i mod Polygon.len polygon)%Z
  /\
  (exists s, Polygon.succ polygon (Polygon.point polygon i) = Ok s /\
             Polygon.pred polygon s = Ok (Polygon.point polygon i)) /\
  (exists q, Polygon.pred polygon (Polygon.point polygon i) = Ok q /\
             Polygon.succ polygon q = Ok (Polygon.point polygon i)).
Proof.
  intro H.
  destruct (polygon_init_point pts polygon i H) as (Hlen & H3 & q & Hq & Hp).
  set (n := Polygon.len polygon) in *.
  assert (Hn : (0 < n)%Z) by lia.
  assert (Hpoint : forall j, Polygon.point polygon (j mod n) =
                             Polygon.point polygon j).
  { intro j. unfold Polygon.point. fold n. now rewrite Z.mod_mod by lia. }
  assert (Hs : forall j, Polygon.succ polygon (Polygon.point polygon j) =
                         Ok (Polygon.point polygon (j + 1))).
  { intro j.
    destruct (polygon_init_point pts polygon j H) as (_ & _ & r & _ & Hr).
    rewrite Hr. unfold Polygon.succ. cbn [Point.index]. fold n.
    f_equal. rewrite <- (Hpoint (j mod n + 1)%Z), <- (Hpoint (j + 1)%Z).
    f_equal. now rewrite Z.add_mod_idemp_l by lia. }
  assert (Hpr : forall j, Polygon.pred polygon (Polygon.point polygon j) =
                          Ok (Polygon.point polygon (j - 1))).
  { intro j.
    destruct (polygon_init_point pts polygon j H) as (_ & _ & r & _ & Hr).
    rewrite Hr. unfold Polygon.pred. cbn [Point.index is_edge_point]. fold n.
    f_equal. rewrite <- (Hpoint (j mod n - 1)%Z), <- (Hpoint (j - 1)%Z).
    f_equal. now rewrite Zminus_mod_idemp_l. }
  unfold Polygon.prev, Polygon.next. fold n.
  split; [|split; [|split]].
  - rewrite Zminus_mod_idemp_l. f_equal. lia.
  - rewrite Z.add_mod_idemp_l by lia. f_equal. lia.
  - eexists. split; [apply Hs|]. rewrite Hpr. do 2 f_equal. lia.
  - eexists. split; [apply Hpr|]. rewrite Hs. do 2 f_equal. lia.
Qed.

Lemma polygon_succ_pred_round_trip_witness :
  Polygon.__init__ Scenario.triangle = Ok Scenario.triangle_polygon /\
  exists s,
    Polygon.succ Scenario.triangle_polygon
      (Polygon.point Scenario.triangle_polygon 2) = Ok s /\
    Polygon.pred Scenario.triangle_polygon s =
      Ok (Polygon.point Scenario.triangle_polygon 2).
Proof.
  assert (H : Polygon.__init__ Scenario.triangle =
              Ok Scenario.triangle_polygon) by reflexivity.
  split; [exact H|].
  destruct (polygon_succ_pred_round_trip Scenario.triangle
              Scenario.triangle_polygon 2%Z H) as (_ & _ & Hs & _).
  exact Hs.
Defined.


Lemma mod_zero_small (x n : Z) :
  (0 < n)%Z -> (- n < x < n)%Z -> (x mod n = 0)%Z -> x = 0%Z.
Proof.
  intros Hn Hx Hm.
  destruct (Z_lt_le_dec x 0) as [Hneg | Hpos].
  - assert (H : ((x + 1 * n) mod n = x + n)%Z)
      by (rewrite Z.mul_1_l; apply Z.mod_small; lia).
    rewrite Z.mod_add in H by lia. lia.
  - rewrite Z.mod_small in Hm by lia. exact Hm.
Qed.

(** The loop of [indices] with a step of 1 or -1: it ends after as many
    steps as [stop] is ahead of [start] in the direction of the step. *)
Lemma indices_loop_steps (len step stop : Z) :
  (0 < len)%Z -> step = 1%Z \/ step = (-1)%Z -> (0 <= stop < len)%Z ->
  forall (k fuel : nat) (start : Z),
    (0 <= start < len)%Z ->
    ((step * (stop - start)) mod len)%Z = Z.of_nat k ->
    (k <= fuel)%nat ->
    Polygon.indices_loop fuel len start stop step =
    Ok (map (fun j => ((start + step * Z.of_nat j) mod len)%Z) (seq 0 (S k))).
Proof.
  intros Hlen Hstep Hstop.
  induction k as [|k IH]; intros fuel start Hstart Hk Hfuel.
  - assert (Heq : start = stop).
    { assert (H0 : (step * (stop - start))%Z = 0%Z).
      { apply (mod_zero_small _ len Hlen); [|exact Hk].
        destruct Hstep; subst step; lia. }
      destruct Hstep; subst step; lia. }
    subst stop. destruct fuel; cbn [Polygon.indices_loop];
      rewrite Z.eqb_refl; cbn [seq map];
      rewrite Z.mul_0_r, Z.add_0_r, Z.mod_small by lia; reflexivity.
  - destruct fuel as [|fuel]; [lia|].
    cbn [Polygon.indices_loop].
    assert (Hne : (start =? stop)%Z = false).
    { apply Z.eqb_neq. intro E. subst stop.
      rewrite Z.sub_diag, Z.mul_0_r, Z.mod_0_l in Hk by lia. lia. }
    rewrite Hne.
    pose proof (Z.mod_pos_bound (start + step) len Hlen) as Hb.
    pose proof (Z.mod_pos_bound (step * (stop - start)) len Hlen) as Hb'.
    rewrite (IH fuel ((start + step) mod len)%Z Hb); [| |lia].
    + cbn [bind]. f_equal.
      change (seq 0 (S (S k))) with (0%nat :: seq 1 (S k)).
      cbn [map]. f_equal.
      * rewrite Z.mul_0_r, Z.add_0_r, Z.mod_small by lia. reflexivity.
      * rewrite <- seq_shift, map_map. apply map_ext. intro j.
        rewrite Z.add_mod_idemp_l by lia. f_equal. lia.
    + assert (Hsq : (step * step = 1)%Z) by (destruct Hstep; subst; lia).
      assert (Hcong :
        ((step * (stop - (start + step) mod len)) mod len =
         (step * (stop - start) - 1) mod len)%Z).
      { rewrite (Z.mod_eq (start + step) len) by lia.
        replace (step * (stop - (start + step - len * ((start + step) / len))))%Z
          with (step * (stop - start) - 1 +
                (step * ((start + step) / len)) * len)%Z by nia.
        apply Z.mod_add. lia. }
      rewrite Hcong.
      assert (Hkb : (Z.of_nat (S k) < len)%Z) by (rewrite <- Hk; lia).
      rewrite (Z.mod_eq (step * (stop - start)) len) in Hk by lia.
      replace (step * (stop - start) - 1)%Z
        with (Z.of_nat k + (step * (stop - start) / len) * len)%Z by lia.
      rewrite Z.mod_add by lia. apply Z.mod_small. lia.
Qed.

Lemma rev_countdown (n : nat) :
  map (fun j => (Z.of_nat n - 1 - Z.of_nat j)%Z) (seq 0 n) =
  rev (map Z.of_nat (seq 0 n)).
Proof.
  induction n as [|n IH]; [reflexivity|].
  rewrite seq_S at 2. rewrite map_app, rev_app_distr. cbn [map rev app plus].
  change (seq 0 (S n)) with (0%nat :: seq 1 n). cbn [map].
  f_equal; [lia|].
  rewrite <- IH, <- seq_shift, map_map. apply map_ext. intro j. lia.
Qed.

(** X22.  The generator [indices(start, stop, step)] of a polygon with at
    least one vertex ends for a step of 1 or -1 within [len] steps: it
    yields at most [len] indices, the first is [start mod len] and the last
    is [stop mod len].  With its default arguments it yields
    0, 1, ..., len - 1, and [clockwise_indices] with its default arguments
    yields the same indices in reverse.  With a step of 0 and
    [start mod len != stop mod len] it never ends. *)
Theorem polygon_indices_terminate (polygon : Polygon.t) (fuel : nat) :
  (0 < Polygon.len polygon)%Z ->
  (Z.to_nat (Polygon.len polygon) <= fuel)%nat ->
  Polygon.indices_from fuel polygon 0 (Polygon.len polygon - 1) 1 =
    Ok (Polygon.indices polygon) /\
  Polygon.clockwise_indices fuel polygon (Polygon.len polygon - 1) 0 =
    Ok (rev (Polygon.indices polygon)) /\
  (forall start stop step,
     step = 1%Z \/ step = (-1)%Z ->
     exists l,
       Polygon.indices_from fuel polygon start stop step = Ok l /\
       hd_error l = Some (start mod Polygon.len polygon)%Z /\
       last l 0%Z = (stop mod Polygon.len polygon)%Z /\
       (length l <= Z.to_nat (Polygon.len polygon))%nat) /\
  (forall start stop any_fuel,
     (start mod Polygon.len polygon)%Z <> (stop mod Polygon.len polygon)%Z ->
     Polygon.indices_from any_fuel polygon start stop 0 = OutOfFuel).
Proof.
  intros Hlen Hfuel.
  set (n := Polygon.len polygon) in *.
  assert (Hgen : forall start stop step,
     step = 1%Z \/ step = (-1)%Z ->
     Polygon.indices_from fuel polygon start stop step =
     Ok (map (fun j => ((start mod n + step * Z.of_nat j) mod n)%Z)
           (seq 0 (S (Z.to_nat
                        ((step * (stop mod n - start mod n)) mod n)))))).
  { intros start stop step Hstep. unfold Polygon.indices_from. fold n.
    pose proof (Z.mod_pos_bound start n Hlen).
    pose proof (Z.mod_pos_bound stop n Hlen).
    pose proof (Z.mod_pos_bound (step * (stop mod n - start mod n)) n Hlen).
    apply indices_loop_steps; try assumption; lia. }
  split; [|split; [|split]].
  - rewrite Hgen by (now left).
    rewrite Z.mod_0_l by lia. rewrite (Z.mod_small (n - 1) n) by lia.
    rewrite Z.mul_1_l, Z.sub_0_r, (Z.mod_small (n - 1) n) by lia.
    unfold Polygon.indices. fold n.
    replace (S (Z.to_nat (n - 1))) with (Z.to_nat n) by lia.
    f_equal. apply map_ext_in. intros j Hj. apply in_seq in Hj.
    rewrite Z.mod_small; lia.
  - unfold Polygon.clockwise_indices. rewrite Hgen by (now right).
    rewrite Z.mod_0_l by lia. rewrite (Z.mod_small (n - 1) n) by lia.
    replace (-1 * (0 - (n - 1)))%Z with (n - 1)%Z by lia.
    rewrite (Z.mod_small (n - 1) n) by lia.
    unfold Polygon.indices. fold n.
    replace (S (Z.to_nat (n - 1))) with (Z.to_nat n) by lia.
    f_equal. rewrite <- rev_countdown. apply map_ext_in. intros j Hj.
    apply in_seq in Hj. rewrite Z.mod_small; lia.
  - intros start stop step Hstep. eexists. split; [apply Hgen; exact Hstep|].
    pose proof (Z.mod_pos_bound start n Hlen) as Hs.
    pose proof (Z.mod_pos_bound stop n Hlen) as Ht.
    set (k := Z.to_nat ((step * (stop mod n - start mod n)) mod n)).
    pose proof (Z.mod_pos_bound (step * (stop mod n - start mod n)) n Hlen)
      as Hk.
    split; [|split].
    + cbn [seq map hd_error]. f_equal.
      rewrite Z.mul_0_r, Z.add_0_r. apply Z.mod_small. exact Hs.
    + rewrite seq_S, map_app. cbn [map]. rewrite last_last. cbn [plus].
      unfold k. rewrite Z2Nat.id by lia.
      assert (Hsq : (step * step = 1)%Z) by (destruct Hstep; subst; lia).
      set (X := (step * (stop mod n - start mod n))%Z) in *.
      rewrite (Z.mod_eq X n) by lia.
      replace (start mod n + step * (X - n * (X / n)))%Z
        with (stop mod n + (- step * (X / n)) * n)%Z by (unfold X; nia).
      rewrite Z.mod_add by lia. apply Z.mod_small. exact Ht.
    + rewrite length_map, length_seq. unfold k. lia.
  - intros start stop any_fuel Hne. unfold Polygon.indices_from. fold n.
    assert (Hloop : forall f s, (0 <= s < n)%Z -> s <> (stop mod n)%Z ->
              Polygon.indices_loop f n s (stop mod n) 0 = OutOfFuel).
    { induction f as [|f IH]; intros s Hs Hs';
        cbn [Polygon.indices_loop];
        apply Z.eqb_neq in Hs'; rewrite Hs'; [reflexivity|].
      rewrite Z.add_0_r, (Z.mod_small s n) by lia.
      rewrite IH; [reflexivity | lia | now apply Z.eqb_neq]. }
    apply Hloop; [apply Z.mod_pos_bound; lia | exact Hne].
Qed.

Lemma polygon_indices_terminate_witness :
  (0 < Polygon.len Scenario.spikes_polygon)%Z /\
  (Z.to_nat (Polygon.len Scenario.spikes_polygon) <= 6)%nat /\
  Polygon.indices_from 6 Scenario.spikes_polygon 0
    (Polygon.len Scenario.spikes_polygon - 1) 1 =
    Ok (Polygon.indices Scenario.spikes_polygon).
Proof.
  assert (H1 : (0 < Polygon.len Scenario.spikes_polygon)%Z) by reflexivity.
  assert (H2 : (Z.to_nat (Polygon.len Scenario.spikes_polygon) <= 6)%nat)
    by (vm_compute; lia).
  split; [exact H1|]. split; [exact H2|].
  exact (proj1 (polygon_indices_terminate Scenario.spikes_polygon 6 H1 H2)).
Defined.


(** ** Polygons: visibility *)






(** ** Polygons: the third corner of a Delaunay triangle *)











(** ** Polygons: neighbouring trapezoids *)

Lemma beside_corner_located (polygon : Polygon.t) (i j : Z) (x offset : Q)
  (tr : Trapezoid.t) :
  Polygon.beside_corner polygon i j x offset = Ok (Some tr) ->
  exists p, Polygon.trapezoid polygon p = Ok (Some tr).
Proof.
  unfold Polygon.beside_corner.
  destruct (Line.__init__ _ _) as [line | |]; cbn [bind]; try discriminate.
  destruct (Line.y line x) as [y | |]; cbn [bind]; try discriminate.
  intro H. eexists. exact H.
Qed.

(** X25.  [neighbour_trapezoids] never raises [ValueError] (it turns it
    into the general-position error); without one of the two side bits in
    [which] it returns the empty list; it returns at most two trapezoids
    for each side asked for; and every trapezoid it returns is the
    trapezoid that [trapezoid] finds for some point. *)
Theorem neighbour_trapezoids_results (polygon : Polygon.t)
  (t : Trapezoid.t) (which : Z) :
  Polygon.neighbour_trapezoids polygon t which <> Raise ValueError /\
  (Polygon.has_bit which 2 = false -> Polygon.has_bit which 1 = false ->
   Polygon.neighbour_trapezoids polygon t which = Ok []) /\
  (forall l, Polygon.neighbour_trapezoids polygon t which = Ok l ->
     (length l <=
      (if Polygon.has_bit which 2 then 2 else 0) +
      (if Polygon.has_bit which 1 then 2 else 0))%nat /\
     forall tr, In tr l ->
       exists p, Polygon.trapezoid polygon p = Ok (Some tr)).
Proof.
  unfold Polygon.neighbour_trapezoids,
    Polygon.value_error_as_general_position.
  split; [|split].
  - unfold bind. repeat break_match; discriminate.
  - intros H2 H1. rewrite H2, H1. reflexivity.
  - intros l. unfold bind.
    destruct (Polygon.has_bit which 2) eqn:B2;
      destruct (Polygon.has_bit which 1) eqn:B1;
      cbn [andb];
      repeat break_match; try discriminate;
      intro H; inversion H; subst l; clear H;
      repeat match goal with
             | H : Ok _ = Ok _ |- _ => inversion H; subst; clear H
             | H : (_, _) = (_, _) |- _ => inversion H; subst; clear H
             end;
      (split; [cbn; lia|]);
      intros tr Hin; cbn in Hin;
      repeat match goal with
             | H : _ \/ _ |- _ => destruct H
             | H : False |- _ => contradiction
             end;
      subst;
      match goal with
      | H : Polygon.beside_corner _ _ _ _ _ = Ok (Some tr) |- _ =>
          exact (beside_corner_located _ _ _ _ _ _ H)
      end.
Qed.


(** ** Circles: collinear points *)



(** ** The trapezoid engines: moving a point off a vertical side *)



(** ** MS-SP: the side of a trapezoid *)

Lemma cyclic_between_spec (len lo hi e : Z) :
  (0 <= lo < len)%Z -> (0 <= hi < len)%Z -> (0 <= e < len)%Z ->
  Spec.cyclic_between len lo hi e =
  if (lo <? hi)%Z then (lo <=? e)%Z && (e <? hi)%Z
  else if (hi <? lo)%Z then (e <? hi)%Z || (lo <=? e)%Z
  else false.
Proof.
  intros Hlo Hhi He. unfold Spec.cyclic_between.
  assert (Hmod : forall x, (- len < x < len)%Z ->
            (x mod len = if (0 <=? x) then x else x + len)%Z).
  { intros x Hx. destruct (0 <=? x)%Z eqn:E.
    - apply Z.leb_le in E. apply Z.mod_small. lia.
    - apply Z.leb_gt in E.
      rewrite <- (Z.mod_add x 1 len) by lia. rewrite Z.mul_1_l.
      apply Z.mod_small. lia. }
  rewrite (Hmod (e - lo)%Z), (Hmod (hi - lo)%Z) by lia.
  destruct (lo <? hi)%Z eqn:E1; [|destruct (hi <? lo)%Z eqn:E2];
    destruct (0 <=? e - lo)%Z eqn:E3; destruct (0 <=? hi - lo)%Z eqn:E4;
    destruct (lo <=? e)%Z eqn:E5; destruct (e <? hi)%Z eqn:E6;
    cbn [andb orb]; lia.
Qed.

(** X28.  [trapezoid_subpolygon_position] fails its assertions exactly when
    one of the two indices is out of range or the two are equal.
    Otherwise it answers 1, 0 or -1, and exchanging the two indices negates
    the answer.  For a trapezoid whose edge indices are in range the answer
    is 1 exactly when its bottom and top edge both start in the cyclic
    range from [ix1] up to before [ix2], and -1 exactly when both start in
    the range from [ix2] up to before [ix1]. *)
Theorem trapezoid_subpolygon_position_laws (polygon : Polygon.t)
  (ix1 ix2 : Z) (trapezoid : Trapezoid.t) :
  (makestep.trapezoid_subpolygon_position polygon ix1 ix2 trapezoid =
     Raise AssertionError <->
   ~ ((0 <= ix1 < Polygon.len polygon)%Z /\
      (0 <= ix2 < Polygon.len polygon)%Z /\ ix1 <> ix2)) /\
  (forall r,
     makestep.trapezoid_subpolygon_position polygon ix1 ix2 trapezoid = Ok r ->
     (r = 1%Z \/ r = 0%Z \/ r = (-1)%Z) /\
     makestep.trapezoid_subpolygon_position polygon ix2 ix1 trapezoid =
       Ok (- r)%Z /\
     ((0 <= Trapezoid.bot_edge_ix trapezoid < Polygon.len polygon)%Z ->
      (0 <= Trapezoid.top_edge_ix trapezoid < Polygon.len polygon)%Z ->
      (r = 1%Z <->
       Spec.cyclic_between (Polygon.len polygon) ix1 ix2
         (Trapezoid.bot_edge_ix trapezoid) = true /\
       Spec.cyclic_between (Polygon.len polygon) ix1 ix2
         (Trapezoid.top_edge_ix trapezoid) = true) /\
      (r = (-1)%Z <->
       Spec.cyclic_between (Polygon.len polygon) ix2 ix1
         (Trapezoid.bot_edge_ix trapezoid) = true /\
       Spec.cyclic_between (Polygon.len polygon) ix2 ix1
         (Trapezoid.top_edge_ix trapezoid) = true))).
Proof.
  set (n := Polygon.len polygon).
  set (bot := Trapezoid.bot_edge_ix trapezoid).
  set (top := Trapezoid.top_edge_ix trapezoid).
  split.
  - unfold makestep.trapezoid_subpolygon_position. fold n bot top.
    destruct (0 <=? ix1)%Z eqn:A1; destruct (ix1 <? n)%Z eqn:A2;
      destruct (0 <=? ix2)%Z eqn:A3; destruct (ix2 <? n)%Z eqn:A4;
      cbn [andb negb];
      try (split; [intros _; lia | reflexivity]).
    destruct (ix1 <? ix2)%Z eqn:A5; [|destruct (ix2 <? ix1)%Z eqn:A6].
    + repeat break_match; split; try discriminate; lia.
    + repeat break_match; split; try discriminate; lia.
    + split; [intros _; lia | reflexivity].
  - intros r Hr.
    assert (Hrange : (0 <= ix1 < n)%Z /\ (0 <= ix2 < n)%Z /\ ix1 <> ix2).
    { revert Hr. unfold makestep.trapezoid_subpolygon_position. fold n.
      destruct (0 <=? ix1)%Z eqn:A1; destruct (ix1 <? n)%Z eqn:A2;
        destruct (0 <=? ix2)%Z eqn:A3; destruct (ix2 <? n)%Z eqn:A4;
        cbn [andb negb]; try discriminate.
      destruct (ix1 <? ix2)%Z eqn:A5; [|destruct (ix2 <? ix1)%Z eqn:A6];
        try discriminate; intros _; lia. }
    destruct Hrange as (R1 & R2 & R3).
    split; [|split].
    + revert Hr. unfold makestep.trapezoid_subpolygon_position.
      repeat break_match; intro H; inversion H; auto.
    + revert Hr. unfold makestep.trapezoid_subpolygon_position.
      fold n bot top.
      assert (A1 : (0 <=? ix1)%Z = true) by lia.
      assert (A2 : (ix1 <? n)%Z = true) by lia.
      assert (A3 : (0 <=? ix2)%Z = true) by lia.
      assert (A4 : (ix2 <? n)%Z = true) by lia.
      rewrite A1, A2, A3, A4. cbn [andb negb].
      destruct (ix1 <? ix2)%Z eqn:A5; destruct (ix2 <? ix1)%Z eqn:A6;
        try lia;
        destruct (ix1 <=? bot)%Z eqn:B1; destruct (bot <? ix2)%Z eqn:B2;
        destruct (ix1 <=? top)%Z eqn:B3; destruct (top <? ix2)%Z eqn:B4;
        destruct (bot <? ix1)%Z eqn:B5; destruct (ix2 <=? bot)%Z eqn:B6;
        destruct (top <? ix1)%Z eqn:B7; destruct (ix2 <=? top)%Z eqn:B8;
        try lia; cbn [andb orb]; intro H; inversion H; reflexivity.
    + intros Hbot Htop. fold n bot top in Hbot, Htop |- *.
      rewrite !cyclic_between_spec by (fold n; lia).
      revert Hr. unfold makestep.trapezoid_subpolygon_position.
      fold n bot top.
      assert (A1 : (0 <=? ix1)%Z = true) by lia.
      assert (A2 : (ix1 <? n)%Z = true) by lia.
      assert (A3 : (0 <=? ix2)%Z = true) by lia.
      assert (A4 : (ix2 <? n)%Z = true) by lia.
      rewrite A1, A2, A3, A4. cbn [andb negb].
      destruct (ix1 <? ix2)%Z eqn:A5; destruct (ix2 <? ix1)%Z eqn:A6;
        try lia;
        destruct (ix1 <=? bot)%Z eqn:B1; destruct (bot <? ix2)%Z eqn:B2;
        destruct (ix1 <=? top)%Z eqn:B3; destruct (top <? ix2)%Z eqn:B4;
        destruct (bot <? ix1)%Z eqn:B5; destruct (ix2 <=? bot)%Z eqn:B6;
        destruct (top <? ix1)%Z eqn:B7; destruct (ix2 <=? top)%Z eqn:B8;
        try lia; cbn [andb orb]; intro H; inversion H;
        repeat split; intros; try discriminate; try lia; try tauto;
        try (match goal with H : _ /\ _ |- _ => destruct H; discriminate end).
Qed.

Lemma trapezoid_subpolygon_position_laws_witness :
  makestep.trapezoid_subpolygon_position Scenario.spikes_polygon 1 4
    (Trapezoid.mk 0 2 6 6 0 0 2 3 None None None None) = Ok 1%Z /\
  (1%Z = 1%Z \/ 1%Z = 0%Z \/ 1%Z = (-1)%Z) /\
  makestep.trapezoid_subpolygon_position Scenario.spikes_polygon 4 1
    (Trapezoid.mk 0 2 6 6 0 0 2 3 None None None None) = Ok (- (1))%Z.
Proof.
  assert (H : makestep.trapezoid_subpolygon_position Scenario.spikes_polygon
                1 4 (Trapezoid.mk 0 2 6 6 0 0 2 3 None None None None) =
              Ok 1%Z) by reflexivity.
  split; [exact H|].
  destruct (proj2 (trapezoid_subpolygon_position_laws Scenario.spikes_polygon
                     1 4 (Trapezoid.mk 0 2 6 6 0 0 2 3 None None None None))
              1%Z H) as (H1 & H2 & _).
  split; [exact H1 | exact H2].
Defined.


(** ** MS-SP: shooting a ray at the boundary *)

Lemma for_each_prefix {A S : Type} (body : S -> A -> result S)
  (I : list A -> S -> Prop) :
  (forall done x s, I done s ->
     exists s', body s x = Ok s' /\ I (done ++ [x]) s') ->
  forall l done s, I done s ->
    exists s', for_each body l s = Ok s' /\ I (done ++ l) s'.
Proof.
  intros Hbody. induction l as [|x l IH]; intros done s Hs.
  - exists s. rewrite app_nil_r. split; [reflexivity | exact Hs].
  - destruct (Hbody done x s Hs) as (s1 & Hb & H1).
    destruct (IH (done ++ [x]) s1 H1) as (s' & Hf & H').
    exists s'. cbn [for_each]. rewrite Hb. split; [exact Hf|].
    rewrite <- app_assoc in H'. exact H'.
Qed.

(** What the loop of [hit_polygon_boundary] knows after the edges [done]:
    nothing was hit, or the nearest hit among them is stored. *)
Lemma hit_body_step (polygon : Polygon.t) (p q : point) (done : list Z)
  (x : Z) (st : option point * option Q) :
  let ip := fun ix =>
    Ray.intersection_point (Ray.mk p q)
      (Ray.Segment (Polygon.edge polygon ix)) in
  let I := fun (done : list Z) (st : option point * option Q) =>
    match st with
    | (None, None) =>
        forall ix, In ix done -> Spec.hits polygon p q ix = false
    | (Some h, Some d) =>
        exists ix tmp_hit,
          In ix done /\ Spec.hits polygon p q ix = true /\
          ip ix = Some tmp_hit /\
          h = EdgePoint (Point.x tmp_hit) (Point.y tmp_hit)
                (Point.index (Polygon.point polygon ix)) /\
          d = Point.squared_distance_to p tmp_hit /\
          forall ix' tmp', In ix' done -> Spec.hits polygon p q ix' = true ->
            ip ix' = Some tmp' -> d <= Point.squared_distance_to p tmp'
    | _ => False
    end in
  I done st ->
  exists st',
    makestep.hit_body polygon p (Ray.mk p q)
      (makestep.forbidden_indices polygon p) st x = Ok st' /\
    I (done ++ [x]) st'.
Proof.
  intros ip I HI. unfold makestep.hit_body.
  fold (Spec.hits polygon p q x).
  destruct (Spec.hits polygon p q x) eqn:Eh.
  - assert (Hray : Ray.properly_intersects (Ray.mk p q)
                     (Polygon.edge polygon x) = true).
    { unfold Spec.hits in Eh. apply andb_true_iff in Eh. tauto. }
    destruct (ray_proper_gives_point _ _ Hray) as (tmp & Htmp).
    rewrite Htmp.
    destruct st as [[h|] [d|]]; cbn [snd Polygon.none_or_closer];
      unfold I in HI; try contradiction.
    + destruct HI as (ix & tmp_hit & Hin & Hh & Hip & Hhe & Hd & Hmin).
      destruct (Qltb (Point.squared_distance_to p tmp) d) eqn:Ed;
        reflect_Q.
      * eexists. split; [reflexivity|]. unfold I.
        exists x, tmp. repeat split; try assumption.
        -- apply in_or_app. right. now left.
        -- intros ix' tmp' Hin' Hh' Hip'.
           apply in_app_or in Hin'. destruct Hin' as [Hin' | [<- | []]].
           ++ specialize (Hmin ix' tmp' Hin' Hh' Hip'). lra.
           ++ unfold ip in Hip'. rewrite Htmp in Hip'.
              inversion Hip'; subst. lra.
      * eexists. split; [reflexivity|]. unfold I.
        exists ix, tmp_hit. repeat split; try assumption.
        -- apply in_or_app. now left.
        -- intros ix' tmp' Hin' Hh' Hip'.
           apply in_app_or in Hin'. destruct Hin' as [Hin' | [<- | []]].
           ++ exact (Hmin ix' tmp' Hin' Hh' Hip').
           ++ unfold ip in Hip'. rewrite Htmp in Hip'.
              inversion Hip'; subst. exact Ed.
    + eexists. split; [reflexivity|]. unfold I.
      exists x, tmp. repeat split; try assumption.
      * apply in_or_app. right. now left.
      * intros ix' tmp' Hin' Hh' Hip'.
        apply in_app_or in Hin'. destruct Hin' as [Hin' | [<- | []]].
        -- rewrite (HI ix' Hin') in Hh'. discriminate.
        -- unfold ip in Hip'. rewrite Htmp in Hip'.
           inversion Hip'; subst. lra.
  - exists st. split; [reflexivity|].
    destruct st as [[h|] [d|]]; unfold I in *; try contradiction.
    + destruct HI as (ix & tmp_hit & Hin & Hh & Hip & Hhe & Hd & Hmin).
      exists ix, tmp_hit. repeat split; try assumption.
      * apply in_or_app. now left.
      * intros ix' tmp' Hin' Hh' Hip'.
        apply in_app_or in Hin'. destruct Hin' as [Hin' | [<- | []]].
        -- exact (Hmin ix' tmp' Hin' Hh' Hip').
        -- rewrite Eh in Hh'. discriminate.
    + intros ix Hin. apply in_app_or in Hin.
      destruct Hin as [Hin | [<- | []]]; [now apply HI | exact Eh].
Qed.

(** The result of [hit_polygon_boundary] for a point of the boundary
    classes. *)
Lemma hit_polygon_boundary_result (p q : point) (polygon : Polygon.t) :
  Spec.on_boundary_class p = true ->
  exists h,
    makestep.hit_polygon_boundary p q polygon = Ok h /\
    ((h = q /\
      forall ix, In ix (Polygon.indices polygon) ->
        Spec.hits polygon p q ix = false) \/
     (exists ix tmp_hit,
        In ix (Polygon.indices polygon) /\
        Spec.hits polygon p q ix = true /\
        Ray.intersection_point (Ray.mk p q)
          (Ray.Segment (Polygon.edge polygon ix)) = Some tmp_hit /\
        h = EdgePoint (Point.x tmp_hit) (Point.y tmp_hit)
              (Point.index (Polygon.point polygon ix)) /\
        forall ix' tmp',
          In ix' (Polygon.indices polygon) ->
          Spec.hits polygon p q ix' = true ->
          Ray.intersection_point (Ray.mk p q)
            (Ray.Segment (Polygon.edge polygon ix')) = Some tmp' ->
          Point.squared_distance_to p tmp_hit <=
          Point.squared_distance_to p tmp')).
Proof.
  intro Hp. unfold makestep.hit_polygon_boundary.
  unfold Spec.on_boundary_class in Hp. rewrite Hp. cbn [negb].
  destruct (for_each_prefix
              (makestep.hit_body polygon p (Ray.mk p q)
                 (makestep.forbidden_indices polygon p))
              _ (fun done x s => hit_body_step polygon p q done x s)
              (Polygon.indices polygon) [] (None, None))
    as (st & Hst & HI).
  { intros ix []. }
  rewrite Hst. cbn [bind app] in *.
  destruct st as [[h|] [d|]]; cbn [fst]; try contradiction.
  - exists h. split; [reflexivity|]. right.
    destruct HI as (ix & tmp_hit & Hin & Hh & Hip & Hhe & Hd & Hmin).
    exists ix, tmp_hit. repeat split; try assumption.
    intros ix' tmp' Hin' Hh' Hip'. rewrite <- Hd.
    exact (Hmin ix' tmp' Hin' Hh' Hip').
  - exists q. split; [reflexivity|]. left. split; [reflexivity | exact HI].
Qed.




(** ** MS-SP: one step *)

Lemma hit_class (p q h : point) (polygon : Polygon.t) :
  Spec.on_boundary_class q = true ->
  makestep.hit_polygon_boundary p q polygon = Ok h ->
  Spec.on_boundary_class h = true.
Proof.
  intros Hq Hh.
  destruct (Spec.on_boundary_class p) eqn:Hp.
  - destruct (hit_polygon_boundary_result p q polygon Hp)
      as (h' & Hh' & [[-> _] | (ix & tmp & _ & _ & _ & -> & _)]);
      rewrite Hh' in Hh; inversion Hh; subst h; [exact Hq | reflexivity].
  - unfold makestep.hit_polygon_boundary in Hh.
    unfold Spec.on_boundary_class in Hp. rewrite Hp in Hh. discriminate.
Qed.

Lemma point_class (pts : list point) (polygon : Polygon.t) (i : Z) :
  Polygon.__init__ pts = Ok polygon ->
  is_polygon_point (Polygon.point polygon i) = true.
Proof.
  intro H. destruct (polygon_init_point pts polygon i H)
    as (_ & _ & q & _ & ->). reflexivity.
Qed.

Lemma succ_class (pts : list point) (polygon : Polygon.t) (v s : point) :
  Polygon.__init__ pts = Ok polygon ->
  Polygon.succ polygon v = Ok s -> is_polygon_point s = true.
Proof.
  intros H. unfold Polygon.succ. destruct (Point.index v); [|discriminate].
  intro Hs. inversion Hs. now apply (point_class pts).
Qed.

Lemma pred_class (pts : list point) (polygon : Polygon.t) (v s : point) :
  Polygon.__init__ pts = Ok polygon ->
  Polygon.pred polygon v = Ok s -> is_polygon_point s = true.
Proof.
  intros H. unfold Polygon.pred. destruct (Point.index v); [|discriminate].
  intro Hs. inversion Hs. destruct (is_edge_point v);
    now apply (point_class pts).
Qed.

Lemma polygon_is_boundary_class (p : point) :
  is_polygon_point p = true -> Spec.on_boundary_class p = true.
Proof.
  unfold Spec.on_boundary_class. now intros ->.
Qed.

Lemma nearer_of_class (p h v : point) :
  Spec.on_boundary_class h = true -> Spec.on_boundary_class v = true ->
  Spec.on_boundary_class (makestep.nearer_of p h v) = true.
Proof.
  unfold makestep.nearer_of. now destruct (Qle_bool _ _).
Qed.

Ltac bind_step H :=
  match type of H with
  | bind ?r _ = Ok _ =>
      let E := fresh "E" in
      destruct r eqn:E; cbn [bind] in H; [|discriminate H|discriminate H]
  | (if ?c then _ else _) = Ok _ =>
      let E := fresh "E" in
      destruct c eqn:E; try discriminate H
  end.

Lemma step_over_pred_result (pts : list point) (polygon : Polygon.t)
  (p q1 q2 t : point) (t_trapezoid : Trapezoid.t)
  (r : makestep.MakeStepResult) :
  Polygon.__init__ pts = Ok polygon ->
  is_polygon_point p = true ->
  Spec.on_boundary_class q1 = true -> Spec.on_boundary_class q2 = true ->
  makestep.step_over_pred p q1 q2 t polygon t_trapezoid = Ok r ->
  Spec.keeps_cusp p q1 q2 r /\
  is_polygon_point (makestep.cusp r) = true /\
  Spec.on_boundary_class (makestep.right r) = true /\
  Spec.on_boundary_class (makestep.left r) = true.
Proof.
  intros Hinit Hp Hq1 Hq2 H. unfold makestep.step_over_pred in H.
  bind_step H. bind_step H. bind_step H. bind_step H.
  assert (Hv : Spec.on_boundary_class v = true).
  { apply polygon_is_boundary_class. exact (pred_class _ _ _ _ Hinit E). }
  assert (Hn : Spec.on_boundary_class (makestep.nearer_of p v0 v) = true).
  { apply nearer_of_class; [|exact Hv]. exact (hit_class _ _ _ _ Hv E0). }
  bind_step H; inversion H; subst r; clear H;
    unfold Spec.keeps_cusp; cbn; auto 10.
Qed.

(** X30.  One call of [make_step] on a polygon made by the constructor, when
    it returns: either the cusp stays ([old_cusp] is [None], the cusp is
    [p]) and one of the two points [q1], [q2] stays in its place, or the
    cusp moves to [q1] or [q2], which then is a polygon point, [old_cusp]
    is [p], and the successor of [q1] becomes the right point or the
    predecessor of [q2] the left one.  In both cases the new cusp is a
    polygon point and the new right and left points are polygon points or
    edge points, so the result passes the type assertions of the next
    call.  A cusp that is not a polygon point fails the assertion. *)
Theorem make_step_result (pts : list point) (polygon : Polygon.t)
  (p q1 q2 t : point) (t_trapezoid : Trapezoid.t) :
  Polygon.__init__ pts = Ok polygon ->
  (is_polygon_point p = false ->
   makestep.make_step p q1 q2 t polygon t_trapezoid = Raise AssertionError) /\
  (forall r,
     makestep.make_step p q1 q2 t polygon t_trapezoid = Ok r ->
     (Spec.keeps_cusp p q1 q2 r \/ Spec.advances_cusp polygon p q1 q2 r) /\
     is_polygon_point (makestep.cusp r) = true /\
     Spec.on_boundary_class (makestep.right r) = true /\
     Spec.on_boundary_class (makestep.left r) = true).
Proof.
  intro Hinit. split.
  - intro Hp. unfold makestep.make_step. now rewrite Hp.
  - intros r H. unfold makestep.make_step in H.
    destruct (is_polygon_point p) eqn:Hp; cbn [negb] in H;
      [|discriminate H].
    fold (Spec.on_boundary_class q1) in H.
    fold (Spec.on_boundary_class q2) in H.
    destruct (Spec.on_boundary_class q1) eqn:Hq1; cbn [negb] in H;
      [|discriminate H].
    destruct (Spec.on_boundary_class q2) eqn:Hq2; cbn [negb] in H;
      [|discriminate H].
    bind_step H. destruct v.
    + (* the cusp may move to q1 *)
      assert (Hc1 : is_polygon_point q1 = true).
      { destruct (is_polygon_point q1); [reflexivity|]. discriminate E. }
      bind_step H. bind_step H.
      assert (Hh : Spec.on_boundary_class v = true)
        by exact (hit_class _ _ _ _ Hq1 E0).
      destruct v0.
      * bind_step H. inversion H; subst r; clear H.
        split; [|cbn; repeat split; try assumption;
                 apply polygon_is_boundary_class;
                 exact (succ_class _ _ _ _ Hinit E2)].
        right. unfold Spec.advances_cusp. cbn. split; [reflexivity|].
        left. auto.
      * inversion H; subst r; clear H.
        split; [|cbn; auto]. left. unfold Spec.keeps_cusp. cbn. auto.
    + bind_step H. destruct v.
      * (* the cusp may move to q2 *)
        assert (Hc2 : is_polygon_point q2 = true).
        { destruct (is_polygon_point q2); [reflexivity|]. discriminate E0. }
        bind_step H. bind_step H.
        assert (Hh : Spec.on_boundary_class v = true)
          by exact (hit_class _ _ _ _ Hq2 E1).
        destruct v0.
        -- bind_step H. inversion H; subst r; clear H.
           split; [|cbn; repeat split; try assumption;
                    apply polygon_is_boundary_class;
                    exact (pred_class _ _ _ _ Hinit E3)].
           right. unfold Spec.advances_cusp. cbn. split; [reflexivity|].
           right. auto.
        -- inversion H; subst r; clear H.
           split; [|cbn; auto]. left. unfold Spec.keeps_cusp. cbn. auto.
      * (* the cusp stays *)
        bind_step H.
        assert (Hs : Spec.on_boundary_class v = true).
        { apply polygon_is_boundary_class.
          exact (succ_class _ _ _ _ Hinit E1). }
        assert (Hover : forall r,
          makestep.step_over_pred p q1 q2 t polygon t_trapezoid = Ok r ->
          (Spec.keeps_cusp p q1 q2 r \/
           Spec.advances_cusp polygon p q1 q2 r) /\
          is_polygon_point (makestep.cusp r) = true /\
          Spec.on_boundary_class (makestep.right r) = true /\
          Spec.on_boundary_class (makestep.left r) = true).
        { intros r' Hr'.
          destruct (step_over_pred_result pts polygon p q1 q2 t t_trapezoid
                      r' Hinit Hp Hq1 Hq2 Hr') as (K & C).
          split; [now left | exact C]. }
        bind_step H; [|now apply Hover].
        bind_step H. bind_step H; [|now apply Hover].
        assert (Hn : Spec.on_boundary_class (makestep.nearer_of p v0 v)
                     = true).
        { apply nearer_of_class; [|exact Hs].
          exact (hit_class _ _ _ _ Hs E3). }
        bind_step H. bind_step H.
        bind_step H; inversion H; subst r; clear H;
          (split; [left; unfold Spec.keeps_cusp; cbn; auto | cbn; auto]).
Qed.

Lemma make_step_result_witness :
  Polygon.__init__ Scenario.spikes = Ok Scenario.spikes_polygon /\
  exists r,
    makestep.make_step (PolygonPoint 1 1 None) (EdgePoint 2 0 (Some 0%Z))
      (PolygonPoint 2 2 (Some 2%Z)) (Point 5 (1 # 4)) Scenario.spikes_polygon
      (Trapezoid.mk 2 6 2 0 0 0 1 0 (Some 2%Z) None (Some 1%Z) (Some 1%Z)) =
      Ok r /\
    (Spec.keeps_cusp (PolygonPoint 1 1 None) (EdgePoint 2 0 (Some 0%Z))
       (PolygonPoint 2 2 (Some 2%Z)) r \/
     Spec.advances_cusp Scenario.spikes_polygon (PolygonPoint 1 1 None)
       (EdgePoint 2 0 (Some 0%Z)) (PolygonPoint 2 2 (Some 2%Z)) r) /\
    is_polygon_point (makestep.cusp r) = true /\
    Spec.on_boundary_class (makestep.right r) = true /\
    Spec.on_boundary_class (makestep.left r) = true.
Proof.
  assert (H : Polygon.__init__ Scenario.spikes = Ok Scenario.spikes_polygon)
    by reflexivity.
  split; [exact H|].
  eexists. split.
  - vm_compute. reflexivity.
  - apply (proj2 (make_step_result Scenario.spikes Scenario.spikes_polygon
                    (PolygonPoint 1 1 None) (EdgePoint 2 0 (Some 0%Z))
                    (PolygonPoint 2 2 (Some 2%Z)) (Point 5 (1 # 4))
                    (Trapezoid.mk 2 6 2 0 0 0 1 0 (Some 2%Z) None (Some 1%Z)
                       (Some 1%Z)) H)).
    vm_compute. reflexivity.
Defined.
